(** * rawtools: range scanning, rescaling, volume conversion, slice assembly

    A shallow embedding of [rawtools/convert.py] and [rawtools/nsihdr.py].

    - Python and numpy numbers are modelled with the IEEE-754 specification
      of the standard library ([spec_float]): binary64 for Python floats and
      float64 arrays, binary32 for float32 arrays and scalars.
    - [scale] is written once, over an interface of the four arithmetic
      operators it uses, the way the Python function is duck-typed; it is
      instantiated at exact rationals and at numpy values.
    - Files are a finite map from paths to contents; the functions that
      touch the disk are state-passing functions that may raise. *)

From Stdlib Require Import ZArith QArith Qround Bool List Lia.
From Stdlib Require Import Strings.String Strings.Ascii Strings.Byte.
From Stdlib Require Import Floats.SpecFloat.
From Stdlib Require Import Sorting.Sorted.
From stdpp Require Import base option list strings gmap.

Local Open Scope Z_scope.

(** ** Arithmetic interface of [scale] *)

(** The operators [scale] applies to its arguments. *)
Class PyNumber (A : Type) := {
  py_sub : A -> A -> A;
  py_div : A -> A -> A;
  py_mul : A -> A -> A;
  py_add : A -> A -> A
}.

(** convert.py, [scale]:  [return (x - a) / (b - a) * (d - c) + c] *)
Definition scale {A : Type} `{PyNumber A} (x a b c d : A) : A :=
  py_add (py_mul (py_div (py_sub x a) (py_sub b a)) (py_sub d c)) c.

(** Exact arithmetic: rationals (Python's [fractions.Fraction]). *)
#[export] Instance Q_number : PyNumber Q := {
  py_sub := Qminus;
  py_div := Qdiv;
  py_mul := Qmult;
  py_add := Qplus
}.

(** ** Exceptions *)

(** The Python exceptions the two modules can raise, with their message. *)
Inductive exn : Type :=
  | ValueError (msg : string)
  | TypeError (msg : string)
  | ZeroDivisionError
  | FileNotFoundError (path : string)
  | UnboundLocalError (name : string)
  | NameError (name : string)
  | SystemExit (code : Z)
  | MetadataError (path : string)
  | NotModelled (what : string).

(** ** numpy and Python numbers *)

(** The two floating-point formats in play. *)
Variant fmt : Type := Single | Double.

Definition prec_of (f : fmt) : Z := match f with Single => 24 | Double => 53 end.
Definition emax_of (f : fmt) : Z := match f with Single => 128 | Double => 1024 end.

Definition fmt_eqb (f g : fmt) : bool :=
  match f, g with Single, Single | Double, Double => true | _, _ => false end.

Definition fmt_max (f g : fmt) : fmt :=
  match f, g with Single, Single => Single | _, _ => Double end.

(** Correctly rounded conversion of an integer. *)
Definition sf_of_Z (f : fmt) (z : Z) : spec_float :=
  binary_normalize (prec_of f) (emax_of f) z 0 false.

(** Conversion between formats: exact when widening, round-to-nearest-even
    (overflowing to infinity) when narrowing. *)
Definition sf_cast (f : fmt) (x : spec_float) : spec_float :=
  match x with
  | S754_finite s m e => binary_round (prec_of f) (emax_of f) s m e
  | _ => x
  end.

(** [np.finfo(np.float32).max], and [.min] is its opposite. *)
Definition FLT_MAX : spec_float := SFmax_float 24 128.
Definition FLT_MIN : spec_float := SFopp FLT_MAX.

(** The values that flow through [scale]: Python scalars, numpy scalars and
    numpy arrays with their element type; [PyRaise e] stands for an
    operation that raised [e]. *)
Inductive npval : Type :=
  | PyNone
  | PyInt (z : Z)
  | PyFloat (x : spec_float)
  | NpFloat32 (x : spec_float)
  | NdUInt (bits : Z) (zs : list Z)
  | NdFloat32 (xs : list spec_float)
  | NdFloat64 (xs : list spec_float)
  | PyRaise (e : exn).

(** An operand seen by kind: its payload is the list of its elements, a
    single one for a scalar. [arr] tells an array from a scalar (and gives
    the width of an unsigned array). *)
Variant view : Type :=
  | VInt (arr : option Z) (zs : list Z)
  | VFloat (arr : bool) (f : fmt) (xs : list spec_float)
  | VNone
  | VExn (e : exn).

Definition view_of (v : npval) : view :=
  match v with
  | PyNone => VNone
  | PyInt z => VInt None [z]
  | PyFloat x => VFloat false Double [x]
  | NpFloat32 x => VFloat false Single [x]
  | NdUInt w zs => VInt (Some w) zs
  | NdFloat32 xs => VFloat true Single xs
  | NdFloat64 xs => VFloat true Double xs
  | PyRaise e => VExn e
  end.

Definition is_array (v : view) : bool :=
  match v with
  | VInt (Some _) _ | VFloat true _ _ => true
  | _ => false
  end.

(** numpy broadcasting of a binary operator: a scalar is combined with
    every element of an array. Two arrays (which the two modules never
    combine) go element by element. *)
Definition broadcast {A : Type} (op : A -> A -> A) (dflt : A)
    (la ra : bool) (xs ys : list A) : list A :=
  match la, ra with
  | true, true => zip_with op xs ys
  | true, false => map (fun x => op x (hd dflt ys)) xs
  | false, true => map (op (hd dflt xs)) ys
  | false, false => [op (hd dflt xs) (hd dflt ys)]
  end.

(** numpy's value-based casting, as numpy 1.x has it: against an array, a
    scalar counts with the smallest type that holds its value
    ([min_scalar_type]). A Python float counts as a float64 only when it is
    finite and not strictly between -3.4e38 and 3.4e38; a Python integer
    counts as an integer of at most 16 bits between -32768 and 65535, and as
    a wider one otherwise. *)
Definition float32_limit : spec_float := sf_of_Z Double (34 * 10 ^ 37).

Definition needs_float64 (x : spec_float) : bool :=
  match x with
  | S754_finite _ _ _ =>
      negb (SFltb (SFopp float32_limit) x && SFltb x float32_limit)
  | _ => false
  end.

Definition int_fits_16 (z : Z) : bool := (-32768 <=? z) && (z <=? 65535).

(** The Python integers numpy takes as a 64-bit integer; a larger one makes
    an array of Python objects, which is not modelled. *)
Definition int_fits_64 (z : Z) : bool := (- 2 ^ 63 <=? z) && (z <? 2 ^ 64).

(** The element type of an array of type [array] combined with a float
    scalar of type [scalar] and value [x]. *)
Definition against_array (array scalar : fmt) (x : spec_float) : fmt :=
  match array, scalar with
  | Double, _ => Double
  | Single, Single => Single
  | Single, Double => if needs_float64 x then Double else Single
  end.

(** Result type of an operation with at least one floating-point operand:
    whether it is an array, and its element type. Two arrays, or two
    scalars, take the larger of their types (a Python integer being a
    64-bit one); an array against a scalar follows the value-based casting
    above; an unsigned array of 8 or 16 bits takes the type of a
    floating-point operand. *)
Definition float_type (l r : view) : option (bool * fmt) :=
  match l, r with
  | VFloat al fl xs, VFloat ar fr ys =>
      if al && ar then Some (true, fmt_max fl fr)
      else if al then Some (true, against_array fl fr (hd S754_nan ys))
      else if ar then Some (true, against_array fr fl (hd S754_nan xs))
      else Some (false, fmt_max fl fr)
  | VFloat a f _, VInt None zs | VInt None zs, VFloat a f _ =>
      if int_fits_64 (hd 0 zs) then
        if a then Some (true, if int_fits_16 (hd 0 zs) then f else Double)
        else Some (false, Double)
      else None
  | VFloat _ f _, VInt (Some _) _ | VInt (Some _) _, VFloat _ f _ => Some (true, f)
  | _, _ => None
  end.

Definition as_floats (f : fmt) (v : view) : list spec_float :=
  match v with
  | VInt _ zs => map (sf_of_Z f) zs
  | VFloat _ _ xs => map (sf_cast f) xs
  | _ => []
  end.

Definition mk_float (arr : bool) (f : fmt) (xs : list spec_float) : npval :=
  match arr, f with
  | true, Single => NdFloat32 xs
  | true, Double => NdFloat64 xs
  | false, Single => NpFloat32 (hd S754_nan xs)
  | false, Double => PyFloat (hd S754_nan xs)
  end.

Definition float_op (fop : Z -> Z -> spec_float -> spec_float -> spec_float)
    (l r : view) : npval :=
  match float_type l r with
  | Some (arr, f) =>
      mk_float arr f
        (broadcast (fop (prec_of f) (emax_of f)) S754_nan
           (is_array l) (is_array r) (as_floats f l) (as_floats f r))
  | None => PyRaise (NotModelled "operand types")
  end.

(** An unsigned array against a Python integer that fits its element type
    stays in that type and wraps around. *)
Definition uint_op (zop : Z -> Z -> Z) (w : Z) (la ra : bool)
    (xs ys : list Z) (scalar : Z) : npval :=
  if (0 <=? scalar) && (scalar <? 2 ^ w)
  then NdUInt w (broadcast (fun x y => zop x y mod 2 ^ w) 0 la ra xs ys)
  else PyRaise (NotModelled "integer upcast").

(** [-], [*] and [+]. The left operand is evaluated first, so its exception
    wins. *)
Definition np_arith (zop : Z -> Z -> Z)
    (fop : Z -> Z -> spec_float -> spec_float -> spec_float)
    (l r : npval) : npval :=
  match view_of l, view_of r with
  | VExn e, _ => PyRaise e
  | _, VExn e => PyRaise e
  | VNone, _ | _, VNone => PyRaise (TypeError "unsupported operand type(s)")
  | VInt None xs, VInt None ys => PyInt (zop (hd 0 xs) (hd 0 ys))
  | VInt (Some w) xs, VInt None ys => uint_op zop w true false xs ys (hd 0 ys)
  | VInt None xs, VInt (Some w) ys => uint_op zop w false true xs ys (hd 0 xs)
  | VInt (Some w1) xs, VInt (Some w2) ys =>
      NdUInt (Z.max w1 w2)
        (broadcast (fun x y => zop x y mod 2 ^ Z.max w1 w2) 0 true true xs ys)
  | vl, vr => float_op fop vl vr
  end.

Definition is_zero (x : spec_float) : bool :=
  match x with S754_zero _ => true | _ => false end.

(** Is the divisor a Python scalar equal to zero, under a Python scalar?
    Python raises there; numpy returns an infinity or a NaN. *)
Definition py_zero_divisor (l r : view) : bool :=
  match l, r with
  | (VInt None _ | VFloat false Double _), VInt None ys => hd 0 ys =? 0
  | (VInt None _ | VFloat false Double _), VFloat false Double ys =>
      is_zero (hd S754_nan ys)
  | _, _ => false
  end.

Definition f64_div (x y : Z) : spec_float :=
  SFdiv 53 1024 (sf_of_Z Double x) (sf_of_Z Double y).

(** [/], true division: integers divide in binary64. *)
Definition np_div (l r : npval) : npval :=
  match view_of l, view_of r with
  | VExn e, _ => PyRaise e
  | _, VExn e => PyRaise e
  | VNone, _ | _, VNone => PyRaise (TypeError "unsupported operand type(s)")
  | vl, vr =>
      if py_zero_divisor vl vr then PyRaise ZeroDivisionError
      else match vl, vr with
           | VInt None xs, VInt None ys => PyFloat (f64_div (hd 0 xs) (hd 0 ys))
           | VInt _ xs, VInt _ ys =>
               NdFloat64
                 (broadcast (SFdiv 53 1024) S754_nan (is_array vl) (is_array vr)
                    (map (sf_of_Z Double) xs) (map (sf_of_Z Double) ys))
           | _, _ => float_op SFdiv vl vr
           end
  end.

#[export] Instance npval_number : PyNumber npval := {
  py_sub := np_arith Z.sub SFsub;
  py_div := np_div;
  py_mul := np_arith Z.mul SFmul;
  py_add := np_arith Z.add SFadd
}.

(** The C cast of a floating-point number to an integer truncates toward
    zero. *)
Definition sf_trunc (x : spec_float) : Z :=
  match x with
  | S754_finite s m e =>
      let mag := match e with
                 | Zneg p => Z.pos m / 2 ^ Z.pos p
                 | _ => Z.pos m * 2 ^ e
                 end in
      if s then - mag else mag
  | _ => 0
  end.

(** C defines the cast of a floating-point number to an unsigned type of
    [bits] bits when its integral part is a value of that type. *)
Definition castable (bits : Z) (x : spec_float) : bool :=
  match x with
  | S754_nan | S754_infinity _ => false
  | _ => (0 <=? sf_trunc x) && (sf_trunc x <? 2 ^ bits)
  end.

(** The conversion numpy's loops are compiled to on x86-64, for a target
    of 8 or 16 bits: the truncating conversion to a signed 32-bit integer,
    which answers [-2^31] for a NaN, an infinity or an integral part that
    does not fit, then its low bits. Where the cast is defined this is the
    integral part. *)
Definition cast_uint (bits : Z) (x : spec_float) : Z :=
  let z := sf_trunc x in
  let fits :=
    match x with
    | S754_nan | S754_infinity _ => false
    | _ => (- 2 ^ 31 <=? z) && (z <? 2 ^ 31)
    end in
  (if fits then z else - 2 ^ 31) mod 2 ^ bits.

(** [ndarray.astype('uintN')]. *)
Definition astype_uint (bits : Z) (v : npval) : npval :=
  match v with
  | NdUInt _ zs => NdUInt bits (map (fun z => z mod 2 ^ bits) zs)
  | NdFloat32 xs | NdFloat64 xs => NdUInt bits (map (cast_uint bits) xs)
  | PyRaise e => PyRaise e
  | _ => PyRaise (NotModelled "astype on a scalar")
  end.

(** [ndarray.astype('float32')]. *)
Definition astype_float32 (v : npval) : npval :=
  match v with
  | NdUInt _ zs => NdFloat32 (map (sf_of_Z Single) zs)
  | NdFloat32 xs | NdFloat64 xs => NdFloat32 (map (sf_cast Single) xs)
  | PyRaise e => PyRaise e
  | _ => PyRaise (NotModelled "astype on a scalar")
  end.

(** ** Bytes and sample encodings *)

Definition byte_to_Z (b : byte) : Z := Z.of_N (Byte.to_N b).

Definition byte_of_Z (z : Z) : byte :=
  match Byte.of_N (Z.to_N (z mod 256)) with
  | Some b => b
  | None => x00
  end.

(** Little-endian layout of a 16-bit and of a 32-bit word. *)
Definition le16 (z : Z) : list byte := [byte_of_Z z; byte_of_Z (z / 2 ^ 8)].

Definition le32 (z : Z) : list byte :=
  [byte_of_Z z; byte_of_Z (z / 2 ^ 8); byte_of_Z (z / 2 ^ 16); byte_of_Z (z / 2 ^ 24)].

Definition word16 (b0 b1 : byte) : Z := byte_to_Z b0 + 2 ^ 8 * byte_to_Z b1.

Definition word32 (b0 b1 b2 b3 : byte) : Z :=
  byte_to_Z b0 + 2 ^ 8 * byte_to_Z b1 + 2 ^ 16 * byte_to_Z b2 + 2 ^ 24 * byte_to_Z b3.

(** IEEE-754 binary32: 1 sign bit, 8 exponent bits, 23 fraction bits. *)
Definition decode_f32 (bits : Z) : spec_float :=
  let s := 2 ^ 31 <=? bits in
  let E := (bits / 2 ^ 23) mod 2 ^ 8 in
  let frac := bits mod 2 ^ 23 in
  if E =? 255 then (if frac =? 0 then S754_infinity s else S754_nan)
  else if E =? 0 then
    match frac with
    | Zpos m => S754_finite s m (-149)
    | _ => S754_zero s
    end
  else
    match 2 ^ 23 + frac with
    | Zpos m => S754_finite s m (E - 150)
    | _ => S754_nan
    end.

Definition encode_f32 (x : spec_float) : Z :=
  let sign (s : bool) := if s then 2 ^ 31 else 0 in
  match x with
  | S754_zero s => sign s
  | S754_infinity s => sign s + 255 * 2 ^ 23
  | S754_nan => 255 * 2 ^ 23 + 2 ^ 22
  | S754_finite s m e =>
      if 2 ^ 23 <=? Z.pos m
      then sign s + (e + 150) * 2 ^ 23 + (Z.pos m - 2 ^ 23)
      else sign s + Z.pos m
  end.

(** ** Results and the state of the world *)

Inductive res (A : Type) : Type :=
  | Ok (a : A)
  | Raise (e : exn).
Arguments Ok {A} a.
Arguments Raise {A} e.

(** [np.dtype(name).itemsize], for numpy's fixed-size number types; another
    name is not a data type. *)
Definition np_itemsize (name : string) : option nat :=
  if String.eqb name "uint8" then Some 1%nat
  else if String.eqb name "int8" then Some 1%nat
  else if String.eqb name "uint16" then Some 2%nat
  else if String.eqb name "int16" then Some 2%nat
  else if String.eqb name "float16" then Some 2%nat
  else if String.eqb name "uint32" then Some 4%nat
  else if String.eqb name "int32" then Some 4%nat
  else if String.eqb name "float32" then Some 4%nat
  else if String.eqb name "uint64" then Some 8%nat
  else if String.eqb name "int64" then Some 8%nat
  else if String.eqb name "float64" then Some 8%nat
  else None.

(** [np.frombuffer(buffer, dtype)]: the buffer is cut into elements; a
    buffer that is not a whole number of elements is refused. *)
Definition buffer_size_error : exn :=
  ValueError "buffer size must be a multiple of element size".

Fixpoint frombuffer_u16 (bs : list byte) : res (list Z) :=
  match bs with
  | [] => Ok []
  | b0 :: b1 :: rest =>
      match frombuffer_u16 rest with
      | Ok zs => Ok (word16 b0 b1 :: zs)
      | Raise e => Raise e
      end
  | _ => Raise buffer_size_error
  end.

Fixpoint frombuffer_f32 (bs : list byte) : res (list spec_float) :=
  match bs with
  | [] => Ok []
  | b0 :: b1 :: b2 :: b3 :: rest =>
      match frombuffer_f32 rest with
      | Ok xs => Ok (decode_f32 (word32 b0 b1 b2 b3) :: xs)
      | Raise e => Raise e
      end
  | _ => Raise buffer_size_error
  end.

Definition frombuffer (dtype : string) (bs : list byte) : res npval :=
  if String.eqb dtype "uint8" then Ok (NdUInt 8 (map byte_to_Z bs))
  else if String.eqb dtype "uint16" then
    match frombuffer_u16 bs with
    | Ok zs => Ok (NdUInt 16 zs)
    | Raise e => Raise e
    end
  else if String.eqb dtype "float32" then
    match frombuffer_f32 bs with
    | Ok xs => Ok (NdFloat32 xs)
    | Raise e => Raise e
    end
  else Raise (NotModelled "dtype").

(** [ndarray.tofile]: the raw bytes of the elements, in order. *)
Definition tobytes (v : npval) : res (list byte) :=
  match v with
  | NdUInt 8 zs => Ok (map byte_of_Z zs)
  | NdUInt 16 zs => Ok (flat_map le16 zs)
  | NdFloat32 xs => Ok (flat_map (fun x => le32 (encode_f32 x)) xs)
  | PyRaise e => Raise e
  | _ => Raise (NotModelled "tofile")
  end.

(** [ndarray.astype(name)]. *)
Definition astype (name : string) (v : npval) : npval :=
  if String.eqb name "uint8" then astype_uint 8 v
  else if String.eqb name "uint16" then astype_uint 16 v
  else if String.eqb name "float32" then astype_float32 v
  else match v with
       | PyRaise e => PyRaise e
       | _ => PyRaise (NotModelled "dtype")
       end.

(** The text side car of a volume, as the DAT reader returns it. *)
Record dat_record : Type := {
  xdim : nat;
  ydim : nat;
  zdim : nat;
  x_thickness : spec_float;
  y_thickness : spec_float;
  z_thickness : spec_float;
  dat_format : string;
  model : string
}.

(** One line of an NSI project header, by the regular expressions of
    [read_nsihdr] that match it and the groups they capture. The group of
    a distance, [[\d\.]+], is kept as the text it is: [float] refuses some
    of these texts. The other groups always convert ([\d+] for [int],
    [\-?\d+\.\d+] for [float]) and are kept as the values they denote. *)
Record hdr_line : Type := {
  ln_nsidat : option string;
  ln_detector_text : option string;
  ln_table_text : option string;
  ln_bit_depth : option Z;
  ln_resolution : option (nat * nat * nat);
  ln_data_range : option (spec_float * spec_float)
}.

(** What a path holds. Volumes and slice files are raw bytes; the text files
    are kept parsed. *)
Inductive fcontent : Type :=
  | Raw (bs : list byte)
  | Dat (d : dat_record)
  | Hdr (doc : list hdr_line)
  | RangeRecord (lower upper : npval).

Variant level : Type := INFO | WARNING | ERROR.

(** A log record; [args] are the numbers formatted into the text. Records
    of level DEBUG and the progress bars are not modelled. *)
Inductive log_entry : Type :=
  | Log (lvl : level) (text : string) (args : list npval)
  | LogExn (e : exn).

(** The disk, the log, and the module-level variables of [nsihdr]. *)
Record state : Type := {
  files : gmap string fcontent;
  log : list log_entry;
  INITIAL_LOWER_BOUND : npval;
  INITIAL_UPPER_BOUND : npval;
  TARGET_LOWER_BOUND : npval;
  TARGET_UPPER_BOUND : npval
}.

Definition set_files (f : gmap string fcontent -> gmap string fcontent)
    (st : state) : state :=
  {| files := f (files st); log := log st;
     INITIAL_LOWER_BOUND := INITIAL_LOWER_BOUND st;
     INITIAL_UPPER_BOUND := INITIAL_UPPER_BOUND st;
     TARGET_LOWER_BOUND := TARGET_LOWER_BOUND st;
     TARGET_UPPER_BOUND := TARGET_UPPER_BOUND st |}.

Definition add_log (e : log_entry) (st : state) : state :=
  {| files := files st; log := log st ++ [e];
     INITIAL_LOWER_BOUND := INITIAL_LOWER_BOUND st;
     INITIAL_UPPER_BOUND := INITIAL_UPPER_BOUND st;
     TARGET_LOWER_BOUND := TARGET_LOWER_BOUND st;
     TARGET_UPPER_BOUND := TARGET_UPPER_BOUND st |}.

Definition set_initial (lo hi : npval) (st : state) : state :=
  {| files := files st; log := log st;
     INITIAL_LOWER_BOUND := lo;
     INITIAL_UPPER_BOUND := hi;
     TARGET_LOWER_BOUND := TARGET_LOWER_BOUND st;
     TARGET_UPPER_BOUND := TARGET_UPPER_BOUND st |}.

(** ** A state and exception monad *)

Definition M (A : Type) : Type := state -> res A * state.

Definition ret {A : Type} (a : A) : M A := fun st => (Ok a, st).

Definition raise {A : Type} (e : exn) : M A := fun st => (Raise e, st).

Definition bind {A B : Type} (m : M A) (k : A -> M B) : M B :=
  fun st =>
    match m st with
    | (Ok a, st') => k a st'
    | (Raise e, st') => (Raise e, st')
    end.

Notation "'let*' x ':=' m 'in' k" := (bind m (fun x => k))
  (at level 10, x pattern, m at level 100, k at level 200).

Notation "m '>>' k" := (bind m (fun _ => k))
  (at level 61, left associativity, only parsing).

Definition lift {A : Type} (r : res A) : M A := fun st => (r, st).

Definition modify (f : state -> state) : M unit := fun st => (Ok tt, f st).

Definition gets {A : Type} (f : state -> A) : M A := fun st => (Ok (f st), st).

Definition logging (lvl : level) (text : string) (args : list npval) : M unit :=
  modify (add_log (Log lvl text args)).

(** [except Exception] does not catch [SystemExit]. *)
Definition is_Exception (e : exn) : bool :=
  match e with SystemExit _ => false | _ => true end.

(** [try: m  except Exception as err: logging.error(err); raise] *)
Definition log_and_reraise {A : Type} (m : M A) : M A :=
  fun st =>
    match m st with
    | (Raise e, st') =>
        if is_Exception e then (Raise e, add_log (LogExn e) st')
        else (Raise e, st')
    | r => r
    end.

(** ** Files *)

(** [os.path.exists] and [os.path.isfile]; directories are not modelled. *)
Definition path_exists (p : string) : M bool :=
  gets (fun st => bool_decide (is_Some (files st !! p))).

(** [open(p, 'rb')] followed by reads: the bytes of the file. *)
Definition open_rb (p : string) : M (list byte) :=
  fun st =>
    match files st !! p with
    | Some (Raw bs) => (Ok bs, st)
    | Some _ => (Raise (NotModelled "bytes of a text file"), st)
    | None => (Raise (FileNotFoundError p), st)
    end.

(** [os.path.getsize]. *)
Definition getsize (p : string) : M nat :=
  let* bs := open_rb p in ret (length bs).

(** [open(p, 'wb')]: the file is created, or emptied. *)
Definition open_wb (p : string) : M unit :=
  modify (set_files (fun fs => <[p := Raw []]> fs)).

(** A write at the end of the file at [p], creating it if need be (a write
    through a handle opened with 'wb', or through one opened with 'ab'). *)
Definition append_bytes (p : string) (bs : list byte) : M unit :=
  fun st =>
    match files st !! p with
    | Some (Raw old) =>
        (Ok tt, set_files (fun fs => <[p := Raw (old ++ bs)]> fs) st)
    | Some _ => (Raise (NotModelled "bytes of a text file"), st)
    | None => (Ok tt, set_files (fun fs => <[p := Raw bs]> fs) st)
    end.

(** [os.remove]. *)
Definition os_remove (p : string) : M unit :=
  fun st =>
    match files st !! p with
    | Some _ => (Ok tt, set_files (fun fs => delete p fs) st)
    | None => (Raise (FileNotFoundError p), st)
    end.

(** The successive results of [ifp.read(n)] on a file holding [l], up to
    the first empty one, which ends the loops of the two modules. Each read
    of a non-empty rest with [n > 0] consumes an element, so [length l]
    rounds are enough. *)
Fixpoint read_chunks_aux {A : Type} (fuel n : nat) (l : list A) : list (list A) :=
  match fuel with
  | O => []
  | S fuel' =>
      match take n l with
      | [] => []
      | buffer => buffer :: read_chunks_aux fuel' n (drop n l)
      end
  end.

Definition read_chunks {A : Type} (n : nat) (l : list A) : list (list A) :=
  read_chunks_aux (length l) n l.

(** ** convert.py: the range scanner *)

Definition is_nan (x : spec_float) : bool :=
  match x with S754_nan => true | _ => false end.

(** One step of numpy's [minimum.reduce] and [maximum.reduce] on floats:
    the accumulator is kept when it compares [<=] (resp. [>=]) or is a NaN,
    so that a NaN, once met, is the result. *)
Definition np_min2 (acc y : spec_float) : spec_float :=
  if SFleb acc y || is_nan acc then acc else y.

Definition np_max2 (acc y : spec_float) : spec_float :=
  if SFleb y acc || is_nan acc then acc else y.

Definition empty_reduction_error : exn :=
  ValueError "zero-size array to reduction operation which has no identity".

(** [chunk.min()] and [chunk.max()]. *)
Definition np_min (chunk : list spec_float) : res spec_float :=
  match chunk with
  | [] => Raise empty_reduction_error
  | x :: rest => Ok (fold_left np_min2 rest x)
  end.

Definition np_max (chunk : list spec_float) : res spec_float :=
  match chunk with
  | [] => Raise empty_reduction_error
  | x :: rest => Ok (fold_left np_max2 rest x)
  end.

(** The body of the [while buffer:] loop of [find_float_range], over the
    buffers read. *)
Fixpoint scan_chunks (buffers : list (list byte))
    (minimum maximum : spec_float) : res (spec_float * spec_float) :=
  match buffers with
  | [] => Ok (minimum, maximum)
  | buffer :: rest =>
      match frombuffer_f32 buffer with
      | Raise e => Raise e
      | Ok chunk =>
          match np_min chunk, np_max chunk with
          | Ok cmin, Ok cmax =>
              let minimum := if SFltb cmin minimum then cmin else minimum in
              let maximum := if SFltb maximum cmax then cmax else maximum in
              scan_chunks rest minimum maximum
          | Raise e, _ | _, Raise e => Raise e
          end
      end
  end.

(** [buffer_size = os.path.getsize(fp) // 100] *)
Definition default_buffer_size (size : nat) : nat := (size / 100)%nat.

(** [find_float_range(fp, dtype='float32', buffer_size=None)]. Every call of
    the repository leaves [dtype] at its default, which is what is modelled.
    [buffer_size] is a number of bytes, [None] when left out. The two
    bounds returned are [numpy.float32] scalars. *)
Definition find_float_range (fp : string) (buffer_size : option nat)
    : M (spec_float * spec_float) :=
  let maximum := FLT_MIN in
  let minimum := FLT_MAX in
  let* buffer_size :=
    match buffer_size with
    | None => let* size := getsize fp in ret (default_buffer_size size)
    | Some n => ret n
    end in
  let* data := open_rb fp in
  let* range := lift (scan_chunks (read_chunks buffer_size data) minimum maximum) in
  logging INFO "Range: [{}, {}]" [NpFloat32 (fst range); NpFloat32 (snd range)] >>
  ret range.

(** A freshly loaded program on a disk holding the given files. *)
Definition on_disk (l : list (string * fcontent)) : state :=
  {| files := list_to_map l; log := [];
     INITIAL_LOWER_BOUND := PyNone; INITIAL_UPPER_BOUND := PyNone;
     TARGET_LOWER_BOUND := PyNone; TARGET_UPPER_BOUND := PyNone |}.

(** ** Paths *)

(** [p] cut around the last occurrence of [c]: the part before it and the
    part after it. *)
Fixpoint rsplit_at (c : ascii) (p : string) : option (string * string) :=
  match p with
  | EmptyString => None
  | String a rest =>
      match rsplit_at c rest with
      | Some (h, t) => Some (String a h, t)
      | None => if Ascii.eqb a c then Some (EmptyString, rest) else None
      end
  end.

Fixpoint all_char (c : ascii) (p : string) : bool :=
  match p with
  | EmptyString => true
  | String a rest => Ascii.eqb a c && all_char c rest
  end.

(** [p.rstrip('/')] *)
Fixpoint rstrip_slash (p : string) : string :=
  match p with
  | EmptyString => EmptyString
  | String a rest =>
      match rstrip_slash rest with
      | EmptyString => if Ascii.eqb a "/" then EmptyString else String a EmptyString
      | r => String a r
      end
  end.

(** [os.path.basename], [os.path.dirname], [os.path.join] on two parts and
    [os.path.splitext], on POSIX paths. *)
Definition basename (p : string) : string :=
  match rsplit_at "/" p with
  | Some (_, t) => t
  | None => p
  end.

Definition dirname (p : string) : string :=
  match rsplit_at "/" p with
  | Some (h, _) => if all_char "/" h then h +:+ "/" else rstrip_slash h
  | None => EmptyString
  end.

Definition path_join (a b : string) : string :=
  match b with
  | String "/" _ => b
  | _ =>
      match rsplit_at "/" a with
      | Some (_, EmptyString) => a +:+ b
      | _ => if String.eqb a EmptyString then b else a +:+ "/" +:+ b
      end
  end.

Definition splitext (p : string) : string * string :=
  let '(dir, base) :=
    match rsplit_at "/" p with
    | Some (h, t) => (h +:+ "/", t)
    | None => (EmptyString, p)
    end in
  match rsplit_at "." base with
  | Some (pre, ext) =>
      if all_char "." pre then (p, EmptyString)
      else (dir +:+ pre, String "." ext)
  | None => (p, EmptyString)
  end.

(** ** The DAT collaborator *)

(** Modelled from the spec: [rawtools/dat.py] is not among the sources.
    [dat.read(path)] returns the volume descriptor of the file, and fails if
    the file is missing or its fields cannot be parsed. *)
Definition dat_read (p : string) : M dat_record :=
  fun st =>
    match files st !! p with
    | Some (Dat d) => (Ok d, st)
    | _ => (Raise (MetadataError p), st)
    end.

(** Modelled from the spec: [dat.write(path, dimensions, thickness,
    sample_type, object_model)] writes the descriptor, over whatever the
    path held. *)
Definition dat_write (p : string) (dimensions : nat * nat * nat)
    (thickness : spec_float * spec_float * spec_float)
    (dtype model : string) : M unit :=
  let '(x, y, z) := dimensions in
  let '(tx, ty, tz) := thickness in
  modify (set_files (fun fs =>
    <[p := Dat {| xdim := x; ydim := y; zdim := z;
                  x_thickness := tx; y_thickness := ty; z_thickness := tz;
                  dat_format := dtype; model := model |}]> fs)).

(** Modelled from the spec: [dat.determine_bit_depth(path, dimensions)]
    infers the sample encoding from the size of the file divided by the
    number of voxels, and knows the three supported encodings. It is the
    instance the examples run with; the statements hold for any inference
    that only reads the state. *)
Definition determine_bit_depth_by_size (disk : gmap string fcontent)
    (fp : string) (dimensions : nat * nat * nat) : res string :=
  let '(x, y, z) := dimensions in
  match disk !! fp with
  | Some (Raw bs) =>
      match (x * y * z)%nat with
      | O => Raise ZeroDivisionError
      | voxels =>
          match (length bs / voxels)%nat with
          | 1%nat => Ok "uint8"
          | 2%nat => Ok "uint16"
          | 4%nat => Ok "float32"
          | _ => Raise (ValueError "unknown encoding")
          end
      end
  | _ => Raise (FileNotFoundError fp)
  end.

(** ** convert.py: the volume converter *)

(** [np.iinfo(np.dtype(name))], for the unsigned types of the module. *)
Definition np_iinfo (name : string) : npval * npval :=
  if String.eqb name "uint8" then (PyInt 0, PyInt 255)
  else (PyInt 0, PyInt 65535).

Definition is_uint_name (name : string) : bool :=
  String.eqb name "uint8" || String.eqb name "uint16".

(** The two paths [convert] writes to:
    [f'{os.path.splitext(fp)[0]}-{file_format}.raw'] and
    [f'{os.path.splitext(dat_fp)[0]}-{file_format}.dat']. *)
Definition output_path (fp file_format : string) : string :=
  fst (splitext fp) +:+ "-" +:+ file_format +:+ ".raw".

Definition output_dat_path (dat_fp file_format : string) : string :=
  fst (splitext dat_fp) +:+ "-" +:+ file_format +:+ ".dat".

(** The body of the [while buffer:] loop of [convert], over the buffers
    read from the input; [op] is the path the output handle was opened on. *)
Fixpoint convert_loop (op bit_depth file_format : string)
    (input_minimum input_maximum output_minimum output_maximum : npval)
    (buffers : list (list byte)) : M unit :=
  match buffers with
  | [] => ret tt
  | buffer :: rest =>
      let* chunk := lift (frombuffer bit_depth buffer) in
      let sdf :=
        astype file_format
          (scale chunk input_minimum input_maximum output_minimum output_maximum) in
      let* bytes := lift (tobytes sdf) in
      append_bytes op bytes >>
      convert_loop op bit_depth file_format
        input_minimum input_maximum output_minimum output_maximum rest
  end.

Section Convert.

(** [rawtools.dat.determine_bit_depth]; it is not among the sources, and is
    only known to read the disk. *)
Variable determine_bit_depth :
  gmap string fcontent -> string -> nat * nat * nat -> res string.

(** [convert(fp, dat_fp, file_format)] *)
Definition convert (fp dat_fp file_format : string) : M unit :=
  let* d := dat_read dat_fp in
  let x := xdim d in
  let y := ydim d in
  let z := zdim d in
  let* bit_depth := (fun st => (determine_bit_depth (files st) fp (x, y, z), st)) in
  (* Base case: if volume is already desired format *)
  if String.eqb file_format bit_depth then
    logging INFO
      ("Skipping '" +:+ fp +:+ "'. It is already desired file format: "
       +:+ file_format +:+ ".") []
  else
  (* Assign output filepath *)
  let op := output_path fp file_format in
  let* op_exists := path_exists op in
  if op_exists then
    logging INFO ("Skipping. File already exists '" +:+ op +:+ "'.") []
  else
  (* Set a buffer size for reading and writing *)
  let* itemsize :=
    match np_itemsize bit_depth with
    | Some n => ret n
    | None => raise (TypeError "data type not understood")
    end in
  let buffer_size := (x * y * itemsize)%nat in
  (* Get minimum and maximum values of volume *)
  let* input_range :=
    if is_uint_name bit_depth then ret (np_iinfo bit_depth)
    else if String.eqb bit_depth "float32" then
      let* r := find_float_range fp (Some buffer_size) in
      ret (NpFloat32 (fst r), NpFloat32 (snd r))
    else raise (ValueError ("Input format, '" +:+ bit_depth +:+ "' , is not supported.")) in
  (* Set output scale *)
  let* output_range :=
    if is_uint_name file_format then ret (np_iinfo file_format)
    else if String.eqb file_format "float32" then
      ret (NpFloat32 FLT_MIN, NpFloat32 FLT_MAX)
    else raise (ValueError ("Output format, '" +:+ file_format +:+ "', is not supported.")) in
  (* Convert *)
  let* data := open_rb fp in
  open_wb op >>
  convert_loop op bit_depth file_format
    (fst input_range) (snd input_range) (fst output_range) (snd output_range)
    (read_chunks buffer_size data) >>
  (* Write DAT file for converted volume *)
  let dat_op := output_dat_path dat_fp file_format in
  dat_write dat_op (x, y, z) (x_thickness d, y_thickness d, z_thickness d)
    file_format (model d).

End Convert.

(** Python's [round] to an integer, on an exact rational: to the nearest,
    ties to even. *)
Definition py_round (q : Q) : Z :=
  let f := Qfloor q in
  match Qcompare (q - inject_Z f) (1 # 2) with
  | Lt => f
  | Gt => f + 1
  | Eq => if Z.even f then f else f + 1
  end.

(** ** nsihdr.py: the slice assembler *)

(** [np.fromfile(ifp, dtype='float32')]: the whole items of the file; bytes
    left over at the end are dropped. *)
Fixpoint fromfile_f32 (bs : list byte) : list spec_float :=
  match bs with
  | b0 :: b1 :: b2 :: b3 :: rest => decode_f32 (word32 b0 b1 b2 b3) :: fromfile_f32 rest
  | _ => []
  end.

(** The exact value of a finite number. *)
Definition sf_to_Q (x : spec_float) : Q :=
  match x with
  | S754_finite s m e =>
      let mag := match e with
                 | Zneg p => Z.pos m # 2 ^ p
                 | _ => inject_Z (Z.pos m * 2 ^ e)
                 end in
      if s then Qopp mag else mag
  | _ => 0%Q
  end.

(** Python's [round(x, ndigits)] on a float: the double nearest to the
    decimal with [ndigits] places nearest to [x]. *)
Definition py_round_ndigits (ndigits : Z) (x : spec_float) : spec_float :=
  match x with
  | S754_finite _ _ _ =>
      let k := py_round (sf_to_Q x * inject_Z (10 ^ ndigits)) in
      SFdiv 53 1024 (sf_of_Z Double k) (sf_of_Z Double (10 ^ ndigits))
  | _ => x
  end.

Definition np_round (ndigits : Z) (v : npval) : npval :=
  match v with
  | PyFloat x => PyFloat (py_round_ndigits ndigits x)
  | PyRaise e => PyRaise e
  | _ => PyRaise (TypeError "type doesn't define __round__ method")
  end.

(** A value that may be an exception, as a computation. *)
Definition eval (v : npval) : M npval :=
  match v with
  | PyRaise e => raise e
  | _ => ret v
  end.

(** [nsidats.sort()]: insertion in the order of the code points. *)
Fixpoint insert_sorted (x : string) (l : list string) : list string :=
  match l with
  | [] => [x]
  | y :: rest => if String.leb x y then x :: l else y :: insert_sorted x rest
  end.

Definition sort_strings (l : list string) : list string :=
  fold_right insert_sorted [] l.

(** The argparse namespace, with the attributes [main] adds to it. *)
Record args_t : Type := {
  a_files : list string;
  force : bool;
  cwd : string;
  filename : string;
  output : string
}.

(** The dictionary [read_nsihdr] returns, with the key [main] adds. *)
Record metadata : Type := {
  datafiles : list string;
  source_to_detector_distance : npval;
  source_to_table_distance : npval;
  pitch : npval;
  resolution : npval;
  resolution_rounded : list npval;
  bit_depth : npval;
  zoom_factor : npval;
  bit_depth_type : string;
  ObjectModel : string;
  dimensions : nat * nat * nat;
  nsihdr_fp : string
}.

(** The local variables of the loop of [read_nsihdr]; [None] is an unbound
    name. *)
Record hdr_locals : Type := {
  l_source_to_detector_distance : npval;
  l_source_to_table_distance : npval;
  l_bit_depth : npval;
  l_nsidats : list string;
  l_dimensions : option (nat * nat * nat);
  l_pitch : option npval;
  l_ObjectModel : option string
}.

(** The quotient of two positive integers, rounded once to the nearest
    double (ties to even). *)
Definition sf_ratio (n d : Z) : spec_float :=
  match n, d with
  | Zpos p, Zpos q => SFdiv 53 1024 (S754_finite false p 0) (S754_finite false q 0)
  | _, _ => S754_zero false
  end.

Definition digit_of (c : ascii) : option Z :=
  let n := Z.of_N (N_of_ascii c) in
  if (48 <=? n) && (n <=? 57) then Some (n - 48) else None.

(** A text of digits and dots read from the left: the integer its digits
    write, how many digits and dots it has, and how many digits follow
    the first dot. *)
Record decimal : Type := {
  dec_value : Z;
  dec_digits : nat;
  dec_dots : nat;
  dec_places : Z
}.

Fixpoint scan_decimal (s : string) (acc : decimal) : option decimal :=
  match s with
  | EmptyString => Some acc
  | String c rest =>
      if Ascii.eqb c "." then
        scan_decimal rest
          {| dec_value := dec_value acc; dec_digits := dec_digits acc;
             dec_dots := S (dec_dots acc); dec_places := dec_places acc |}
      else
        match digit_of c with
        | Some v =>
            scan_decimal rest
              {| dec_value := 10 * dec_value acc + v;
                 dec_digits := S (dec_digits acc);
                 dec_dots := dec_dots acc;
                 dec_places := match dec_dots acc with
                               | O => dec_places acc
                               | _ => dec_places acc + 1
                               end |}
        | None => None
        end
  end.

(** [float(s)] on a text of ASCII digits and dots, which is what the
    group [[\d\.]+] holds in a header written in ASCII: the text is a
    number when it has a digit and at most one dot, and its value is the
    double nearest to it. Other texts are not modelled. *)
Definition py_float (s : string) : res spec_float :=
  match scan_decimal s {| dec_value := 0; dec_digits := 0; dec_dots := 0;
                          dec_places := 0 |} with
  | None => Raise (NotModelled "float of a text with other characters")
  | Some dec =>
      match dec_digits dec, dec_dots dec with
      | S _, (0 | 1)%nat => Ok (sf_ratio (dec_value dec) (10 ^ dec_places dec))
      | _, _ => Raise (ValueError ("could not convert string to float: '" +:+ s +:+ "'"))
      end
  end.

(** The distance a group denotes, when [float] accepts it. *)
Definition float_of_group (capture : option string) : option spec_float :=
  match capture with
  | Some s => match py_float s with Ok v => Some v | Raise _ => None end
  | None => None
  end.

Definition ln_detector_distance (line : hdr_line) : option spec_float :=
  float_of_group (ln_detector_text line).

Definition ln_table_distance (line : hdr_line) : option spec_float :=
  float_of_group (ln_table_text line).

(** [0.127], the double nearest to 127/1000. *)
Definition pitch_value : spec_float := f64_div 127 1000.

(** [float(query.group('value'))] when the pattern of a distance matched
    the line; the variable keeps its value otherwise. *)
Definition float_group (capture : option string) (old : npval) : res npval :=
  match capture with
  | Some s =>
      match py_float s with
      | Ok v => Ok (PyFloat v)
      | Raise e => Raise e
      end
  | None => Ok old
  end.

(** One round of [for line in document:], up to the data range: it gives
    the new locals and the data range when the line declares one, or the
    exception of a [float] that refused a distance. *)
Definition read_line (l : hdr_locals) (line : hdr_line)
    : res (hdr_locals * option (spec_float * spec_float)) :=
  let nsidats :=
    match ln_nsidat line with
    | Some name => l_nsidats l ++ [name]
    | None => l_nsidats l
    end in
  match float_group (ln_detector_text line) (l_source_to_detector_distance l) with
  | Raise e => Raise e
  | Ok source_to_detector_distance =>
      match float_group (ln_table_text line) (l_source_to_table_distance l) with
      | Raise e => Raise e
      | Ok source_to_table_distance =>
          Ok ({| l_nsidats := nsidats;
                 l_source_to_detector_distance := source_to_detector_distance;
                 l_source_to_table_distance := source_to_table_distance;
                 l_bit_depth :=
                   match ln_bit_depth line with
                   | Some b => PyInt b
                   | None => l_bit_depth l
                   end;
                 l_dimensions :=
                   match ln_resolution line with
                   | Some (x, num_slices, z) => Some (x, z, num_slices)
                   | None => l_dimensions l
                   end;
                 l_pitch := Some (PyFloat pitch_value);
                 l_ObjectModel := Some "DENSITY" |},
              ln_data_range line)
      end
  end.

Fixpoint read_lines (l : hdr_locals) (document : list hdr_line) : M hdr_locals :=
  match document with
  | [] => ret l
  | line :: rest =>
      let* r := lift (read_line l line) in
      match snd r with
      | Some (lower, upper) => modify (set_initial (PyFloat lower) (PyFloat upper))
      | None => ret tt
      end >>
      read_lines (fst r) rest
  end.

(** The read of a local variable. *)
Definition local {A : Type} (name : string) (v : option A) : M A :=
  match v with
  | Some a => ret a
  | None => raise (UnboundLocalError name)
  end.

(** [open(fp, 'r')] and [readlines()] on a project header. *)
Definition open_hdr (fp : string) : M (list hdr_line) :=
  fun st =>
    match files st !! fp with
    | Some (Hdr doc) => (Ok doc, st)
    | Some _ => (Raise (NotModelled "lines of a file that is not a header"), st)
    | None => (Raise (FileNotFoundError fp), st)
    end.

(** Python's [min(a, b)] and [max(a, b)] on two floats. *)
Definition py_min (a b : spec_float) : spec_float := if SFltb b a then b else a.
Definition py_max (a b : spec_float) : spec_float := if SFltb a b then b else a.

Definition as_bound (v : npval) : M (option spec_float) :=
  match v with
  | PyNone => ret None
  | PyFloat x | NpFloat32 x => ret (Some x)
  | _ => raise (NotModelled "bound")
  end.

(** [set_initial_bounds] reads [args.cwd], but [args] is neither one of its
    parameters nor a variable of the module. *)
Definition module_args : M args_t := raise (NameError "args").

Fixpoint set_initial_bounds_loop (files : list string) : M unit :=
  match files with
  | [] => ret tt
  | f :: rest =>
      let* args := module_args in
      let input_filepath := path_join (cwd args) f in
      let* bytes := open_rb input_filepath in
      let df := fromfile_f32 bytes in
      let* df_min := lift (np_min df) in
      let* lower := (let* v := gets INITIAL_LOWER_BOUND in as_bound v) in
      let lower := match lower with
                   | None => df_min
                   | Some v => py_min v df_min
                   end in
      let* df_max := lift (np_max df) in
      let* upper := (let* v := gets INITIAL_UPPER_BOUND in as_bound v) in
      let upper := match upper with
                   | None => df_max
                   | Some v => py_max v df_max
                   end in
      modify (set_initial (NpFloat32 lower) (NpFloat32 upper)) >>
      set_initial_bounds_loop rest
  end.

(** The loop of [process]: every slice file is read whole, rescaled with
    the bounds of the module, cast and appended to the output. *)
Fixpoint process_loop (args : args_t) (files : list string) : M unit :=
  match files with
  | [] => ret tt
  | f :: rest =>
      let input_filepath := path_join (cwd args) f in
      let* bytes := open_rb input_filepath in
      let df := NdFloat32 (fromfile_f32 bytes) in
      let* lower := gets INITIAL_LOWER_BOUND in
      let* upper := gets INITIAL_UPPER_BOUND in
      let* target_lower := gets TARGET_LOWER_BOUND in
      let* target_upper := gets TARGET_UPPER_BOUND in
      let sdf := astype "uint16" (scale df lower upper target_lower target_upper) in
      let* out := lift (tobytes sdf) in
      append_bytes (output args) out >>
      process_loop args rest
  end.

(** [process(args, metadata)] *)
Definition process (args : args_t) (md : metadata) : M unit :=
  log_and_reraise
    (let* there := path_exists (output args) in
     if there then
       if negb (force args) then
         logging INFO ("File already exists: '" +:+ output args +:+ ".' Aborting...") [] >>
         raise (SystemExit 0)
       else
         logging INFO ("File already exists. Deleting '" +:+ output args +:+ "'.") [] >>
         os_remove (output args)
     else ret tt) >>
  process_loop args (datafiles md).

Definition as_thickness (l : list npval) : spec_float * spec_float * spec_float :=
  match l with
  | [PyFloat a; PyFloat b; PyFloat c] => (a, b, c)
  | _ => (S754_nan, S754_nan, S754_nan)
  end.

(** The local variables of [main]. The four names of the bounds are
    assigned in [main] without a [global] declaration, which makes them
    local to it: they are unbound until [main] assigns them, and the
    variables of the module keep their values. *)
Record main_locals : Type := {
  m_INITIAL_LOWER_BOUND : option npval;
  m_INITIAL_UPPER_BOUND : option npval;
  m_TARGET_LOWER_BOUND : option npval;
  m_TARGET_UPPER_BOUND : option npval
}.

Definition is_not_None (v : npval) : bool :=
  match v with PyNone => false | _ => true end.

(** [2**bit_depth - 1] *)
Definition pow2_minus_1 (b : npval) : npval :=
  match b with
  | PyInt n =>
      if 0 <=? n then PyInt (2 ^ n - 1)
      else PyRaise (NotModelled "negative power")
  | PyRaise e => PyRaise e
  | _ => PyRaise (TypeError "unsupported operand type(s)")
  end.

Section Nsihdr.

(** [rawtools.dat.bitdepth], which names the type of a bit depth, and the
    values [rawtools.dat.write] gives to the sample type and the object
    model when, as in [write_metadata], they are not passed. None is among
    the sources. *)
Variable dat_bitdepth : npval -> res string.
Variable dat_write_dtype : string.
Variable dat_write_model : string.

(** [read_nsihdr(args, fp)] *)
Definition read_nsihdr (fp : string) : M metadata :=
  let* document := open_hdr fp in
  let* l := read_lines
      {| l_source_to_detector_distance := PyNone;
         l_source_to_table_distance := PyNone;
         l_bit_depth := PyNone;
         l_nsidats := [];
         l_dimensions := None;
         l_pitch := None;
         l_ObjectModel := None |} document in
  let source_to_detector_distance := l_source_to_detector_distance l in
  let source_to_table_distance := l_source_to_table_distance l in
  let* pitch := local "pitch" (l_pitch l) in
  let* resolution :=
    eval (py_mul (py_div pitch source_to_detector_distance) source_to_table_distance) in
  let* resolution_rounded := eval (np_round 4 resolution) in
  let nsidats := sort_strings (l_nsidats l) in
  let* zoom_factor :=
    eval (np_round 2 (py_div source_to_detector_distance source_to_table_distance)) in
  let* bit_depth_type := lift (dat_bitdepth (l_bit_depth l)) in
  let* ObjectModel := local "ObjectModel" (l_ObjectModel l) in
  let* dimensions := local "dimensions" (l_dimensions l) in
  ret {| datafiles := nsidats;
         source_to_detector_distance := source_to_detector_distance;
         source_to_table_distance := source_to_table_distance;
         pitch := pitch;
         resolution := resolution;
         resolution_rounded := [resolution_rounded; resolution_rounded; resolution_rounded];
         bit_depth := l_bit_depth l;
         zoom_factor := zoom_factor;
         bit_depth_type := bit_depth_type;
         ObjectModel := ObjectModel;
         dimensions := dimensions;
         nsihdr_fp := EmptyString |}.

(** [set_initial_bounds(metadata)] *)
Definition set_initial_bounds (md : metadata) : M unit :=
  set_initial_bounds_loop (datafiles md).

(** [write_metadata(args, metadata)] *)
Definition write_metadata (args : args_t) (md : metadata) : M unit :=
  let dat_filepath := fst (splitext (output args)) +:+ ".dat" in
  dat_write dat_filepath (dimensions md) (as_thickness (resolution_rounded md))
    dat_write_dtype dat_write_model >>
  let bounds_filepath :=
    path_join (cwd args) (fst (splitext (output args)) +:+ ".float32.range") in
  let* lower := gets INITIAL_LOWER_BOUND in
  let* upper := gets INITIAL_UPPER_BOUND in
  modify (set_files (fun fs => <[bounds_filepath := RangeRecord lower upper]> fs)).

(** One round of [for f in args.files:] in [main]. *)
Definition main_round (args : args_t) (locals : main_locals) (f : string)
    : M (args_t * main_locals) :=
  let args := {| a_files := a_files args; force := force args;
                 cwd := dirname f; filename := f; output := output args |} in
  let* md := read_nsihdr f in
  let project_metadata :=
    {| datafiles := datafiles md;
       source_to_detector_distance := source_to_detector_distance md;
       source_to_table_distance := source_to_table_distance md;
       pitch := pitch md; resolution := resolution md;
       resolution_rounded := resolution_rounded md;
       bit_depth := bit_depth md; zoom_factor := zoom_factor md;
       bit_depth_type := bit_depth_type md; ObjectModel := ObjectModel md;
       dimensions := dimensions md;
       nsihdr_fp := filename args |} in
  (* Set bounds *)
  let* target_upper := eval (pow2_minus_1 (bit_depth project_metadata)) in
  let locals :=
    {| m_INITIAL_LOWER_BOUND := m_INITIAL_LOWER_BOUND locals;
       m_INITIAL_UPPER_BOUND := m_INITIAL_UPPER_BOUND locals;
       m_TARGET_LOWER_BOUND := Some (PyInt 0);
       m_TARGET_UPPER_BOUND := Some target_upper |} in
  let args := {| a_files := a_files args; force := force args;
                 cwd := cwd args; filename := filename args;
                 output := path_join (cwd args)
                             (basename (fst (splitext (filename args))) +:+ ".raw") |} in
  log_and_reraise
    (let* there := path_exists (output args) in
     (if there then
        if negb (force args) then
          logging INFO ("File already exists. Skipping " +:+ output args +:+ ".") [] >>
          raise (SystemExit 0)
        else
          logging WARNING
            ("FileExistsWarning - " +:+ output args +:+ ". File will be overwritten.") []
      else ret tt) >>
     (* Base case: if the data range was found in the .nsihdr *)
     (let* lower := local "INITIAL_LOWER_BOUND" (m_INITIAL_LOWER_BOUND locals) in
      let* found :=
        (if is_not_None lower then
           let* upper := local "INITIAL_UPPER_BOUND" (m_INITIAL_UPPER_BOUND locals) in
           ret (is_not_None upper)
         else ret false) in
      if found then
        logging INFO
          ("Bounds located in " +:+ filename args +:+ ". Bounds set to [{}, {}].")
          [lower]
      else set_initial_bounds project_metadata) >>
     (* Generate .RAW volume *)
     process args project_metadata >>
     (* Create .dat & .range files *)
     write_metadata args project_metadata) >>
  (* Reset bounds after file has been processed *)
  ret (args,
       {| m_INITIAL_LOWER_BOUND := Some PyNone;
          m_INITIAL_UPPER_BOUND := Some PyNone;
          m_TARGET_LOWER_BOUND := Some PyNone;
          m_TARGET_UPPER_BOUND := Some PyNone |}).

Fixpoint main_loop (args : args_t) (locals : main_locals) (files : list string)
    : M unit :=
  match files with
  | [] => ret tt
  | f :: rest =>
      let* r := main_round args locals f in
      main_loop (fst r) (snd r) rest
  end.

(** [main(args)] *)
Definition main (args : args_t) : M unit :=
  main_loop args
    {| m_INITIAL_LOWER_BOUND := None; m_INITIAL_UPPER_BOUND := None;
       m_TARGET_LOWER_BOUND := None; m_TARGET_UPPER_BOUND := None |}
    (a_files args).

End Nsihdr.

(** The state agrees with another on the disk and on the bounds of the
    module (the log apart). *)
Definition same_world (st st' : state) : Prop :=
  files st = files st' /\
  INITIAL_LOWER_BOUND st = INITIAL_LOWER_BOUND st' /\
  INITIAL_UPPER_BOUND st = INITIAL_UPPER_BOUND st' /\
  TARGET_LOWER_BOUND st = TARGET_LOWER_BOUND st' /\
  TARGET_UPPER_BOUND st = TARGET_UPPER_BOUND st'.

Definition world_only {A : Type} (m : M A) : Prop :=
  forall st st', same_world st st' ->
    fst (m st) = fst (m st') /\ same_world (snd (m st)) (snd (m st')).

(** The value the specification gives for a uint8 sample [v] converted to
    uint16: [round(v / 255 * 65535)], over exact arithmetic. *)
Definition round_u8_to_u16 (v : byte) : Z :=
  py_round (inject_Z (byte_to_Z v) / 255 * 65535)%Q.

(** ** Predicates of the statements *)

(** Two numbers that compare equal (the two zeros do). *)
Definition feq (x y : spec_float) : Prop := SFcompare x y = Some Eq.

(** A key whose lexicographic order is the order of [SFcompare] on the
    numbers that are not NaN. *)
Definition rank (x : spec_float) : Z * Z * Z :=
  match x with
  | S754_infinity true => (-2, 0, 0)
  | S754_finite true m e => (-1, - e, - Z.pos m)
  | S754_zero _ | S754_nan => (0, 0, 0)
  | S754_finite false m e => (1, e, Z.pos m)
  | S754_infinity false => (2, 0, 0)
  end.

Definition lex_lt (p q : Z * Z * Z) : Prop :=
  let '(a, b, c) := p in
  let '(a', b', c') := q in
  a < a' \/ (a = a' /\ (b < b' \/ (b = b' /\ c < c'))).

(** The order of the maximum: the comparison of the minimum, turned round. *)
Definition SFgtb (x y : spec_float) : bool := SFltb y x.

(** The update of both loops of the scanner: take the candidate when it is
    strictly before the current value. *)
Definition pick (ltb : spec_float -> spec_float -> bool)
    (acc y : spec_float) : spec_float :=
  if ltb y acc then y else acc.

(** [m] is an element of [l] that no element of [l] is strictly before. *)
Definition least_of (ltb : spec_float -> spec_float -> bool)
    (l : list spec_float) (m : spec_float) : Prop :=
  In m l /\ forall x, In x l -> ltb x m = false.

Definition no_nan (l : list spec_float) : Prop :=
  forall x, In x l -> is_nan x = false.

(** [m] is the global minimum (maximum) of the samples [l]: it compares
    equal to one of them and is below (above) all of them. *)
Definition is_minimum (l : list spec_float) (m : spec_float) : Prop :=
  (exists x, In x l /\ feq x m) /\ forall x, In x l -> SFleb m x = true.

Definition is_maximum (l : list spec_float) (m : spec_float) : Prop :=
  (exists x, In x l /\ feq x m) /\ forall x, In x l -> SFleb x m = true.

(** ** Sample disks *)

(** The float32 samples 9.0, 5.0, 0.0. *)
Definition three_samples : list byte :=
  [x00; x00; x10; x41;  x00; x00; xa0; x40;  x00; x00; x00; x00].

(** The float32 samples 9.0, NaN, 5.0, 0.0. *)
Definition samples_with_nan : list byte :=
  [x00; x00; x10; x41;  x00; x00; xc0; x7f;  x00; x00; xa0; x40;
   x00; x00; x00; x00].

(** The float32 samples 1.0, 2.0. *)
Definition two_samples : list byte :=
  [x00; x00; x80; x3f;  x00; x00; x00; x40].

(** How a computation treats the disk: it leaves it as it is; it keeps the
    file at [p]; its result and the disk it leaves depend on the disk only
    (not on the log or on the variables of [nsihdr]). *)
Definition read_only {A : Type} (m : M A) : Prop :=
  forall st, files (snd (m st)) = files st.

Definition keeps {A : Type} (p : string) (m : M A) : Prop :=
  forall st, is_Some (files st !! p) -> is_Some (files (snd (m st)) !! p).

Definition disk_only {A : Type} (m : M A) : Prop :=
  forall st st', files st = files st' ->
    fst (m st) = fst (m st') /\ files (snd (m st)) = files (snd (m st')).

(** The computation leaves a file at [p], whatever the outcome. *)
Definition creates {A : Type} (p : string) (m : M A) : Prop :=
  forall st, is_Some (files (snd (m st)) !! p).

(** The computation either leaves the disk as it is or leaves a file at
    [p]. *)
Definition idle_or_creates {A : Type} (p : string) (m : M A) : Prop :=
  forall st, files (snd (m st)) = files st \/ is_Some (files (snd (m st)) !! p).

(** A 2 x 2 x 2 volume of uint8 samples with its DAT file, and the same disk
    once a uint16 output is there. *)
Definition sample_dat : dat_record :=
  {| xdim := 2; ydim := 2; zdim := 2;
     x_thickness := sf_of_Z Double 1;
     y_thickness := sf_of_Z Double 1;
     z_thickness := sf_of_Z Double 2;
     dat_format := "uint8"; model := "DENSITY" |}.

Definition sample_volume : list byte :=
  [x00; x01; x02; x03; xff; xfe; x80; x7f].

Definition sample_disk : state :=
  on_disk [("/data/v.raw", Raw sample_volume); ("/data/v.dat", Dat sample_dat)].

Definition sample_disk_converted : state :=
  on_disk [("/data/v.raw", Raw sample_volume); ("/data/v.dat", Dat sample_dat);
           ("/data/v-uint16.raw", Raw [x2a; x00])].

(** A project of two slice files of two float32 samples each (0.0, 1000.0
    and 3000.0, -1000.0), whose header declares the data range
    [-1000.0, 3000.0] and a bit depth of 16. *)
Definition sample_header : list hdr_line :=
  [ {| ln_nsidat := Some "s1.nsidat"; ln_detector_text := None;
       ln_table_text := None; ln_bit_depth := None; ln_resolution := None;
       ln_data_range := None |};
    {| ln_nsidat := Some "s0.nsidat"; ln_detector_text := None;
       ln_table_text := None; ln_bit_depth := None; ln_resolution := None;
       ln_data_range := None |};
    {| ln_nsidat := None; ln_detector_text := Some "1000";
       ln_table_text := None; ln_bit_depth := None; ln_resolution := None;
       ln_data_range := None |};
    {| ln_nsidat := None; ln_detector_text := None;
       ln_table_text := Some "250"; ln_bit_depth := None;
       ln_resolution := None; ln_data_range := None |};
    {| ln_nsidat := None; ln_detector_text := None; ln_table_text := None;
       ln_bit_depth := Some 16; ln_resolution := None; ln_data_range := None |};
    {| ln_nsidat := None; ln_detector_text := None; ln_table_text := None;
       ln_bit_depth := None; ln_resolution := Some (2, 2, 1)%nat;
       ln_data_range := None |};
    {| ln_nsidat := None; ln_detector_text := None; ln_table_text := None;
       ln_bit_depth := None; ln_resolution := None;
       ln_data_range := Some (sf_of_Z Double (-1000), sf_of_Z Double 3000) |} ].


Definition slice0 : list byte := [x00; x00; x00; x00;  x00; x00; x7a; x44].
Definition slice1 : list byte := [x00; x80; x3b; x45;  x00; x00; x7a; xc4].

Definition sample_project : list (string * fcontent) :=
  [("/scan/p.nsihdr", Hdr sample_header);
   ("/scan/s0.nsidat", Raw slice0);
   ("/scan/s1.nsidat", Raw slice1)].

Definition sample_args (forced : bool) : args_t :=
  {| a_files := ["/scan/p.nsihdr"]; force := forced;
     cwd := EmptyString; filename := EmptyString; output := EmptyString |}.

(** An instance of [rawtools.dat.bitdepth] for the examples. *)
Definition sample_bitdepth (b : npval) : res string :=
  match b with
  | PyInt 8 => Ok "uint8"
  | PyInt 16 => Ok "uint16"
  | PyInt 32 => Ok "float32"
  | _ => Raise (ValueError "bit depth")
  end.

(** The arguments [main] builds for the header of the sample project. *)
Definition process_args (forced : bool) : args_t :=
  {| a_files := ["/scan/p.nsihdr"]; force := forced;
     cwd := "/scan"; filename := "/scan/p.nsihdr"; output := "/scan/p.raw" |}.

(** What [read_nsihdr] returns on the header of the sample project. *)
Definition sample_metadata : metadata :=
  let sdd := PyFloat (sf_of_Z Double 1000) in
  let std := PyFloat (sf_of_Z Double 250) in
  let res := py_mul (py_div (PyFloat pitch_value) sdd) std in
  {| datafiles := ["s0.nsidat"; "s1.nsidat"];
     source_to_detector_distance := sdd;
     source_to_table_distance := std;
     pitch := PyFloat pitch_value;
     resolution := res;
     resolution_rounded := [np_round 4 res; np_round 4 res; np_round 4 res];
     bit_depth := PyInt 16;
     zoom_factor := np_round 2 (py_div sdd std);
     bit_depth_type := "uint16";
     ObjectModel := "DENSITY";
     dimensions := (2, 1, 2)%nat;
     nsihdr_fp := EmptyString |}.

(** ** Buffers, samples and tables *)

(** Whether a file of [len] bytes read by [n] bytes at a time gives buffers
    that each hold a whole number of items of [item] bytes. *)
Definition whole_buffers (item n len : nat) : bool :=
  ((len mod item =? 0) && ((n mod item =? 0) || (len <=? n)))%nat.

(** The uint16 items of a byte string, in order (a byte left over at the end
    is dropped). *)
Fixpoint words_u16 (bs : list byte) : list Z :=
  match bs with
  | b0 :: b1 :: rest => word16 b0 b1 :: words_u16 rest
  | _ => []
  end.

(** The bytes one round of the loop of [convert] writes for a buffer:
    [scale(np.frombuffer(buffer, dtype=bit_depth), ...).astype(file_format)],
    as [tofile] lays it out. *)
Definition convert_chunk (bit_depth file_format : string)
    (input_minimum input_maximum output_minimum output_maximum : npval)
    (buffer : list byte) : res (list byte) :=
  match frombuffer bit_depth buffer with
  | Ok chunk =>
      tobytes (astype file_format
                 (scale chunk input_minimum input_maximum output_minimum output_maximum))
  | Raise e => Raise e
  end.

(** The output scale [convert] sets for a format it supports. *)
Definition output_scale (file_format : string) : option (npval * npval) :=
  if is_uint_name file_format then Some (np_iinfo file_format)
  else if String.eqb file_format "float32" then Some (NpFloat32 FLT_MIN, NpFloat32 FLT_MAX)
  else None.

(** What [scale(chunk, 0, input_maximum, 0, output_maximum)] does to one
    sample [v] of an array of unsigned integers of [w] bits, the four bounds
    being Python integers: the subtraction stays in the type of the array,
    the division and what follows it are in binary64. *)
Definition rescale_uint (w input_maximum output_maximum v : Z) : spec_float :=
  let unit :=
    SFdiv 53 1024 (sf_of_Z Double ((v - 0) mod 2 ^ w))
      (sf_of_Z Double (input_maximum - 0)) in
  let scaled :=
    SFmul 53 1024 (sf_cast Double unit) (sf_of_Z Double (output_maximum - 0)) in
  SFadd 53 1024 (sf_cast Double scaled) (sf_of_Z Double 0).

(** What [scale(chunk, 0, input_maximum, finfo.min, finfo.max)] followed by
    [astype('float32')] does to one sample [v] of an array of unsigned
    integers of [w] bits: the width of the output range is computed between
    two float32 scalars, in float32, and the array is in binary64. *)
Definition rescale_uint_float32 (w input_maximum v : Z) : spec_float :=
  let unit :=
    SFdiv 53 1024 (sf_of_Z Double ((v - 0) mod 2 ^ w))
      (sf_of_Z Double (input_maximum - 0)) in
  let width := SFsub 24 128 (sf_cast Single FLT_MAX) (sf_cast Single FLT_MIN) in
  let scaled := SFmul 53 1024 (sf_cast Double unit) (sf_cast Double width) in
  sf_cast Single (SFadd 53 1024 (sf_cast Double scaled) (sf_cast Double FLT_MIN)).

(** The integers from [z] on, [n] of them; the integers from 0 up to [n],
    [n] left out. *)
Fixpoint Z_upto (n : nat) (z : Z) : list Z :=
  match n with
  | O => []
  | S n' => z :: Z_upto n' (z + 1)
  end.

Definition Z_range (n : Z) : list Z := Z_upto (Z.to_nat n) 0.

Definition is_pos_inf (x : spec_float) : bool :=
  match x with S754_infinity false => true | _ => false end.

(** The sample a uint volume gives once converted to float32: a NaN for
    0, the positive infinity otherwise. *)
Definition blown_sample (v : Z) : spec_float :=
  if v =? 0 then S754_nan else S754_infinity false.

(** The computation changes no path outside [ps]. *)
Definition touches_only {A : Type} (ps : list string) (m : M A) : Prop :=
  forall st p, ~ In p ps -> files (snd (m st)) !! p = files st !! p.

(** The last value [f] gives on the elements of [l], if any. *)
Fixpoint last_some {A B : Type} (f : A -> option B) (l : list A) : option B :=
  match l with
  | [] => None
  | x :: rest =>
      match last_some f rest with
      | Some b => Some b
      | None => f x
      end
  end.

(** Whether [float] accepts the distances a line declares. *)
Definition group_converts (capture : option string) : bool :=
  match capture with
  | Some s => match py_float s with Ok _ => true | Raise _ => false end
  | None => true
  end.

Definition line_converts (line : hdr_line) : bool :=
  group_converts (ln_detector_text line) && group_converts (ln_table_text line).

(** The lines the loop of [read_nsihdr] gets through: those before the
    first one with a distance that [float] refuses. *)
Fixpoint lines_read (document : list hdr_line) : list hdr_line :=
  match document with
  | [] => []
  | line :: rest => if line_converts line then line :: lines_read rest else []
  end.

(** The locals after a round of the loop on a line that converts. *)
Definition line_locals (l : hdr_locals) (line : hdr_line) : hdr_locals :=
  {| l_nsidats :=
       match ln_nsidat line with
       | Some name => l_nsidats l ++ [name]
       | None => l_nsidats l
       end;
     l_source_to_detector_distance :=
       match ln_detector_distance line with
       | Some v => PyFloat v
       | None => l_source_to_detector_distance l
       end;
     l_source_to_table_distance :=
       match ln_table_distance line with
       | Some v => PyFloat v
       | None => l_source_to_table_distance l
       end;
     l_bit_depth :=
       match ln_bit_depth line with
       | Some b => PyInt b
       | None => l_bit_depth l
       end;
     l_dimensions :=
       match ln_resolution line with
       | Some (x, num_slices, z) => Some (x, z, num_slices)
       | None => l_dimensions l
       end;
     l_pitch := Some (PyFloat pitch_value);
     l_ObjectModel := Some "DENSITY" |}.

(** The locals of [read_nsihdr] once its loop has run over the lines. *)
Definition locals_after (l : hdr_locals) (document : list hdr_line) : hdr_locals :=
  fold_left line_locals document l.


(** The order of [list.sort] on strings. *)
Definition string_le (x y : string) : Prop := String.leb x y = true.

(** The locals of [read_nsihdr] before its loop. *)
Definition no_locals : hdr_locals :=
  {| l_source_to_detector_distance := PyNone;
     l_source_to_table_distance := PyNone;
     l_bit_depth := PyNone; l_nsidats := [];
     l_dimensions := None; l_pitch := None; l_ObjectModel := None |}.

Definition is_raise (v : npval) : bool :=
  match v with PyRaise _ => true | _ => false end.

(** ** convert.py: the command *)

(** [s.endswith(suffix)] *)
Fixpoint endswith (s suffix : string) : bool :=
  String.eqb s suffix ||
  match s with
  | EmptyString => false
  | String _ rest => endswith rest suffix
  end.

(** The loop of [main] over the volumes. An exception of [convert] is not
    caught: it ends the loop. *)
Fixpoint convert_volumes
    (determine_bit_depth : gmap string fcontent -> string -> nat * nat * nat -> res string)
    (file_format : string) (volumes : list (string * string)) : M unit :=
  match volumes with
  | [] => ret tt
  | (volume_fp, dat_fp) :: rest =>
      convert determine_bit_depth volume_fp dat_fp file_format >>
      convert_volumes determine_bit_depth file_format rest
  end.

Section ConvertMain.

Variable determine_bit_depth :
  gmap string fcontent -> string -> nat * nat * nat -> res string.

(** [os.walk(p)], as the list of [os.path.join(root, filename)] over the
    files it yields, and the order in which [list(set(l))] gives the
    distinct elements of [l]; neither is fixed by the language. *)
Variable os_walk : gmap string fcontent -> string -> list string.
Variable set_order : list string -> list string.

(** The pairs of a volume and its DAT file that [main] gathers from
    [args.path]. *)
Definition gather_volumes (disk : gmap string fcontent) (path : list string)
    : list (string * string) :=
  let files := flat_map (os_walk disk) path in
  (* Append any loose, explicitly defined paths to .RAW files *)
  let files := files ++ List.filter (fun f => endswith f ".raw") path in
  (* Get all RAW files *)
  let files := List.filter (fun f => endswith f ".raw") files in
  let files := set_order files in
  map (fun fp => (fp, fst (splitext fp) +:+ ".dat")) files.

(** [main(args)] of convert.py, with [args.path] and [args.format]. Nothing
    in its [try] block raises, so its [except] branch is left out. *)
Definition convert_main (path : list string) (format : string) : M unit :=
  let* disk := gets files in
  let volumes := gather_volumes disk path in
  logging INFO "Found {} volume(s)." [PyInt (Z.of_nat (length volumes))] >>
  convert_volumes determine_bit_depth format volumes.

End ConvertMain.

(** What [scale(chunk, a, b, c, d)] does to one sample [x] of a float32
    array, for bounds [a], [b] that are float32 scalars (the two that
    [find_float_range] returns) and [c], [d] that are Python integers:
    everything is in float32. *)
Definition float32_width (a b : spec_float) : spec_float :=
  sf_cast Single (SFsub 24 128 (sf_cast Single b) (sf_cast Single a)).

Definition rescale_float32 (a b : spec_float) (c d : Z) (x : spec_float) : spec_float :=
  let shifted := sf_cast Single (SFsub 24 128 (sf_cast Single x) (sf_cast Single a)) in
  let unit := sf_cast Single (SFdiv 24 128 shifted (float32_width a b)) in
  let scaled := sf_cast Single (SFmul 24 128 unit (sf_of_Z Single (d - c))) in
  SFadd 24 128 scaled (sf_of_Z Single c).

(** The width in bits of an unsigned type of [convert]. *)
Definition uint_bits (name : string) : Z :=
  if String.eqb name "uint8" then 8 else 16.

(** The bytes of one unsigned sample of [bits] bits, as [tofile] lays them
    out. *)
Definition encode_uint (bits z : Z) : list byte :=
  if bits =? 8 then [byte_of_Z z] else le16 z.

(** Whether the character [c] occurs in [s]. *)
Fixpoint has_char (c : ascii) (s : string) : bool :=
  match s with
  | EmptyString => false
  | String a rest => Ascii.eqb a c || has_char c rest
  end.

(** The two paths [write_metadata] computes from [args]:
    [f'{os.path.splitext(args.output)[0]}.dat'] and
    [os.path.join(args.cwd, f'{os.path.splitext(args.output)[0]}.float32.range')]. *)
Definition dat_filepath (args : args_t) : string :=
  fst (splitext (output args)) +:+ ".dat".

Definition bounds_filepath (args : args_t) : string :=
  path_join (cwd args) (fst (splitext (output args)) +:+ ".float32.range").

(** ** More sample disks *)

(** A file of 250 float32 samples, all 0.0. *)
Definition thousand_bytes : list byte := repeat x00 1000.

(** A 2 x 2 x 1 volume of uint16 samples and a 3 x 1 x 1 volume of float32
    samples (9.0, 5.0, 0.0), with their DAT files. *)
Definition sample_dat_uint16 : dat_record :=
  {| xdim := 2; ydim := 2; zdim := 1;
     x_thickness := sf_of_Z Double 1;
     y_thickness := sf_of_Z Double 1;
     z_thickness := sf_of_Z Double 2;
     dat_format := "uint16"; model := "DENSITY" |}.

Definition sample_disk_uint16 : state :=
  on_disk [("/data/w.raw", Raw sample_volume); ("/data/w.dat", Dat sample_dat_uint16)].

Definition sample_dat_float32 : dat_record :=
  {| xdim := 3; ydim := 1; zdim := 1;
     x_thickness := sf_of_Z Double 1;
     y_thickness := sf_of_Z Double 1;
     z_thickness := sf_of_Z Double 2;
     dat_format := "float32"; model := "DENSITY" |}.

Definition sample_disk_float32 : state :=
  on_disk [("/data/f.raw", Raw three_samples); ("/data/f.dat", Dat sample_dat_float32)].

(** The arguments [write_metadata] would run with for the header
    [scan/p.nsihdr], given by a relative path. *)
Definition relative_args : args_t :=
  {| a_files := ["scan/p.nsihdr"]; force := false;
     cwd := "scan"; filename := "scan/p.nsihdr"; output := "scan/p.raw" |}.

(** * Properties *)

Example scale_u8_to_u16_sample :
  astype_uint 16 (scale (NdUInt 8 [3; 255]) (PyInt 0) (PyInt 255) (PyInt 0) (PyInt 65535))
  = NdUInt 16 [771; 65535].
Proof. vm_compute. reflexivity. Qed.

Example scale_f32_quarter :
  astype_uint 16
    (scale (NdFloat32 [S754_zero false])
       (PyFloat (sf_of_Z Double (-1000))) (PyFloat (sf_of_Z Double 3000))
       (PyInt 0) (PyInt 65535))
  = NdUInt 16 [16383].
Proof. vm_compute. reflexivity. Qed.

Example scale_none_bounds :
  scale (NdFloat32 []) (PyFloat (sf_of_Z Double 0)) (PyFloat (sf_of_Z Double 1))
    PyNone PyNone
  = PyRaise (TypeError "unsupported operand type(s)").
Proof. vm_compute. reflexivity. Qed.

(** At the two integer ranges of [convert], the double-precision evaluation
    sends the endpoints of the input range to those of the output range. *)
Example scale_endpoints_uint_ranges :
  scale (NdUInt 8 [0; 255]) (PyInt 0) (PyInt 255) (PyInt 0) (PyInt 65535)
    = NdFloat64 [sf_of_Z Double 0; sf_of_Z Double 65535] /\
  scale (NdUInt 16 [0; 65535]) (PyInt 0) (PyInt 65535) (PyInt 0) (PyInt 255)
    = NdFloat64 [sf_of_Z Double 0; sf_of_Z Double 255].
Proof. vm_compute. split; reflexivity. Qed.

(** ** The rescaler over exact arithmetic *)

Section ScaleExact.
Local Open Scope Q_scope.

Lemma scale_Q_unfold (x a b c d : Q) :
  scale x a b c d = (x - a) / (b - a) * (d - c) + c.
Proof. reflexivity. Qed.

Lemma range_width_pos (a b : Q) : a < b -> 0 < b - a.
Proof. intros H. apply (Qplus_lt_l _ _ a). ring_simplify. exact H. Qed.

Lemma range_width_inv_pos (a b : Q) : a < b -> 0 < / (b - a).
Proof. intros H. apply Qinv_lt_0_compat, range_width_pos, H. Qed.

(** The difference of two rescaled values is the difference of the inputs
    times the (positive) slope. *)
Lemma scale_Q_diff (x y a b c d : Q) :
  scale y a b c d - scale x a b c d == (y - x) * (/ (b - a) * (d - c)).
Proof. rewrite !scale_Q_unfold. unfold Qdiv. ring. Qed.
End ScaleExact.

(** C1 (as amended): over exact arithmetic, for a < b the rescaler sends the
    lower input endpoint a to c and the upper input endpoint b to d. *)
Theorem scale_endpoints_exact (a b c d : Q) :
  (a < b)%Q ->
  (scale a a b c d == c)%Q /\ (scale b a b c d == d)%Q.
Proof.
  intros Hab. rewrite !scale_Q_unfold.
  assert (Hne : ~ (b - a == 0)%Q).
  { intros E. apply range_width_pos in Hab. rewrite E in Hab.
    exact (Qlt_irrefl _ Hab). }
  split; field; exact Hne.
Qed.

Lemma scale_endpoints_exact_witness :
  (scale (-1000) (-1000) 3000 0 65535 == 0)%Q /\
  (scale 3000 (-1000) 3000 0 65535 == 65535)%Q.
Proof. apply (scale_endpoints_exact (-1000) 3000 0 65535). reflexivity. Defined.

(** C1, as stated, fails on Python floats: with the input range [0.0, 1.0]
    and the output range [-2^53, 1.0], the rounding of d - c loses the 1, and
    the upper endpoint 1.0 is sent to 0.0 instead of 1.0. *)
Lemma scale_upper_endpoint_float_inexact :
  let a := PyFloat (sf_of_Z Double 0) in
  let b := PyFloat (sf_of_Z Double 1) in
  let c := PyFloat (sf_of_Z Double (- 2 ^ 53)) in
  let d := PyFloat (sf_of_Z Double 1) in
  SFltb (sf_of_Z Double 0) (sf_of_Z Double 1) = true /\
  scale b a b c d = PyFloat (S754_zero false) /\
  scale b a b c d <> d /\
  ~ (scale a a b c d = c /\ scale b a b c d = d).
Proof.
  vm_compute. repeat split; try discriminate.
  intros [_ H]. discriminate H.
Qed.

(** C10: over exact arithmetic, with a < b and c <= d the rescaler is
    monotone in x, and strictly increasing when c < d. *)
Theorem scale_monotone_exact (a b c d x y : Q) :
  (a < b)%Q -> (c <= d)%Q ->
  ((x <= y)%Q -> (scale x a b c d <= scale y a b c d)%Q) /\
  ((c < d)%Q -> (x < y)%Q -> (scale x a b c d < scale y a b c d)%Q).
Proof.
  intros Hab Hcd.
  pose proof (range_width_inv_pos a b Hab) as Hk.
  split.
  - intros Hxy.
    apply Qle_minus_iff.
    change (0 <= scale y a b c d - scale x a b c d)%Q.
    rewrite scale_Q_diff.
    apply Qmult_le_0_compat.
    + apply (Qplus_le_l _ _ x). ring_simplify. exact Hxy.
    + apply Qmult_le_0_compat.
      * apply Qlt_le_weak, Hk.
      * apply (Qplus_le_l _ _ c). ring_simplify. exact Hcd.
  - intros Hcd' Hxy.
    apply Qlt_minus_iff.
    change (0 < scale y a b c d - scale x a b c d)%Q.
    rewrite scale_Q_diff.
    apply Qmult_lt_0_compat.
    + apply (Qplus_lt_l _ _ x). ring_simplify. exact Hxy.
    + apply Qmult_lt_0_compat.
      * exact Hk.
      * apply (Qplus_lt_l _ _ c). ring_simplify. exact Hcd'.
Qed.

Lemma scale_monotone_exact_witness :
  (scale 10 0 255 0 65535 <= scale 20 0 255 0 65535)%Q /\
  (scale 10 0 255 0 65535 < scale 20 0 255 0 65535)%Q.
Proof.
  destruct (scale_monotone_exact 0 255 0 65535 10 20) as [Hle Hlt];
    [reflexivity | discriminate |].
  split; [apply Hle; discriminate | apply Hlt; reflexivity].
Defined.

(** ** Order on floats *)

Lemma SFcompare_rank (x y : spec_float) :
  is_nan x = false -> is_nan y = false ->
  match SFcompare x y with
  | Some Lt => lex_lt (rank x) (rank y)
  | Some Gt => lex_lt (rank y) (rank x)
  | Some Eq => rank x = rank y
  | None => False
  end.
Proof.
  unfold lex_lt.
  destruct x as [[]|[]| |[] m e], y as [[]|[]| |[] m' e'];
    cbn; intros Hx Hy; try discriminate; try reflexivity; try lia.
  - destruct (Z.compare_spec e e'); [subst | lia | lia].
    change (PosDef.Pos.compare_cont Eq m m') with (Pos.compare m m').
    destruct (Pos.compare_spec m m'); cbn; [congruence | lia | lia].
  - destruct (Z.compare_spec e e'); [subst | lia | lia].
    change (PosDef.Pos.compare_cont Eq m m') with (Pos.compare m m').
    destruct (Pos.compare_spec m m'); cbn; [congruence | lia | lia].
Qed.

Lemma lex_lt_irrefl (p : Z * Z * Z) : ~ lex_lt p p.
Proof. destruct p as [[a b] c]. unfold lex_lt. lia. Qed.

Lemma lex_lt_trans (p q r : Z * Z * Z) : lex_lt p q -> lex_lt q r -> lex_lt p r.
Proof.
  destruct p as [[a b] c], q as [[a' b'] c'], r as [[a'' b''] c''].
  unfold lex_lt. lia.
Qed.

Lemma lex_lt_asym (p q : Z * Z * Z) : lex_lt p q -> ~ lex_lt q p.
Proof. intros H H'. exact (lex_lt_irrefl _ (lex_lt_trans _ _ _ H H')). Qed.

Lemma lex_lt_total (p q : Z * Z * Z) : lex_lt p q \/ p = q \/ lex_lt q p.
Proof.
  destruct p as [[a b] c], q as [[a' b'] c']. unfold lex_lt.
  destruct (Z.lt_total a a') as [|[|]]; [lia | | lia].
  destruct (Z.lt_total b b') as [|[|]]; [lia | | lia].
  destruct (Z.lt_total c c') as [|[|]]; [lia | | lia].
  right; left; congruence.
Qed.

Lemma SFltb_rank (x y : spec_float) :
  is_nan x = false -> is_nan y = false ->
  (SFltb x y = true <-> lex_lt (rank x) (rank y)).
Proof.
  intros Hx Hy. pose proof (SFcompare_rank x y Hx Hy) as H.
  unfold SFltb. destruct (SFcompare x y) as [[]|]; try contradiction.
  - rewrite H. split; [discriminate | intros C; destruct (lex_lt_irrefl _ C)].
  - split; [trivial | reflexivity].
  - split; [discriminate | intros C; destruct (lex_lt_asym _ _ H C)].
Qed.

Lemma SFltb_nan_l (x y : spec_float) : SFltb x y = true -> is_nan x = false.
Proof. destruct x; [reflexivity .. | discriminate | reflexivity]. Qed.

Lemma SFltb_nan_r (x y : spec_float) : SFltb x y = true -> is_nan y = false.
Proof.
  destruct y; try reflexivity. unfold SFltb. destruct x; discriminate.
Qed.

Lemma SFltb_irrefl (x : spec_float) : SFltb x x = false.
Proof.
  destruct (is_nan x) eqn:Hx.
  - destruct x; try discriminate. reflexivity.
  - destruct (SFltb x x) eqn:E; [| reflexivity].
    apply SFltb_rank in E; trivial. destruct (lex_lt_irrefl _ E).
Qed.

Lemma SFltb_trans (x y z : spec_float) :
  SFltb x y = true -> SFltb y z = true -> SFltb x z = true.
Proof.
  intros H1 H2.
  pose proof (SFltb_nan_l _ _ H1). pose proof (SFltb_nan_r _ _ H1).
  pose proof (SFltb_nan_r _ _ H2).
  apply SFltb_rank in H1, H2; trivial. apply SFltb_rank; trivial.
  eapply lex_lt_trans; eassumption.
Qed.

Lemma SFltb_negtrans (x y z : spec_float) :
  is_nan x = false -> is_nan y = false -> is_nan z = false ->
  SFltb x y = false -> SFltb y z = false -> SFltb x z = false.
Proof.
  intros Hx Hy Hz H1 H2.
  destruct (SFltb x z) eqn:E; [| reflexivity].
  apply SFltb_rank in E; trivial.
  assert (N1 : ~ lex_lt (rank x) (rank y)).
  { intros C. apply SFltb_rank in C; trivial. congruence. }
  assert (N2 : ~ lex_lt (rank y) (rank z)).
  { intros C. apply SFltb_rank in C; trivial. congruence. }
  destruct (lex_lt_total (rank x) (rank y)) as [|[Exy|L1]]; [contradiction | |].
  - rewrite Exy in E. contradiction.
  - destruct (lex_lt_total (rank y) (rank z)) as [|[Eyz|L2]]; [contradiction | |].
    + rewrite <- Eyz in E. destruct (lex_lt_asym _ _ E L1).
    + destruct (lex_lt_asym _ _ E (lex_lt_trans _ _ _ L2 L1)).
Qed.

Lemma SFleb_ltb (x y : spec_float) :
  is_nan x = false -> is_nan y = false -> SFleb x y = negb (SFltb y x).
Proof.
  intros Hx Hy.
  pose proof (SFcompare_rank x y Hx Hy) as H.
  pose proof (SFcompare_rank y x Hy Hx) as H'.
  unfold SFleb, SFltb.
  destruct (SFcompare x y) as [[]|], (SFcompare y x) as [[]|];
    try contradiction; try reflexivity; exfalso;
    match goal with
    | E : rank ?a = rank ?b, L : lex_lt (rank ?a) (rank ?b) |- _ =>
        rewrite E in L; exact (lex_lt_irrefl _ L)
    | E : rank ?a = rank ?b, L : lex_lt (rank ?b) (rank ?a) |- _ =>
        rewrite E in L; exact (lex_lt_irrefl _ L)
    | L : lex_lt ?p ?q, L' : lex_lt ?q ?p |- _ => exact (lex_lt_asym _ _ L L')
    end.
Qed.

(** Two numbers neither of which is below the other compare equal. *)
Lemma feq_of_not_ltb (x y : spec_float) :
  is_nan x = false -> is_nan y = false ->
  SFltb x y = false -> SFltb y x = false -> feq x y.
Proof.
  intros Hx Hy H1 H2. unfold feq.
  pose proof (SFcompare_rank x y Hx Hy) as H.
  destruct (SFcompare x y) as [[]|] eqn:E; try contradiction.
  - reflexivity.
  - unfold SFltb in H1. rewrite E in H1. discriminate.
  - apply SFltb_rank in H; trivial. congruence.
Qed.

Lemma feq_refl (x : spec_float) : is_nan x = false -> feq x x.
Proof.
  intros Hx. apply feq_of_not_ltb; trivial; apply SFltb_irrefl.
Qed.

(** ** Reductions by comparison *)

Section Reduction.
Variable ltb : spec_float -> spec_float -> bool.
Hypothesis ltb_irrefl : forall x, ltb x x = false.
Hypothesis ltb_trans :
  forall x y z, ltb x y = true -> ltb y z = true -> ltb x z = true.
Hypothesis ltb_negtrans :
  forall x y z, is_nan x = false -> is_nan y = false -> is_nan z = false ->
                ltb x y = false -> ltb y z = false -> ltb x z = false.

Lemma least_of_singleton (x : spec_float) : least_of ltb [x] x.
Proof.
  split; [left; reflexivity |].
  intros y [<- | []]. apply ltb_irrefl.
Qed.

Lemma pick_least (seen chunk : list spec_float) (m c : spec_float) :
  no_nan seen -> no_nan chunk ->
  least_of ltb seen m -> least_of ltb chunk c ->
  least_of ltb (seen ++ chunk) (pick ltb m c).
Proof.
  intros Ns Nc [Hm Lm] [Hc Lc]. unfold pick.
  destruct (ltb c m) eqn:E; split.
  - apply in_or_app. right. exact Hc.
  - intros x Hx. apply in_app_or in Hx. destruct Hx as [Hx | Hx].
    + destruct (ltb x c) eqn:E'; [| reflexivity].
      rewrite <- (Lm x Hx). symmetry. eapply ltb_trans; eassumption.
    + apply Lc, Hx.
  - apply in_or_app. left. exact Hm.
  - intros x Hx. apply in_app_or in Hx. destruct Hx as [Hx | Hx].
    + apply Lm, Hx.
    + apply (ltb_negtrans x c m); auto.
Qed.

Lemma fold_pick_least (rest seen : list spec_float) (acc : spec_float) :
  no_nan seen -> no_nan rest -> least_of ltb seen acc ->
  least_of ltb (seen ++ rest) (fold_left (pick ltb) rest acc).
Proof.
  revert seen acc. induction rest as [|y rest IH]; intros seen acc Ns Nr L.
  - rewrite app_nil_r. exact L.
  - cbn [fold_left].
    replace (seen ++ y :: rest) with ((seen ++ [y]) ++ rest)
      by (rewrite <- app_assoc; reflexivity).
    apply IH.
    + intros x Hx. apply in_app_or in Hx. destruct Hx as [Hx | [<- | []]].
      * apply Ns, Hx.
      * apply Nr. left. reflexivity.
    + intros x Hx. apply Nr. right. exact Hx.
    + apply pick_least; trivial.
      * intros x [<- | []]. apply Nr. left. reflexivity.
      * apply least_of_singleton.
Qed.

(** Two least elements of one list are not strictly ordered. *)
Lemma least_of_unique (l : list spec_float) (m1 m2 : spec_float) :
  least_of ltb l m1 -> least_of ltb l m2 ->
  ltb m1 m2 = false /\ ltb m2 m1 = false.
Proof. intros [H1 L1] [H2 L2]. split; auto. Qed.
End Reduction.

Lemma SFgtb_irrefl (x : spec_float) : SFgtb x x = false.
Proof. apply SFltb_irrefl. Qed.

Lemma SFgtb_trans (x y z : spec_float) :
  SFgtb x y = true -> SFgtb y z = true -> SFgtb x z = true.
Proof. unfold SFgtb. intros H1 H2. exact (SFltb_trans _ _ _ H2 H1). Qed.

Lemma SFgtb_negtrans (x y z : spec_float) :
  is_nan x = false -> is_nan y = false -> is_nan z = false ->
  SFgtb x y = false -> SFgtb y z = false -> SFgtb x z = false.
Proof.
  unfold SFgtb. intros Hx Hy Hz H1 H2. exact (SFltb_negtrans _ _ _ Hz Hy Hx H2 H1).
Qed.

Lemma np_min2_pick (acc y : spec_float) :
  is_nan acc = false -> is_nan y = false -> np_min2 acc y = pick SFltb acc y.
Proof.
  intros Ha Hy. unfold np_min2, pick.
  rewrite (SFleb_ltb acc y Ha Hy), Ha, orb_false_r.
  destruct (SFltb y acc); reflexivity.
Qed.

Lemma np_max2_pick (acc y : spec_float) :
  is_nan acc = false -> is_nan y = false -> np_max2 acc y = pick SFgtb acc y.
Proof.
  intros Ha Hy. unfold np_max2, pick, SFgtb.
  rewrite (SFleb_ltb y acc Hy Ha), Ha, orb_false_r.
  destruct (SFltb acc y); reflexivity.
Qed.

Lemma pick_no_nan (ltb : spec_float -> spec_float -> bool) (acc y : spec_float) :
  is_nan acc = false -> is_nan y = false -> is_nan (pick ltb acc y) = false.
Proof. intros Ha Hy. unfold pick. destruct (ltb y acc); assumption. Qed.

Lemma fold_np_min2_pick (rest : list spec_float) (x : spec_float) :
  is_nan x = false -> no_nan rest ->
  fold_left np_min2 rest x = fold_left (pick SFltb) rest x.
Proof.
  revert x. induction rest as [|y rest IH]; intros x Hx Hr; [reflexivity |].
  cbn [fold_left].
  assert (Hy : is_nan y = false) by (apply Hr; left; reflexivity).
  rewrite (np_min2_pick x y Hx Hy). apply IH.
  - apply pick_no_nan; assumption.
  - intros z Hz. apply Hr. right. exact Hz.
Qed.

Lemma fold_np_max2_pick (rest : list spec_float) (x : spec_float) :
  is_nan x = false -> no_nan rest ->
  fold_left np_max2 rest x = fold_left (pick SFgtb) rest x.
Proof.
  revert x. induction rest as [|y rest IH]; intros x Hx Hr; [reflexivity |].
  cbn [fold_left].
  assert (Hy : is_nan y = false) by (apply Hr; left; reflexivity).
  rewrite (np_max2_pick x y Hx Hy). apply IH.
  - apply pick_no_nan; assumption.
  - intros z Hz. apply Hr. right. exact Hz.
Qed.

(** On a chunk without NaN, [chunk.min()] is a least element of the chunk and
    [chunk.max()] a greatest one. *)
Lemma np_min_least (x : spec_float) (rest : list spec_float) :
  no_nan (x :: rest) ->
  exists c, np_min (x :: rest) = Ok c /\ least_of SFltb (x :: rest) c.
Proof.
  intros Hn. exists (fold_left (pick SFltb) rest x). split.
  - cbn [np_min]. rewrite fold_np_min2_pick; trivial.
    + apply Hn. left. reflexivity.
    + intros z Hz. apply Hn. right. exact Hz.
  - apply (fold_pick_least SFltb SFltb_irrefl SFltb_trans SFltb_negtrans rest [x] x).
    + intros z [<- | []]. apply Hn. left. reflexivity.
    + intros z Hz. apply Hn. right. exact Hz.
    + apply least_of_singleton, SFltb_irrefl.
Qed.

Lemma np_max_greatest (x : spec_float) (rest : list spec_float) :
  no_nan (x :: rest) ->
  exists c, np_max (x :: rest) = Ok c /\ least_of SFgtb (x :: rest) c.
Proof.
  intros Hn. exists (fold_left (pick SFgtb) rest x). split.
  - cbn [np_max]. rewrite fold_np_max2_pick; trivial.
    + apply Hn. left. reflexivity.
    + intros z Hz. apply Hn. right. exact Hz.
  - apply (fold_pick_least SFgtb SFgtb_irrefl SFgtb_trans SFgtb_negtrans rest [x] x).
    + intros z [<- | []]. apply Hn. left. reflexivity.
    + intros z Hz. apply Hn. right. exact Hz.
    + apply least_of_singleton, SFgtb_irrefl.
Qed.

(** ** Buffers and chunks *)

Lemma frombuffer_f32_take_drop (k : nat) (bs : list byte) (xs : list spec_float) :
  frombuffer_f32 bs = Ok xs ->
  frombuffer_f32 (take (4 * k) bs) = Ok (take k xs) /\
  frombuffer_f32 (drop (4 * k) bs) = Ok (drop k xs).
Proof.
  revert bs xs. induction k as [|k IH]; intros bs xs H.
  - cbn. rewrite !drop_0. split; [reflexivity | exact H].
  - replace (4 * S k)%nat with (S (S (S (S (4 * k))))) by lia.
    destruct bs as [|b0 [|b1 [|b2 [|b3 rest]]]]; cbn in H; try discriminate.
    + injection H as <-. split; reflexivity.
    + destruct (frombuffer_f32 rest) as [xs'|] eqn:E; [| discriminate].
      injection H as <-. destruct (IH rest xs' E) as [IH1 IH2].
      cbn [take drop frombuffer_f32]. rewrite IH1. split; [reflexivity | exact IH2].
Qed.

Lemma frombuffer_f32_length (bs : list byte) (xs : list spec_float) :
  frombuffer_f32 bs = Ok xs -> length bs = (4 * length xs)%nat.
Proof.
  revert xs. induction bs as [bs IH] using (induction_ltof1 _ (@length byte)).
  unfold ltof in IH. intros xs H.
  destruct bs as [|b0 [|b1 [|b2 [|b3 rest]]]]; cbn in H; try discriminate.
  - injection H as <-. reflexivity.
  - destruct (frombuffer_f32 rest) as [xs'|] eqn:E; [| discriminate].
    injection H as <-. cbn [length]. rewrite (IH rest) with (xs := xs'); trivial.
    + lia.
    + cbn. lia.
Qed.

(** The loop of [find_float_range], on a file that decodes to the samples
    [xs], none a NaN, read by [4 * k] bytes: it ends on a least and a
    greatest element of what the bounds started from ([sm], [sM]) and of the
    samples. *)
Lemma scan_chunks_spec (fuel k : nat) :
  (0 < k)%nat ->
  forall (bs : list byte) (xs sm sM : list spec_float) (m M : spec_float),
    (length bs <= fuel)%nat ->
    frombuffer_f32 bs = Ok xs ->
    no_nan xs -> no_nan sm -> no_nan sM ->
    least_of SFltb sm m -> least_of SFgtb sM M ->
    exists m' M',
      scan_chunks (read_chunks_aux fuel (4 * k) bs) m M = Ok (m', M') /\
      least_of SFltb (sm ++ xs) m' /\ least_of SFgtb (sM ++ xs) M'.
Proof.
  intros Hk. induction fuel as [|fuel IH]; intros bs xs sm sM m M Hlen Hbs Hn Hsm HsM Lm LM.
  - destruct bs; [| cbn in Hlen; lia]. cbn in Hbs. injection Hbs as <-.
    exists m, M. rewrite !app_nil_r. split; [reflexivity | split; assumption].
  - cbn [read_chunks_aux].
    destruct bs as [|b bs'].
    { cbn in Hbs. injection Hbs as <-. rewrite take_nil.
      exists m, M. rewrite !app_nil_r. split; [reflexivity | split; assumption]. }
    destruct (frombuffer_f32_take_drop k _ _ Hbs) as [Ht Hd].
    pose proof (frombuffer_f32_length _ _ Hbs) as Hl.
    destruct xs as [|x xs']; [cbn in Hl; lia |].
    destruct (take (4 * k) (b :: bs')) as [|b' buf] eqn:Et.
    { destruct k; [lia |]. replace (4 * S k)%nat with (S (3 + 4 * k)) in Et by lia.
      discriminate Et. }
    cbn [scan_chunks]. rewrite Ht.
    destruct (take k (x :: xs')) as [|y chunk] eqn:Ec.
    { destruct k; [lia | discriminate Ec]. }
    assert (Hnc : no_nan (y :: chunk)).
    { intros z Hz. apply Hn. rewrite <- (take_drop k (x :: xs')), Ec.
      apply in_or_app. left. exact Hz. }
    assert (Hnd : no_nan (drop k (x :: xs'))).
    { intros z Hz. apply Hn. rewrite <- (take_drop k (x :: xs')).
      apply in_or_app. right. exact Hz. }
    destruct (np_min_least y chunk Hnc) as (c & -> & Lc).
    destruct (np_max_greatest y chunk Hnc) as (C & -> & LC).
    assert (Hlen' : (length (drop (4 * k) (b :: bs')) <= fuel)%nat).
    { rewrite length_drop. cbn [length] in *. lia. }
    assert (Hsm' : no_nan (sm ++ y :: chunk)).
    { intros z Hz. apply in_app_or in Hz. destruct Hz; auto. }
    assert (HsM' : no_nan (sM ++ y :: chunk)).
    { intros z Hz. apply in_app_or in Hz. destruct Hz; auto. }
    destruct (IH _ _ (sm ++ y :: chunk) (sM ++ y :: chunk)
                (pick SFltb m c) (pick SFgtb M C) Hlen' Hd Hnd Hsm' HsM')
      as (m' & M' & Hscan & Lm' & LM').
    + apply (pick_least SFltb SFltb_trans SFltb_negtrans); assumption.
    + apply (pick_least SFgtb SFgtb_trans SFgtb_negtrans); assumption.
    + exists m', M'. split; [exact Hscan |].
      rewrite <- !app_assoc, <- Ec, !take_drop in Lm', LM'. split; assumption.
Qed.

(** ** The range scanner *)

Lemma FLT_MAX_eq : FLT_MAX = S754_finite false 16777215 104.
Proof. reflexivity. Qed.

Lemma FLT_MIN_eq : FLT_MIN = S754_finite true 16777215 104.
Proof. reflexivity. Qed.

(** A run of the scanner with an explicit chunk size, on a file of bytes. *)
Lemma find_float_range_run (st : state) (fp : string) (bs : list byte) (n : nat) :
  files st !! fp = Some (Raw bs) ->
  find_float_range fp (Some n) st =
  match scan_chunks (read_chunks n bs) FLT_MAX FLT_MIN with
  | Ok r =>
      (Ok r, add_log (Log INFO "Range: [{}, {}]"
                        [NpFloat32 (fst r); NpFloat32 (snd r)]) st)
  | Raise e => (Raise e, st)
  end.
Proof.
  intros H. unfold find_float_range, bind, ret, open_rb, lift, logging, modify.
  rewrite H. destruct (scan_chunks _ _ _); reflexivity.
Qed.

(** Without a chunk size, the scanner runs with a hundredth of the size. *)
Lemma scanner_default_size (st : state) (fp : string) (bs : list byte) :
  files st !! fp = Some (Raw bs) ->
  find_float_range fp None st =
  find_float_range fp (Some (default_buffer_size (length bs))) st.
Proof.
  intros H. unfold find_float_range, bind, ret, getsize, open_rb, bind, ret.
  rewrite !H. reflexivity.
Qed.

(** A float32 word holds a mantissa below 2^24 and an exponent of at most
    104. *)
Lemma decode_f32_bounded (bits : Z) :
  match decode_f32 bits with
  | S754_finite _ m e => e <= 104 /\ Z.pos m < 2 ^ 24
  | _ => True
  end.
Proof.
  unfold decode_f32.
  pose proof (Z.mod_pos_bound (bits / 2 ^ 23) (2 ^ 8) ltac:(lia)) as HE.
  pose proof (Z.mod_pos_bound bits (2 ^ 23) ltac:(lia)) as HF.
  destruct (Z.eqb_spec ((bits / 2 ^ 23) mod 2 ^ 8) 255).
  { destruct (_ =? 0); exact I. }
  destruct (Z.eqb_spec ((bits / 2 ^ 23) mod 2 ^ 8) 0).
  { destruct (bits mod 2 ^ 23) eqn:E; try exact I. lia. }
  destruct (2 ^ 23 + bits mod 2 ^ 23) eqn:E; try exact I. lia.
Qed.

(** What a float32 word holds is not above the largest float32 unless it is
    the positive infinity, and not below the smallest unless it is the
    negative infinity. *)
Lemma decode_f32_below_max (bits : Z) :
  decode_f32 bits <> S754_infinity false ->
  SFltb FLT_MAX (decode_f32 bits) = false.
Proof.
  intros Hinf. pose proof (decode_f32_bounded bits) as Hb.
  destruct (decode_f32 bits) as [s|[]| |s m e]; try reflexivity; [congruence |].
  destruct Hb as [He Hm]. rewrite FLT_MAX_eq.
  destruct (SFltb _ _) eqn:E; [| reflexivity].
  apply SFltb_rank in E; [| reflexivity | reflexivity].
  destruct s; cbn in E; lia.
Qed.

Lemma decode_f32_above_min (bits : Z) :
  decode_f32 bits <> S754_infinity true ->
  SFltb (decode_f32 bits) FLT_MIN = false.
Proof.
  intros Hinf. pose proof (decode_f32_bounded bits) as Hb.
  destruct (decode_f32 bits) as [[]|[]| |s m e]; try reflexivity; [congruence |].
  destruct Hb as [He Hm]. rewrite FLT_MIN_eq.
  destruct (SFltb _ _) eqn:E; [| reflexivity].
  apply SFltb_rank in E; [| reflexivity | reflexivity].
  destruct s; cbn in E; lia.
Qed.

Lemma frombuffer_f32_decoded (bs : list byte) (xs : list spec_float) :
  frombuffer_f32 bs = Ok xs ->
  forall x, In x xs -> exists bits, x = decode_f32 bits.
Proof.
  revert xs. induction bs as [bs IH] using (induction_ltof1 _ (@length byte)).
  unfold ltof in IH. intros xs H.
  destruct bs as [|b0 [|b1 [|b2 [|b3 rest]]]]; cbn in H; try discriminate.
  - injection H as <-. intros x [].
  - destruct (frombuffer_f32 rest) as [xs'|] eqn:E; [| discriminate].
    injection H as <-. intros x [<- | Hx].
    + eexists. reflexivity.
    + apply (IH rest) with (xs := xs'); trivial. cbn. lia.
Qed.

Lemma SFleb_of_not_ltb (x y : spec_float) :
  is_nan x = false -> is_nan y = false -> SFltb y x = false -> SFleb x y = true.
Proof. intros Hx Hy H. rewrite SFleb_ltb, H; trivial. Qed.

Lemma least_is_minimum (xs : list spec_float) (m : spec_float) :
  no_nan xs ->
  (exists x, In x xs /\ SFltb FLT_MAX x = false) ->
  least_of SFltb (FLT_MAX :: xs) m -> is_minimum xs m.
Proof.
  intros Hn (x0 & Hx0 & Hr) [Hm L].
  assert (Nm : is_nan m = false) by (destruct Hm as [<- | Hm]; auto).
  split.
  - destruct Hm as [<- | Hm].
    + exists x0. split; [exact Hx0 |].
      apply feq_of_not_ltb; auto. apply L. right. exact Hx0.
    + exists m. split; [exact Hm | apply feq_refl, Nm].
  - intros x Hx. apply SFleb_of_not_ltb; auto. apply L. right. exact Hx.
Qed.

Lemma greatest_is_maximum (xs : list spec_float) (m : spec_float) :
  no_nan xs ->
  (exists x, In x xs /\ SFltb x FLT_MIN = false) ->
  least_of SFgtb (FLT_MIN :: xs) m -> is_maximum xs m.
Proof.
  intros Hn (x0 & Hx0 & Hr) [Hm L].
  assert (Nm : is_nan m = false) by (destruct Hm as [<- | Hm]; auto).
  split.
  - destruct Hm as [<- | Hm].
    + exists x0. split; [exact Hx0 |].
      apply feq_of_not_ltb; auto. apply (L x0). right. exact Hx0.
    + exists m. split; [exact Hm | apply feq_refl, Nm].
  - intros x Hx. apply SFleb_of_not_ltb; auto. apply (L x). right. exact Hx.
Qed.

Lemma no_nan_cons (x : spec_float) (xs : list spec_float) :
  is_nan x = false -> no_nan xs -> no_nan (x :: xs).
Proof. intros Hx Hn y [<- | Hy]; auto. Qed.

(** The scanner on a file of float32 samples without NaN, read by [4 * k]
    bytes. *)
Lemma find_float_range_least (st : state) (fp : string) (bs : list byte)
    (xs : list spec_float) (k : nat) :
  files st !! fp = Some (Raw bs) ->
  frombuffer_f32 bs = Ok xs -> no_nan xs -> (0 < k)%nat ->
  exists m M,
    fst (find_float_range fp (Some (4 * k)%nat) st) = Ok (m, M) /\
    least_of SFltb (FLT_MAX :: xs) m /\ least_of SFgtb (FLT_MIN :: xs) M.
Proof.
  intros Hf Hbs Hn Hk.
  destruct (scan_chunks_spec (length bs) k Hk bs xs [FLT_MAX] [FLT_MIN]
              FLT_MAX FLT_MIN) as (m & M & Hscan & Lm & LM); trivial.
  - intros x [<- | []]. reflexivity.
  - intros x [<- | []]. reflexivity.
  - apply least_of_singleton, SFltb_irrefl.
  - apply least_of_singleton, SFgtb_irrefl.
  - exists m, M. rewrite (find_float_range_run st fp bs _ Hf).
    unfold read_chunks. rewrite Hscan. split; [reflexivity | split; assumption].
Qed.

(** C3 (as amended): on a non-empty stream of float32 samples none of which
    is a NaN, the scanner returns, for any two chunk sizes that are positive
    multiples of 4 bytes (N and 2N in particular), pairs whose minima compare
    equal and whose maxima compare equal; the minimum returned is the global
    minimum of the samples as soon as one of them is not the positive
    infinity, and the maximum returned the global maximum as soon as one of
    them is not the negative infinity (so both are when all are finite). *)
Theorem find_float_range_chunk_size_independent
    (st : state) (fp : string) (bs : list byte) (xs : list spec_float)
    (k1 k2 : nat) :
  files st !! fp = Some (Raw bs) ->
  frombuffer_f32 bs = Ok xs -> xs <> [] -> no_nan xs ->
  (0 < k1)%nat -> (0 < k2)%nat ->
  exists r1 r2,
    fst (find_float_range fp (Some (4 * k1)%nat) st) = Ok r1 /\
    fst (find_float_range fp (Some (4 * k2)%nat) st) = Ok r2 /\
    feq (fst r1) (fst r2) /\ feq (snd r1) (snd r2) /\
    ((exists x, In x xs /\ x <> S754_infinity false) -> is_minimum xs (fst r1)) /\
    ((exists x, In x xs /\ x <> S754_infinity true) -> is_maximum xs (snd r1)).
Proof.
  intros Hf Hbs Hne Hn Hk1 Hk2.
  destruct (find_float_range_least st fp bs xs k1 Hf Hbs Hn Hk1)
    as (m1 & M1 & R1 & Lm1 & LM1).
  destruct (find_float_range_least st fp bs xs k2 Hf Hbs Hn Hk2)
    as (m2 & M2 & R2 & Lm2 & LM2).
  exists (m1, M1), (m2, M2). cbn [fst snd].
  assert (Hn1 : no_nan (FLT_MAX :: xs)) by (apply no_nan_cons; trivial).
  assert (Hn2 : no_nan (FLT_MIN :: xs)) by (apply no_nan_cons; trivial).
  split; [exact R1 |]. split; [exact R2 |].
  split; [| split; [| split]].
  - destruct (least_of_unique SFltb _ _ _ Lm1 Lm2).
    apply feq_of_not_ltb; trivial; apply Hn1; [apply Lm1 | apply Lm2].
  - destruct (least_of_unique SFgtb _ _ _ LM1 LM2).
    apply feq_of_not_ltb; trivial; apply Hn2; [apply LM1 | apply LM2].
  - intros (x & Hx & Hinf). apply least_is_minimum; trivial.
    exists x. split; [exact Hx |].
    destruct (frombuffer_f32_decoded bs xs Hbs x Hx) as [bits ->].
    apply decode_f32_below_max, Hinf.
  - intros (x & Hx & Hinf). apply greatest_is_maximum; trivial.
    exists x. split; [exact Hx |].
    destruct (frombuffer_f32_decoded bs xs Hbs x Hx) as [bits ->].
    apply decode_f32_above_min, Hinf.
Qed.

Lemma find_float_range_chunk_size_independent_witness :
  exists r1 r2,
    fst (find_float_range "v.raw" (Some (4 * 1)%nat)
           (on_disk [("v.raw", Raw three_samples)])) = Ok r1 /\
    fst (find_float_range "v.raw" (Some (4 * 2)%nat)
           (on_disk [("v.raw", Raw three_samples)])) = Ok r2 /\
    feq (fst r1) (fst r2) /\ feq (snd r1) (snd r2) /\
    is_minimum [sf_of_Z Single 9; sf_of_Z Single 5; S754_zero false] (fst r1) /\
    is_maximum [sf_of_Z Single 9; sf_of_Z Single 5; S754_zero false] (snd r1).
Proof.
  destruct (find_float_range_chunk_size_independent
              (on_disk [("v.raw", Raw three_samples)]) "v.raw" three_samples
              [sf_of_Z Single 9; sf_of_Z Single 5; S754_zero false] 1 2)
    as (r1 & r2 & H1 & H2 & Hmin & Hmax & Hlow & Hhigh).
  - reflexivity.
  - reflexivity.
  - discriminate.
  - intros x [<- | [<- | [<- | []]]]; reflexivity.
  - lia.
  - lia.
  - exists r1, r2. repeat (split; [assumption |]). split.
    + apply Hlow. exists (sf_of_Z Single 9).
      split; [left; reflexivity | discriminate].
    + apply Hhigh. exists (sf_of_Z Single 9).
      split; [left; reflexivity | discriminate].
Defined.

(** C3, as stated, fails on a stream that holds a NaN: a chunk with a NaN
    in it has a NaN for minimum and maximum and updates nothing, so which
    samples count depends on the chunk size. On 9.0, NaN, 5.0, 0.0 the
    maximum is 9.0 with chunks of 4 bytes and 5.0 with chunks of 8 bytes. *)
Lemma find_float_range_nan_chunk_size_dependent :
  let st := on_disk [("v.raw", Raw samples_with_nan)] in
  frombuffer_f32 samples_with_nan =
    Ok [sf_of_Z Single 9; S754_nan; sf_of_Z Single 5; S754_zero false] /\
  fst (find_float_range "v.raw" (Some 4%nat) st)
    = Ok (S754_zero false, sf_of_Z Single 9) /\
  fst (find_float_range "v.raw" (Some 8%nat) st)
    = Ok (S754_zero false, sf_of_Z Single 5) /\
  SFeqb (sf_of_Z Single 9) (sf_of_Z Single 5) = false.
Proof. vm_compute. repeat split. Qed.

(** C8 (as amended): on a zero-length file the scanner does not fail; for
    every chunk size, given or not, it returns the pair of its initial
    bounds, the largest float32 as minimum and the smallest as maximum, and
    writes nothing. *)
Theorem find_float_range_empty (st : state) (fp : string) (n : option nat) :
  files st !! fp = Some (Raw []) ->
  fst (find_float_range fp n st) = Ok (FLT_MAX, FLT_MIN) /\
  files (snd (find_float_range fp n st)) = files st.
Proof.
  intros H. destruct n as [n|].
  - rewrite (find_float_range_run st fp [] n H). split; reflexivity.
  - rewrite (scanner_default_size st fp [] H).
    rewrite (find_float_range_run st fp [] _ H). split; reflexivity.
Qed.

Lemma find_float_range_empty_witness :
  fst (find_float_range "v.raw" (Some 4%nat) (on_disk [("v.raw", Raw [])]))
    = Ok (FLT_MAX, FLT_MIN) /\
  files (snd (find_float_range "v.raw" (Some 4%nat) (on_disk [("v.raw", Raw [])])))
    = files (on_disk [("v.raw", Raw [])]).
Proof.
  apply (find_float_range_empty (on_disk [("v.raw", Raw [])]) "v.raw" (Some 4%nat)).
  reflexivity.
Defined.

(** C8, as stated, fails: on an empty file the scanner returns a pair and
    raises nothing. *)
Lemma empty_stream_returns_bounds :
  fst (find_float_range "v.raw" None (on_disk [("v.raw", Raw [])]))
    = Ok (FLT_MAX, FLT_MIN) /\
  (forall e, fst (find_float_range "v.raw" None (on_disk [("v.raw", Raw [])]))
             <> Raise e) /\
  SFltb FLT_MIN FLT_MAX = true.
Proof. vm_compute. repeat split. intros e H. discriminate H. Qed.

(** C9 (as amended): without a chunk size the scanner reads by
    floor(size / 100) bytes, the hundredth of the size rounded down, with no
    lower bound. *)
Theorem find_float_range_default_chunk (st : state) (fp : string) (bs : list byte) :
  files st !! fp = Some (Raw bs) ->
  find_float_range fp None st
    = find_float_range fp (Some (default_buffer_size (length bs))) st /\
  (100 * default_buffer_size (length bs) <= length bs
   < 100 * default_buffer_size (length bs) + 100)%nat.
Proof.
  intros H. split.
  - apply scanner_default_size, H.
  - unfold default_buffer_size.
    pose proof (Nat.div_mod_eq (length bs) 100).
    pose proof (Nat.mod_upper_bound (length bs) 100). lia.
Qed.

Lemma find_float_range_default_chunk_witness :
  find_float_range "v.raw" None (on_disk [("v.raw", Raw two_samples)])
    = find_float_range "v.raw" (Some (default_buffer_size (length two_samples)))
        (on_disk [("v.raw", Raw two_samples)]) /\
  (100 * default_buffer_size (length two_samples) <= length two_samples
   < 100 * default_buffer_size (length two_samples) + 100)%nat.
Proof.
  apply (find_float_range_default_chunk
           (on_disk [("v.raw", Raw two_samples)]) "v.raw" two_samples).
  reflexivity.
Defined.

(** C9, as stated, fails: for a file of two float32 samples (8 bytes) the
    default chunk size is 0 bytes, below the 4 bytes of one sample; the
    first read is then empty and the scanner returns its initial bounds
    although the file holds 1.0 and 2.0. *)
Lemma default_buffer_size_below_one_sample :
  default_buffer_size (length two_samples) = 0%nat /\
  (default_buffer_size (length two_samples) < 4)%nat /\
  frombuffer_f32 two_samples = Ok [sf_of_Z Single 1; sf_of_Z Single 2] /\
  fst (find_float_range "v.raw" None (on_disk [("v.raw", Raw two_samples)]))
    = Ok (FLT_MAX, FLT_MIN).
Proof. vm_compute. repeat split; lia. Qed.

(** ** Computations and the disk *)

Lemma bind_read_only {A B : Type} (m : M A) (k : A -> M B) :
  read_only m -> (forall a, read_only (k a)) -> read_only (bind m k).
Proof.
  intros Hm Hk st. unfold bind. specialize (Hm st).
  destruct (m st) as [[a|e] st1]; cbn in *.
  - rewrite (Hk a st1). exact Hm.
  - exact Hm.
Qed.

Lemma bind_keeps {A B : Type} (p : string) (m : M A) (k : A -> M B) :
  keeps p m -> (forall a, keeps p (k a)) -> keeps p (bind m k).
Proof.
  intros Hm Hk st Hp. unfold bind. specialize (Hm st Hp).
  destruct (m st) as [[a|e] st1]; cbn in *.
  - apply (Hk a st1 Hm).
  - exact Hm.
Qed.

Lemma bind_disk_only {A B : Type} (m : M A) (k : A -> M B) :
  disk_only m -> (forall a, disk_only (k a)) -> disk_only (bind m k).
Proof.
  intros Hm Hk st st' E. unfold bind. destruct (Hm st st' E) as [E1 E2].
  destruct (m st) as [[a|e] st1], (m st') as [[a'|e'] st1']; cbn in *;
    try discriminate.
  - injection E1 as <-. apply (Hk a st1 st1' E2).
  - injection E1 as <-. split; [reflexivity | exact E2].
Qed.

Lemma read_only_keeps {A : Type} (p : string) (m : M A) : read_only m -> keeps p m.
Proof. intros H st Hp. rewrite (H st). exact Hp. Qed.

Lemma ret_read_only {A : Type} (a : A) : read_only (ret a).
Proof. intros st. reflexivity. Qed.

Lemma raise_read_only {A : Type} (e : exn) : read_only (raise (A := A) e).
Proof. intros st. reflexivity. Qed.

Lemma lift_read_only {A : Type} (r : res A) : read_only (lift r).
Proof. intros st. reflexivity. Qed.

Lemma logging_read_only (lvl : level) (text : string) (args : list npval) :
  read_only (logging lvl text args).
Proof. intros st. reflexivity. Qed.

Lemma path_exists_read_only (p : string) : read_only (path_exists p).
Proof. intros st. reflexivity. Qed.

Lemma open_rb_read_only (p : string) : read_only (open_rb p).
Proof. intros st. unfold open_rb. destruct (files st !! p) as [[]|]; reflexivity. Qed.

Lemma dat_read_read_only (p : string) : read_only (dat_read p).
Proof. intros st. unfold dat_read. destruct (files st !! p) as [[]|]; reflexivity. Qed.

Lemma getsize_read_only (p : string) : read_only (getsize p).
Proof.
  apply bind_read_only; [apply open_rb_read_only | intros; apply ret_read_only].
Qed.

Lemma find_float_range_read_only (fp : string) (n : option nat) :
  read_only (find_float_range fp n).
Proof.
  unfold find_float_range. apply bind_read_only.
  - destruct n.
    + apply ret_read_only.
    + apply bind_read_only; [apply getsize_read_only | intros; apply ret_read_only].
  - intros k. apply bind_read_only; [apply open_rb_read_only |].
    intros data. apply bind_read_only; [apply lift_read_only |].
    intros r. apply bind_read_only; [apply logging_read_only |].
    intros _. apply ret_read_only.
Qed.

Lemma ret_disk_only {A : Type} (a : A) : disk_only (ret a).
Proof. intros st st' E. split; [reflexivity | exact E]. Qed.

Lemma raise_disk_only {A : Type} (e : exn) : disk_only (raise (A := A) e).
Proof. intros st st' E. split; [reflexivity | exact E]. Qed.

Lemma lift_disk_only {A : Type} (r : res A) : disk_only (lift r).
Proof. intros st st' E. split; [reflexivity | exact E]. Qed.

Lemma logging_disk_only (lvl : level) (text : string) (args : list npval) :
  disk_only (logging lvl text args).
Proof. intros st st' E. split; [reflexivity | exact E]. Qed.

Lemma path_exists_disk_only (p : string) : disk_only (path_exists p).
Proof.
  intros st st' E. unfold path_exists, gets. cbn. rewrite E. split; reflexivity.
Qed.

Lemma open_rb_disk_only (p : string) : disk_only (open_rb p).
Proof.
  intros st st' E. unfold open_rb. rewrite E.
  destruct (files st' !! p) as [[]|]; split; trivial.
Qed.

Lemma dat_read_disk_only (p : string) : disk_only (dat_read p).
Proof.
  intros st st' E. unfold dat_read. rewrite E.
  destruct (files st' !! p) as [[]|]; split; trivial.
Qed.

Lemma open_wb_disk_only (p : string) : disk_only (open_wb p).
Proof. intros st st' E. unfold open_wb, modify. cbn. rewrite E. split; reflexivity. Qed.

Lemma append_bytes_disk_only (p : string) (bs : list byte) :
  disk_only (append_bytes p bs).
Proof.
  intros st st' E. unfold append_bytes. rewrite E.
  destruct (files st' !! p) as [[]|]; cbn; rewrite ?E; split; trivial.
Qed.

Lemma dat_write_disk_only (p : string) (dims : nat * nat * nat)
    (th : spec_float * spec_float * spec_float) (dtype mdl : string) :
  disk_only (dat_write p dims th dtype mdl).
Proof.
  intros st st' E. destruct dims as [[x y] z], th as [[tx ty] tz].
  unfold dat_write, modify. cbn. rewrite E. split; reflexivity.
Qed.

Lemma getsize_disk_only (p : string) : disk_only (getsize p).
Proof.
  apply bind_disk_only; [apply open_rb_disk_only | intros; apply ret_disk_only].
Qed.

Lemma find_float_range_disk_only (fp : string) (n : option nat) :
  disk_only (find_float_range fp n).
Proof.
  unfold find_float_range. apply bind_disk_only.
  - destruct n.
    + apply ret_disk_only.
    + apply bind_disk_only; [apply getsize_disk_only | intros; apply ret_disk_only].
  - intros k. apply bind_disk_only; [apply open_rb_disk_only |].
    intros data. apply bind_disk_only; [apply lift_disk_only |].
    intros r. apply bind_disk_only; [apply logging_disk_only |].
    intros _. apply ret_disk_only.
Qed.

Lemma convert_loop_disk_only (op bd fmt : string) (a b c d : npval)
    (buffers : list (list byte)) :
  disk_only (convert_loop op bd fmt a b c d buffers).
Proof.
  induction buffers as [|buffer rest IH]; cbn [convert_loop].
  - apply ret_disk_only.
  - apply bind_disk_only; [apply lift_disk_only |]. intros chunk.
    apply bind_disk_only; [apply lift_disk_only |]. intros bytes.
    apply bind_disk_only; [apply append_bytes_disk_only |]. intros _. exact IH.
Qed.

Lemma open_wb_keeps (p q : string) : keeps p (open_wb q).
Proof.
  intros st Hp. unfold open_wb, modify. cbn.
  destruct (decide (q = p)) as [-> | Hne].
  - rewrite lookup_insert_eq. eauto.
  - rewrite lookup_insert_ne; assumption.
Qed.

Lemma append_bytes_keeps (p q : string) (bs : list byte) :
  keeps p (append_bytes q bs).
Proof.
  intros st Hp. unfold append_bytes.
  destruct (files st !! q) as [[]|] eqn:E; cbn; trivial;
    (destruct (decide (q = p)) as [-> | Hne];
     [rewrite lookup_insert_eq; eauto | rewrite lookup_insert_ne; assumption]).
Qed.

Lemma dat_write_keeps (p q : string) (dims : nat * nat * nat)
    (th : spec_float * spec_float * spec_float) (dtype mdl : string) :
  keeps p (dat_write q dims th dtype mdl).
Proof.
  intros st Hp. destruct dims as [[x y] z], th as [[tx ty] tz].
  unfold dat_write, modify. cbn.
  destruct (decide (q = p)) as [-> | Hne].
  - rewrite lookup_insert_eq. eauto.
  - rewrite lookup_insert_ne; assumption.
Qed.

Lemma convert_loop_keeps (p op bd fmt : string) (a b c d : npval)
    (buffers : list (list byte)) :
  keeps p (convert_loop op bd fmt a b c d buffers).
Proof.
  induction buffers as [|buffer rest IH]; cbn [convert_loop].
  - apply read_only_keeps, ret_read_only.
  - apply bind_keeps; [apply read_only_keeps, lift_read_only |]. intros chunk.
    apply bind_keeps; [apply read_only_keeps, lift_read_only |]. intros bytes.
    apply bind_keeps; [apply append_bytes_keeps |]. intros _. exact IH.
Qed.

Lemma bind_creates {A B : Type} (p : string) (m : M A) (k : A -> M B) :
  creates p m -> (forall a, keeps p (k a)) -> creates p (bind m k).
Proof.
  intros Hm Hk st. unfold bind. specialize (Hm st).
  destruct (m st) as [[a|e] st1]; cbn in *.
  - apply (Hk a st1 Hm).
  - exact Hm.
Qed.

Lemma read_only_idle {A : Type} (p : string) (m : M A) :
  read_only m -> idle_or_creates p m.
Proof. intros H st. left. apply H. Qed.

Lemma creates_idle {A : Type} (p : string) (m : M A) :
  creates p m -> idle_or_creates p m.
Proof. intros H st. right. apply H. Qed.

Lemma bind_idle_or_creates {A B : Type} (p : string) (m : M A) (k : A -> M B) :
  read_only m -> (forall a, idle_or_creates p (k a)) ->
  idle_or_creates p (bind m k).
Proof.
  intros Hm Hk st. unfold bind. specialize (Hm st).
  destruct (m st) as [[a|e] st1]; cbn in *.
  - destruct (Hk a st1) as [E | E]; [left; congruence | right; exact E].
  - left. exact Hm.
Qed.

Lemma open_wb_creates (p : string) : creates p (open_wb p).
Proof.
  intros st. unfold open_wb, modify. cbn. rewrite lookup_insert_eq. eauto.
Qed.

(** ** The volume converter *)

Section ConvertProofs.

Variable determine_bit_depth :
  gmap string fcontent -> string -> nat * nat * nat -> res string.

Lemma infer_read_only (fp : string) (dims : nat * nat * nat) :
  read_only (fun st => (determine_bit_depth (files st) fp dims, st)).
Proof. intros st. reflexivity. Qed.

Lemma infer_disk_only (fp : string) (dims : nat * nat * nat) :
  disk_only (fun st => (determine_bit_depth (files st) fp dims, st)).
Proof. intros st st' E. cbn. rewrite E. split; reflexivity. Qed.

(** The outcome of [convert] and the disk it leaves depend on the disk
    only. *)
Lemma convert_disk_only (fp dat_fp file_format : string) :
  disk_only (convert determine_bit_depth fp dat_fp file_format).
Proof.
  unfold convert.
  apply bind_disk_only; [apply dat_read_disk_only |]. intros d.
  apply bind_disk_only; [apply infer_disk_only |]. intros bit_depth.
  destruct (String.eqb file_format bit_depth); [apply logging_disk_only |].
  apply bind_disk_only; [apply path_exists_disk_only |]. intros [|];
    [apply logging_disk_only |].
  apply bind_disk_only.
  { destruct (np_itemsize bit_depth); [apply ret_disk_only | apply raise_disk_only]. }
  intros itemsize. apply bind_disk_only.
  { destruct (is_uint_name bit_depth); [apply ret_disk_only |].
    destruct (String.eqb bit_depth "float32"); [| apply raise_disk_only].
    apply bind_disk_only; [apply find_float_range_disk_only |].
    intros r. apply ret_disk_only. }
  intros input_range. apply bind_disk_only.
  { destruct (is_uint_name file_format); [apply ret_disk_only |].
    destruct (String.eqb file_format "float32");
      [apply ret_disk_only | apply raise_disk_only]. }
  intros output_range.
  apply bind_disk_only; [apply open_rb_disk_only |]. intros data.
  apply bind_disk_only.
  { apply bind_disk_only; [apply open_wb_disk_only |]. intros _.
    apply convert_loop_disk_only. }
  intros _. apply dat_write_disk_only.
Qed.

(** [convert] either writes nothing or leaves a file at its output path. *)
Lemma convert_idle_or_creates (fp dat_fp file_format : string) :
  idle_or_creates (output_path fp file_format) (convert determine_bit_depth fp dat_fp file_format).
Proof.
  unfold convert.
  apply bind_idle_or_creates; [apply dat_read_read_only |]. intros d.
  apply bind_idle_or_creates; [apply infer_read_only |]. intros bit_depth.
  destruct (String.eqb file_format bit_depth);
    [apply read_only_idle, logging_read_only |].
  apply bind_idle_or_creates; [apply path_exists_read_only |]. intros [|];
    [apply read_only_idle, logging_read_only |].
  apply bind_idle_or_creates.
  { destruct (np_itemsize bit_depth); [apply ret_read_only | apply raise_read_only]. }
  intros itemsize. apply bind_idle_or_creates.
  { destruct (is_uint_name bit_depth); [apply ret_read_only |].
    destruct (String.eqb bit_depth "float32"); [| apply raise_read_only].
    apply bind_read_only; [apply find_float_range_read_only |].
    intros r. apply ret_read_only. }
  intros input_range. apply bind_idle_or_creates.
  { destruct (is_uint_name file_format); [apply ret_read_only |].
    destruct (String.eqb file_format "float32");
      [apply ret_read_only | apply raise_read_only]. }
  intros output_range.
  apply bind_idle_or_creates; [apply open_rb_read_only |]. intros data.
  apply creates_idle, bind_creates.
  - apply bind_creates; [apply open_wb_creates |]. intros _.
    apply convert_loop_keeps.
  - intros _. apply dat_write_keeps.
Qed.

(** When the output path exists, [convert] writes nothing. *)
Lemma convert_exists_read_only (fp dat_fp file_format : string) (st : state) :
  is_Some (files st !! output_path fp file_format) ->
  files (snd (convert determine_bit_depth fp dat_fp file_format st)) = files st.
Proof.
  intros Hex. unfold convert, bind, dat_read.
  destruct (files st !! dat_fp) as [[bs|d|doc|lo hi]|]; try reflexivity.
  destruct (determine_bit_depth (files st) fp _) as [bit_depth|e]; [| reflexivity].
  destruct (String.eqb file_format bit_depth); [reflexivity |].
  unfold path_exists, gets. rewrite bool_decide_true by exact Hex. reflexivity.
Qed.

(** C4: when the encoding inferred for the volume is the requested one,
    [convert] returns normally, leaves the disk as it is (no output volume,
    no new DAT file, no file modified) and logs that the volume is
    skipped. *)
Theorem convert_same_format_noop (st : state) (fp dat_fp file_format : string)
    (d : dat_record) :
  files st !! dat_fp = Some (Dat d) ->
  determine_bit_depth (files st) fp (xdim d, ydim d, zdim d) = Ok file_format ->
  fst (convert determine_bit_depth fp dat_fp file_format st) = Ok tt /\
  files (snd (convert determine_bit_depth fp dat_fp file_format st)) = files st /\
  log (snd (convert determine_bit_depth fp dat_fp file_format st)) =
    log st ++ [Log INFO ("Skipping '" +:+ fp +:+
                         "'. It is already desired file format: " +:+
                         file_format +:+ ".") []].
Proof.
  intros Hdat Hbd. unfold convert, bind, dat_read.
  rewrite Hdat, Hbd, String.eqb_refl. repeat split.
Qed.

(** C5: when the output path already exists, [convert] returns normally and
    writes nothing, so the existing output keeps its bytes; and on any disk,
    a second [convert] with the same arguments leaves the disk as the first
    one left it. *)
Theorem convert_never_clobber (st : state) (fp dat_fp file_format bit_depth : string)
    (d : dat_record) :
  files st !! dat_fp = Some (Dat d) ->
  determine_bit_depth (files st) fp (xdim d, ydim d, zdim d) = Ok bit_depth ->
  is_Some (files st !! output_path fp file_format) ->
  fst (convert determine_bit_depth fp dat_fp file_format st) = Ok tt /\
  files (snd (convert determine_bit_depth fp dat_fp file_format st)) = files st /\
  (forall st0,
     files (snd (convert determine_bit_depth fp dat_fp file_format
                   (snd (convert determine_bit_depth fp dat_fp file_format st0))))
     = files (snd (convert determine_bit_depth fp dat_fp file_format st0))).
Proof.
  intros Hdat Hbd Hex. split; [| split].
  - unfold convert, bind, dat_read. rewrite Hdat, Hbd.
    destruct (String.eqb file_format bit_depth); [reflexivity |].
    unfold path_exists, gets. rewrite bool_decide_true by exact Hex. reflexivity.
  - apply convert_exists_read_only, Hex.
  - intros st0.
    destruct (convert_idle_or_creates fp dat_fp file_format st0) as [E | E].
    + apply (convert_disk_only fp dat_fp file_format _ st0 E).
    + apply convert_exists_read_only, E.
Qed.

End ConvertProofs.

(** *** uint8 to uint16 *)

(** The Python integers at hand are small ones. *)
Ltac small_ints :=
  repeat match goal with
         | |- context [int_fits_64 ?z] => change (int_fits_64 z) with true
         | |- context [int_fits_16 ?z] => change (int_fits_16 z) with true
         end.

(** On every uint8 sample, the double-precision evaluation of [scale]
    followed by the truncating cast gives the rounded exact value. *)
Lemma scale_uint8_uint16_array (buffer : list byte) :
  astype "uint16"
    (scale (NdUInt 8 (map byte_to_Z buffer))
       (PyInt 0) (PyInt 255) (PyInt 0) (PyInt 65535))
  = NdUInt 16 (map round_u8_to_u16 buffer).
Proof.
  cbv [astype scale py_sub py_div py_mul py_add npval_number np_arith np_div
       view_of uint_op float_op float_type is_array broadcast as_floats mk_float
       py_zero_divisor hd astype_uint String.eqb Ascii.eqb Bool.eqb andb orb
       Z.leb Z.ltb Z.compare Z.pow Z.pow_pos Pos.iter Z.mul Pos.mul Pos.compare
       Pos.compare_cont].
  small_ints. cbv iota. cbv [prec_of emax_of].
  rewrite !map_map. f_equal. apply map_ext. intros b.
  destruct b; vm_compute; reflexivity.
Qed.

Lemma string_length_app (a b : string) :
  String.length (a +:+ b) = (String.length a + String.length b)%nat.
Proof.
  induction a as [|c a IH]; [reflexivity |].
  change (S (String.length (a +:+ b)) = S (String.length a + String.length b)).
  rewrite IH. reflexivity.
Qed.

(** Two strings with a common-length suffix each are equal only if the
    suffixes are. *)
Lemma string_app_suffix_eq (a b s t : string) :
  a +:+ s = b +:+ t -> String.length s = String.length t -> s = t.
Proof.
  revert b. induction a as [|c a IH]; intros [|c' b] H L.
  - exact H.
  - change (s = String c' b +:+ t) in H.
    apply (f_equal String.length) in H.
    rewrite (string_length_app (String c' b) t) in H. simpl in H. lia.
  - change (String c a +:+ s = t) in H.
    apply (f_equal String.length) in H.
    rewrite (string_length_app (String c a) s) in H. simpl in H. lia.
  - injection H as _ H. exact (IH b H L).
Qed.

(** The output volume and the output DAT file have different paths. *)
Lemma output_paths_differ (fp dat_fp file_format : string) :
  output_path fp file_format <> output_dat_path dat_fp file_format.
Proof.
  unfold output_path, output_dat_path. intros H.
  apply string_app_suffix_eq in H.
  - injection H as H. apply (string_app_suffix_eq _ _ ".raw" ".dat") in H.
    + discriminate H.
    + reflexivity.
  - cbn. rewrite !string_length_app. reflexivity.
Qed.

Lemma read_chunks_aux_concat {A : Type} (fuel n : nat) (l : list A) :
  (0 < n)%nat -> (length l <= fuel)%nat ->
  concat (read_chunks_aux fuel n l) = l.
Proof.
  intros Hn. revert l. induction fuel as [|fuel IH]; intros l Hl.
  - destruct l; [reflexivity | cbn in Hl; lia].
  - cbn [read_chunks_aux]. destruct (take n l) as [|a buf] eqn:Et.
    + destruct l; [reflexivity |]. destruct n; [lia | cbn in Et; discriminate Et].
    + cbn [concat]. rewrite IH.
      * rewrite <- Et. apply take_drop.
      * rewrite length_drop. destruct l; [rewrite take_nil in Et; discriminate Et |].
        cbn [length] in *. lia.
Qed.

Lemma read_chunks_concat {A : Type} (n : nat) (l : list A) :
  (0 < n)%nat -> concat (read_chunks n l) = l.
Proof. intros Hn. apply read_chunks_aux_concat; [exact Hn | reflexivity]. Qed.

(** One round of the conversion loop from uint8 to uint16. *)
Lemma convert_loop_uint8_uint16_step (op : string) (buffer : list byte)
    (rest : list (list byte)) (st : state) (old : list byte) :
  files st !! op = Some (Raw old) ->
  convert_loop op "uint8" "uint16" (PyInt 0) (PyInt 255) (PyInt 0) (PyInt 65535)
    (buffer :: rest) st
  = convert_loop op "uint8" "uint16" (PyInt 0) (PyInt 255) (PyInt 0) (PyInt 65535)
      rest
      (set_files (fun fs =>
         <[op := Raw (old ++ flat_map le16 (map round_u8_to_u16 buffer))]> fs) st).
Proof.
  intros Hop. cbn [convert_loop]. unfold bind, lift.
  change (frombuffer "uint8" buffer) with (Ok (NdUInt 8 (map byte_to_Z buffer))).
  cbn match. rewrite scale_uint8_uint16_array. cbn [tobytes]. cbn match.
  unfold append_bytes. rewrite Hop. reflexivity.
Qed.

(** The conversion loop from uint8 to uint16 appends the rounded samples of
    every buffer to the output, and touches no other path. *)
Lemma convert_loop_uint8_uint16 (op : string) (buffers : list (list byte)) :
  forall (st : state) (old : list byte),
    files st !! op = Some (Raw old) ->
    fst (convert_loop op "uint8" "uint16"
           (PyInt 0) (PyInt 255) (PyInt 0) (PyInt 65535) buffers st) = Ok tt /\
    files (snd (convert_loop op "uint8" "uint16"
                  (PyInt 0) (PyInt 255) (PyInt 0) (PyInt 65535) buffers st))
      = <[op := Raw (old ++ flat_map (fun v => le16 (round_u8_to_u16 v))
                              (concat buffers))]> (files st).
Proof.
  induction buffers as [|buffer rest IH]; intros st old Hop.
  - cbn. rewrite app_nil_r. split; [reflexivity |].
    symmetry. apply insert_id, Hop.
  - rewrite (convert_loop_uint8_uint16_step op buffer rest st old Hop).
    set (st1 := set_files _ st).
    assert (Hop1 : files st1 !! op
                   = Some (Raw (old ++ flat_map le16 (map round_u8_to_u16 buffer)))).
    { subst st1. cbn. apply lookup_insert_eq. }
    destruct (IH st1 _ Hop1) as [R F]. split; [exact R |].
    rewrite F. subst st1. cbn [files set_files].
    rewrite insert_insert_eq. f_equal. f_equal.
    rewrite <- app_assoc. f_equal.
    cbn [concat]. rewrite flat_map_app. f_equal.
    rewrite !flat_map_concat_map, map_map. reflexivity.
Qed.

Lemma bind_ok {A B : Type} (m : M A) (k : A -> M B) (st st' : state) (a : A) :
  m st = (Ok a, st') -> bind m k st = k a st'.
Proof. intros H. unfold bind. rewrite H. reflexivity. Qed.

Section ConvertUInt8.

Variable determine_bit_depth :
  gmap string fcontent -> string -> nat * nat * nat -> res string.

(** C2: a volume inferred as uint8 and converted to uint16 (its output path
    being free and a slice holding at least one sample) yields an output
    volume whose sample at each position is round(v / 255 * 65535) for the
    input sample v at that position, in little-endian uint16, and a new DAT
    file with format uint16 and the dimensions, thickness and model of the
    source descriptor. *)
Theorem convert_uint8_to_uint16 (st : state) (fp dat_fp : string)
    (d : dat_record) (bs : list byte) :
  files st !! fp = Some (Raw bs) ->
  files st !! dat_fp = Some (Dat d) ->
  determine_bit_depth (files st) fp (xdim d, ydim d, zdim d) = Ok "uint8" ->
  files st !! output_path fp "uint16" = None ->
  (0 < xdim d * ydim d)%nat ->
  fst (convert determine_bit_depth fp dat_fp "uint16" st) = Ok tt /\
  files (snd (convert determine_bit_depth fp dat_fp "uint16" st))
    !! output_path fp "uint16"
    = Some (Raw (flat_map (fun v => le16 (round_u8_to_u16 v)) bs)) /\
  files (snd (convert determine_bit_depth fp dat_fp "uint16" st))
    !! output_dat_path dat_fp "uint16"
    = Some (Dat {| xdim := xdim d; ydim := ydim d; zdim := zdim d;
                   x_thickness := x_thickness d;
                   y_thickness := y_thickness d;
                   z_thickness := z_thickness d;
                   dat_format := "uint16"; model := model d |}).
Proof.
  intros Hfp Hdat Hbd Hfree Hxy.
  set (op := output_path fp "uint16") in *.
  set (dat_op := output_dat_path dat_fp "uint16").
  set (st1 := set_files (fun fs => <[op := Raw []]> fs) st).
  assert (Hop1 : files st1 !! op = Some (Raw [])) by apply lookup_insert_eq.
  destruct (convert_loop_uint8_uint16 op
              (read_chunks (xdim d * ydim d * 1) bs) st1 [] Hop1) as [R F].
  rewrite read_chunks_concat in F by lia. cbn [app] in F.
  destruct (convert determine_bit_depth fp dat_fp "uint16" st) as [r st'] eqn:Hrun.
  unfold convert in Hrun.
  rewrite (bind_ok _ _ st st d) in Hrun
    by (unfold dat_read; rewrite Hdat; reflexivity).
  cbn zeta in Hrun.
  rewrite (bind_ok _ _ st st "uint8") in Hrun by (rewrite Hbd; reflexivity).
  change (String.eqb "uint16" "uint8") with false in Hrun. cbn match in Hrun.
  rewrite (bind_ok (path_exists _) _ st st false) in Hrun.
  2:{ unfold path_exists, gets. rewrite bool_decide_false; [reflexivity |].
      fold op. rewrite Hfree. intros [? ?]. discriminate. }
  change (np_itemsize "uint8") with (Some 1%nat) in Hrun.
  change (is_uint_name "uint8") with true in Hrun.
  change (is_uint_name "uint16") with true in Hrun.
  cbn match in Hrun.
  rewrite (bind_ok (ret 1%nat) _ st st 1%nat) in Hrun by reflexivity.
  rewrite (bind_ok (ret (np_iinfo "uint8")) _ st st (PyInt 0, PyInt 255)) in Hrun
    by reflexivity.
  rewrite (bind_ok (ret (np_iinfo "uint16")) _ st st (PyInt 0, PyInt 65535)) in Hrun
    by reflexivity.
  rewrite (bind_ok (open_rb fp) _ st st bs) in Hrun
    by (unfold open_rb; rewrite Hfp; reflexivity).
  cbn [fst snd] in Hrun. fold op dat_op in Hrun.
  unfold bind, open_wb, modify in Hrun. fold st1 in Hrun.
  destruct (convert_loop op "uint8" "uint16" _ _ _ _ _ st1) as [r2 st2].
  cbn [fst snd] in R, F. subst r2.
  unfold dat_write, modify in Hrun. injection Hrun as <- <-.
  cbn [fst snd files set_files].
  split; [reflexivity |]. split.
  - rewrite lookup_insert_ne by (symmetry; apply output_paths_differ).
    rewrite F. apply lookup_insert_eq.
  - apply lookup_insert_eq.
Qed.

End ConvertUInt8.

Lemma convert_uint8_to_uint16_witness :
  fst (convert determine_bit_depth_by_size "/data/v.raw" "/data/v.dat" "uint16"
         sample_disk) = Ok tt /\
  files (snd (convert determine_bit_depth_by_size "/data/v.raw" "/data/v.dat"
                "uint16" sample_disk))
    !! output_path "/data/v.raw" "uint16"
    = Some (Raw (flat_map (fun v => le16 (round_u8_to_u16 v)) sample_volume)) /\
  files (snd (convert determine_bit_depth_by_size "/data/v.raw" "/data/v.dat"
                "uint16" sample_disk))
    !! output_dat_path "/data/v.dat" "uint16"
    = Some (Dat {| xdim := xdim sample_dat; ydim := ydim sample_dat;
                   zdim := zdim sample_dat;
                   x_thickness := x_thickness sample_dat;
                   y_thickness := y_thickness sample_dat;
                   z_thickness := z_thickness sample_dat;
                   dat_format := "uint16"; model := model sample_dat |}).
Proof.
  apply (convert_uint8_to_uint16 determine_bit_depth_by_size sample_disk
           "/data/v.raw" "/data/v.dat" sample_dat sample_volume).
  - reflexivity.
  - reflexivity.
  - reflexivity.
  - reflexivity.
  - cbn. lia.
Defined.

Example sample_volume_converted :
  files (snd (convert determine_bit_depth_by_size "/data/v.raw" "/data/v.dat"
                "uint16" sample_disk)) !! "/data/v-uint16.raw"
  = Some (Raw [x00; x00; x01; x01; x02; x02; x03; x03;
               xff; xff; xfe; xfe; x80; x80; x7f; x7f]).
Proof. vm_compute. reflexivity. Qed.

Lemma convert_same_format_noop_witness :
  fst (convert determine_bit_depth_by_size "/data/v.raw" "/data/v.dat" "uint8"
         sample_disk) = Ok tt /\
  files (snd (convert determine_bit_depth_by_size "/data/v.raw" "/data/v.dat"
                "uint8" sample_disk)) = files sample_disk /\
  log (snd (convert determine_bit_depth_by_size "/data/v.raw" "/data/v.dat"
              "uint8" sample_disk)) =
    log sample_disk ++
    [Log INFO ("Skipping '" +:+ "/data/v.raw" +:+
               "'. It is already desired file format: " +:+ "uint8" +:+ ".") []].
Proof.
  apply (convert_same_format_noop determine_bit_depth_by_size sample_disk
           "/data/v.raw" "/data/v.dat" "uint8" sample_dat).
  - reflexivity.
  - reflexivity.
Defined.

Lemma convert_never_clobber_witness :
  fst (convert determine_bit_depth_by_size "/data/v.raw" "/data/v.dat" "uint16"
         sample_disk_converted) = Ok tt /\
  files (snd (convert determine_bit_depth_by_size "/data/v.raw" "/data/v.dat"
                "uint16" sample_disk_converted)) = files sample_disk_converted /\
  (forall st0,
     files (snd (convert determine_bit_depth_by_size "/data/v.raw" "/data/v.dat"
                   "uint16"
                   (snd (convert determine_bit_depth_by_size "/data/v.raw"
                           "/data/v.dat" "uint16" st0))))
     = files (snd (convert determine_bit_depth_by_size "/data/v.raw"
                     "/data/v.dat" "uint16" st0))).
Proof.
  apply (convert_never_clobber determine_bit_depth_by_size sample_disk_converted
           "/data/v.raw" "/data/v.dat" "uint16" "uint8" sample_dat).
  - reflexivity.
  - reflexivity.
  - exists (Raw [x2a; x00]). reflexivity.
Defined.

(** ** The slice assembler *)

Lemma bind_world_only {A B : Type} (m : M A) (k : A -> M B) :
  world_only m -> (forall a, world_only (k a)) -> world_only (bind m k).
Proof.
  intros Hm Hk st st' E. unfold bind. destruct (Hm st st' E) as [E1 E2].
  destruct (m st) as [[a|e] st1], (m st') as [[a'|e'] st1']; cbn in *;
    try discriminate.
  - injection E1 as <-. apply (Hk a st1 st1' E2).
  - injection E1 as <-. split; [reflexivity | exact E2].
Qed.

Lemma ret_world_only {A : Type} (a : A) : world_only (ret a).
Proof. intros st st' E. split; [reflexivity | exact E]. Qed.

Lemma lift_world_only {A : Type} (r : res A) : world_only (lift r).
Proof. intros st st' E. split; [reflexivity | exact E]. Qed.

Lemma open_rb_world_only (p : string) : world_only (open_rb p).
Proof.
  intros st st' E. unfold open_rb. destruct E as [E ?]. rewrite E.
  destruct (files st' !! p) as [[]|]; split; trivial; split; trivial.
Qed.

Lemma gets_world_only {A : Type} (f : state -> A) :
  (forall st st', same_world st st' -> f st = f st') -> world_only (gets f).
Proof. intros H st st' E. unfold gets. cbn. split; [f_equal; auto | exact E]. Qed.

Lemma append_bytes_world_only (p : string) (bs : list byte) :
  world_only (append_bytes p bs).
Proof.
  intros st st' E. unfold append_bytes. destruct E as (E & E1 & E2 & E3 & E4).
  rewrite E.
  destruct (files st' !! p) as [[]|]; cbn;
    (split; [reflexivity | unfold same_world; cbn; rewrite ?E; repeat split; assumption]).
Qed.

Lemma process_loop_world_only (args : args_t) (fs : list string) :
  world_only (process_loop args fs).
Proof.
  induction fs as [|f rest IH]; cbn [process_loop].
  - apply ret_world_only.
  - apply bind_world_only; [apply open_rb_world_only |]. intros bytes.
    apply bind_world_only; [apply gets_world_only; intros ? ? E; apply E |]. intros lo.
    apply bind_world_only; [apply gets_world_only; intros ? ? E; apply E |]. intros hi.
    apply bind_world_only; [apply gets_world_only; intros ? ? E; apply E |]. intros tlo.
    apply bind_world_only; [apply gets_world_only; intros ? ? E; apply E |]. intros thi.
    apply bind_world_only; [apply lift_world_only |]. intros out.
    apply bind_world_only; [apply append_bytes_world_only |]. intros _. exact IH.
Qed.

(** [process], called on its own: when its output exists as a file, without
    the force flag it exits at once, having read no slice and written
    nothing; with the force flag the file is removed before the first slice
    is read, so that the run ends as a run on the disk without that file
    does. *)
Lemma process_overwrite_policy (args : args_t) (md : metadata) (st : state) :
  is_Some (files st !! output args) ->
  if force args then
    fst (process args md st)
    = fst (process args md (set_files (fun fs => delete (output args) fs) st)) /\
    files (snd (process args md st))
    = files (snd (process args md
                    (set_files (fun fs => delete (output args) fs) st)))
  else
    process args md st
    = (Raise (SystemExit 0),
       add_log (Log INFO ("File already exists: '" +:+ output args +:+
                          ".' Aborting...") []) st).
Proof.
  intros Hex. destruct (force args) eqn:Hforce.
  - set (st_del := set_files (fun fs => delete (output args) fs) st).
    assert (H1 : process args md st
                 = process_loop args (datafiles md)
                     (set_files (fun fs => delete (output args) fs)
                        (add_log (Log INFO ("File already exists. Deleting '" +:+
                                            output args +:+ "'.") []) st))).
    { unfold process, bind, log_and_reraise, path_exists, gets.
      rewrite bool_decide_true by exact Hex. rewrite Hforce. cbn.
      unfold os_remove. cbn. destruct Hex as [x Hx]. rewrite Hx.
      destruct (process_loop _ _ _) as [[]]; reflexivity. }
    assert (H2 : process args md st_del = process_loop args (datafiles md) st_del).
    { unfold process, bind, log_and_reraise, path_exists, gets.
      rewrite bool_decide_false.
      - cbn. destruct (process_loop _ _ _) as [[]]; reflexivity.
      - subst st_del. cbn. rewrite lookup_delete_eq. intros [? ?]. discriminate. }
    rewrite H1, H2.
    destruct (process_loop_world_only args (datafiles md)
                (set_files (fun fs => delete (output args) fs)
                   (add_log (Log INFO ("File already exists. Deleting '" +:+
                                       output args +:+ "'.") []) st))
                st_del) as [E1 E2].
    + subst st_del. repeat split.
    + split; [exact E1 | apply E2].
  - unfold process, bind, log_and_reraise, path_exists, gets.
    rewrite bool_decide_true by exact Hex. rewrite Hforce. reflexivity.
Qed.

Example read_nsihdr_sample :
  fst (read_nsihdr sample_bitdepth "/scan/p.nsihdr" (on_disk sample_project))
  = Ok sample_metadata.
Proof. vm_compute. reflexivity. Qed.

(** *** [main] *)

Lemma modify_bounds_read_only (lo hi : npval) : read_only (modify (set_initial lo hi)).
Proof. intros st. reflexivity. Qed.

Lemma read_lines_read_only (document : list hdr_line) (l : hdr_locals) :
  read_only (read_lines l document).
Proof.
  revert l. induction document as [|line rest IH]; intros l; cbn [read_lines].
  - apply ret_read_only.
  - apply bind_read_only; [apply lift_read_only |]. intros [l' [[lower upper]|]].
    + apply bind_read_only; [apply modify_bounds_read_only | intros; apply IH].
    + apply bind_read_only; [apply ret_read_only | intros; apply IH].
Qed.

Lemma open_hdr_read_only (fp : string) : read_only (open_hdr fp).
Proof. intros st. unfold open_hdr. destruct (files st !! fp) as [[]|]; reflexivity. Qed.

Lemma local_read_only {A : Type} (name : string) (v : option A) :
  read_only (local name v).
Proof. intros st. destruct v; reflexivity. Qed.

Lemma eval_read_only (v : npval) : read_only (eval v).
Proof. intros st. destruct v; reflexivity. Qed.

Section MainProofs.

Variable dat_bitdepth : npval -> res string.
Variable dat_write_dtype : string.
Variable dat_write_model : string.

Lemma read_nsihdr_read_only (fp : string) : read_only (read_nsihdr dat_bitdepth fp).
Proof.
  unfold read_nsihdr.
  apply bind_read_only; [apply open_hdr_read_only |]. intros document.
  apply bind_read_only; [apply read_lines_read_only |]. intros l.
  apply bind_read_only; [apply local_read_only |]. intros p.
  apply bind_read_only; [apply eval_read_only |]. intros r.
  apply bind_read_only; [apply eval_read_only |]. intros rr.
  apply bind_read_only; [apply eval_read_only |]. intros z.
  apply bind_read_only; [apply lift_read_only |]. intros t.
  apply bind_read_only; [apply local_read_only |]. intros o.
  apply bind_read_only; [apply local_read_only |]. intros dims.
  apply ret_read_only.
Qed.

(** A round of the loop of [main] in which the local INITIAL_LOWER_BOUND is
    not bound yet ends on an exception, and writes nothing. *)
Lemma main_round_unbound (args : args_t) (locals : main_locals) (f : string)
    (st : state) :
  m_INITIAL_LOWER_BOUND locals = None ->
  exists e st',
    main_round dat_bitdepth dat_write_dtype dat_write_model args locals f st
    = (Raise e, st') /\
    files st' = files st.
Proof.
  intros Hunbound. unfold main_round.
  unfold bind at 1.
  pose proof (read_nsihdr_read_only f st) as Hst1.
  destruct (read_nsihdr dat_bitdepth f st) as [[md|e] st1]; cbn [snd] in Hst1;
    [| eauto].
  unfold bind at 1.
  pose proof (eval_read_only (pow2_minus_1 (bit_depth md)) st1) as Hst2.
  cbn [bit_depth] in *.
  destruct (eval (pow2_minus_1 (bit_depth md)) st1) as [[target_upper|e] st2];
    cbn [snd] in Hst2; [| exists e, st2; split; [reflexivity | congruence]].
  unfold bind at 1. unfold log_and_reraise.
  cbn [m_INITIAL_LOWER_BOUND m_INITIAL_UPPER_BOUND force cwd filename output].
  rewrite Hunbound.
  unfold bind, path_exists, gets, logging, modify, raise, ret, local.
  destruct (bool_decide _); [destruct (force args) |]; cbn;
    eexists; eexists; (split; [reflexivity | cbn; congruence]).
Qed.

(** X22: [main] never assembles a volume: on a non-empty list of headers its
    first round ends on an exception ([SystemExit] when the output exists
    and the force flag is not set, else the exception of the header
    reader or [UnboundLocalError]), before [process] is reached, and
    nothing is written. *)
Lemma main_never_assembles (args : args_t) (f : string) (rest : list string)
    (st : state) :
  a_files args = f :: rest ->
  (exists e, fst (main dat_bitdepth dat_write_dtype dat_write_model args st)
             = Raise e) /\
  files (snd (main dat_bitdepth dat_write_dtype dat_write_model args st))
  = files st.
Proof.
  intros Hfiles. unfold main. rewrite Hfiles. cbn [main_loop]. unfold bind.
  destruct (main_round_unbound args
              {| m_INITIAL_LOWER_BOUND := None; m_INITIAL_UPPER_BOUND := None;
                 m_TARGET_LOWER_BOUND := None; m_TARGET_UPPER_BOUND := None |}
              f st eq_refl) as (e & st' & -> & Hst').
  split; [exists e; reflexivity | exact Hst'].
Qed.

End MainProofs.

(** C6: on the sample project (a header that declares the data range
    [-1000.0, 3000.0] and a bit depth of 16, two slice files, no output
    yet), [main] raises the UnboundLocalError of its local
    INITIAL_LOWER_BOUND before it calls [process]: no sample is rescaled and
    the disk is left as it was, without an output volume. The target bounds
    of the module are still [None], so that [process], called with the
    arguments and the metadata [main] had built, raises a TypeError on the
    first slice file and writes nothing either. *)
Theorem main_sample_assembles_nothing :
  fst (main sample_bitdepth "uint16" "DENSITY" (sample_args false)
         (on_disk sample_project))
    = Raise (UnboundLocalError "INITIAL_LOWER_BOUND") /\
  files (snd (main sample_bitdepth "uint16" "DENSITY" (sample_args false)
                (on_disk sample_project)))
    = files (on_disk sample_project) /\
  files (on_disk sample_project) !! "/scan/p.raw" = None /\
  TARGET_LOWER_BOUND
    (snd (main sample_bitdepth "uint16" "DENSITY" (sample_args false)
            (on_disk sample_project))) = PyNone /\
  TARGET_UPPER_BOUND
    (snd (main sample_bitdepth "uint16" "DENSITY" (sample_args false)
            (on_disk sample_project))) = PyNone /\
  fst (process (process_args false) sample_metadata
         (snd (main sample_bitdepth "uint16" "DENSITY" (sample_args false)
                 (on_disk sample_project))))
    = Raise (TypeError "unsupported operand type(s)") /\
  files (snd (process (process_args false) sample_metadata
                (snd (main sample_bitdepth "uint16" "DENSITY" (sample_args false)
                        (on_disk sample_project)))))
    = files (on_disk sample_project).
Proof. vm_compute. repeat split. Qed.

(** C7: on the sample project with an output volume already there, holding
    one byte. Without the force flag [main] exits with [SystemExit(0)] and
    the byte is untouched. With the force flag [main] warns that the file
    will be overwritten, then raises the UnboundLocalError of its local
    INITIAL_LOWER_BOUND before it calls [process], where the file would be
    removed: the old byte is still there. *)
Theorem main_forced_keeps_old_output :
  fst (main sample_bitdepth "uint16" "DENSITY" (sample_args false)
         (on_disk (("/scan/p.raw", Raw [x01]) :: sample_project)))
    = Raise (SystemExit 0) /\
  files (snd (main sample_bitdepth "uint16" "DENSITY" (sample_args false)
                (on_disk (("/scan/p.raw", Raw [x01]) :: sample_project))))
    !! "/scan/p.raw" = Some (Raw [x01]) /\
  fst (main sample_bitdepth "uint16" "DENSITY" (sample_args true)
         (on_disk (("/scan/p.raw", Raw [x01]) :: sample_project)))
    = Raise (UnboundLocalError "INITIAL_LOWER_BOUND") /\
  log (snd (main sample_bitdepth "uint16" "DENSITY" (sample_args true)
              (on_disk (("/scan/p.raw", Raw [x01]) :: sample_project))))
    = [Log WARNING ("FileExistsWarning - " +:+ "/scan/p.raw" +:+
                    ". File will be overwritten.") [];
       LogExn (UnboundLocalError "INITIAL_LOWER_BOUND")] /\
  files (snd (main sample_bitdepth "uint16" "DENSITY" (sample_args true)
                (on_disk (("/scan/p.raw", Raw [x01]) :: sample_project))))
    !! "/scan/p.raw" = Some (Raw [x01]).
Proof. vm_compute. repeat split. Qed.

Section ScaleAlgebra.
Local Open Scope Q_scope.

Lemma range_width_nonzero (a b : Q) : ~ a == b -> ~ b - a == 0.
Proof.
  intros H E. apply H. symmetry. apply (Qplus_inj_r _ _ (- a)).
  rewrite Qplus_opp_r. exact E.
Qed.

End ScaleAlgebra.

(** X1: over exact arithmetic, rescaling from [a, b] to [c, d] and then from
    [c, d] to [e, f] is rescaling from [a, b] to [e, f], for a <> b and
    c <> d; in particular, rescaling back to [a, b] gives the value one
    started from. *)
Theorem scale_compose_exact (x a b c d e f : Q) :
  (~ a == b)%Q -> (~ c == d)%Q ->
  (scale (scale x a b c d) c d e f == scale x a b e f)%Q /\
  (scale (scale x a b c d) c d a b == x)%Q.
Proof.
  intros Hab Hcd. rewrite !scale_Q_unfold.
  pose proof (range_width_nonzero a b Hab) as Hw.
  pose proof (range_width_nonzero c d Hcd) as Hv.
  split; field; split; assumption.
Qed.

Lemma scale_compose_exact_witness :
  (scale (scale 51 0 255 0 65535) 0 65535 (-1) 1 == scale 51 0 255 (-1) 1)%Q /\
  (scale (scale 51 0 255 0 65535) 0 65535 0 255 == 51)%Q.
Proof.
  apply (scale_compose_exact 51 0 255 0 65535 (-1) 1); discriminate.
Defined.

(** X2: over exact arithmetic, with a < b and c <= d, a value within the
    input range [a, b] is sent within the output range [c, d]. *)
Theorem scale_within_range_exact (a b c d x : Q) :
  (a < b)%Q -> (c <= d)%Q -> (a <= x)%Q -> (x <= b)%Q ->
  (c <= scale x a b c d)%Q /\ (scale x a b c d <= d)%Q.
Proof.
  intros Hab Hcd Hax Hxb.
  pose proof (range_width_inv_pos a b Hab) as Hk.
  assert (Hne : ~ (b - a == 0)%Q).
  { intros E. apply range_width_pos in Hab. rewrite E in Hab.
    exact (Qlt_irrefl _ Hab). }
  assert (Hslope : (0 <= / (b - a) * (d - c))%Q).
  { apply Qmult_le_0_compat; [apply Qlt_le_weak, Hk |].
    apply (Qplus_le_l _ _ c). ring_simplify. exact Hcd. }
  assert (Hlo : (scale a a b c d == c)%Q) by (rewrite scale_Q_unfold; field; exact Hne).
  assert (Hhi : (scale b a b c d == d)%Q) by (rewrite scale_Q_unfold; field; exact Hne).
  split.
  - rewrite <- Hlo at 1. apply Qle_minus_iff.
    change (0 <= scale x a b c d - scale a a b c d)%Q.
    rewrite scale_Q_diff. apply Qmult_le_0_compat; [| exact Hslope].
    apply (Qplus_le_l _ _ a). ring_simplify. exact Hax.
  - rewrite <- Hhi at 2. apply Qle_minus_iff.
    change (0 <= scale b a b c d - scale x a b c d)%Q.
    rewrite scale_Q_diff. apply Qmult_le_0_compat; [| exact Hslope].
    apply (Qplus_le_l _ _ x). ring_simplify. exact Hxb.
Qed.

Lemma scale_within_range_exact_witness :
  (0 <= scale 100 0 255 0 65535)%Q /\ (scale 100 0 255 0 65535 <= 65535)%Q.
Proof.
  apply (scale_within_range_exact 0 255 0 65535 100);
    [reflexivity | discriminate | discriminate | discriminate].
Defined.

(** ** Buffers that are not a whole number of samples *)

Lemma mod_sub_multiple (k n len : nat) :
  (n <= len)%nat -> (n mod k = 0)%nat ->
  ((len - n) mod k = 0 <-> len mod k = 0)%nat.
Proof.
  intros Hle Hn. rewrite !Nat.Lcm0.mod_divide in *.
  split; intros H.
  - replace len with ((len - n) + n)%nat by lia. apply Nat.divide_add_r; assumption.
  - apply Nat.divide_sub_r; assumption.
Qed.

Lemma read_chunks_aux_nonempty {A : Type} (fuel n : nat) (l : list A) :
  Forall (fun c => c <> []) (read_chunks_aux fuel n l).
Proof.
  revert l. induction fuel as [|fuel IH]; intros l; cbn [read_chunks_aux].
  - constructor.
  - destruct (take n l) as [|a buffer] eqn:E; constructor; [discriminate | apply IH].
Qed.

Lemma read_chunks_aux_whole {A : Type} (k n fuel : nat) (l : list A) :
  (0 < n)%nat -> (length l <= fuel)%nat ->
  Forall (fun c => (length c mod k = 0)%nat) (read_chunks_aux fuel n l)
  <-> whole_buffers k n (length l) = true.
Proof.
  intros Hn. revert l. induction fuel as [|fuel IH]; intros l Hl.
  - destruct l; [| cbn in Hl; lia]. cbn [read_chunks_aux length].
    unfold whole_buffers. rewrite Nat.Div0.mod_0_l. cbn. rewrite orb_true_r.
    split; [reflexivity | constructor].
  - cbn [read_chunks_aux]. destruct l as [|a l'].
    { rewrite take_nil. cbn [length]. unfold whole_buffers.
      rewrite Nat.Div0.mod_0_l. cbn. rewrite orb_true_r.
      split; [reflexivity | constructor]. }
    destruct (take n (a :: l')) as [|a' buffer] eqn:Et.
    { destruct n; [lia | discriminate Et]. }
    rewrite Forall_cons, <- Et, length_take, IH, length_drop
      by (rewrite length_drop; cbn [length] in *; lia).
    set (len := length (a :: l')). unfold whole_buffers.
    rewrite !andb_true_iff, !orb_true_iff, !Nat.eqb_eq, !Nat.leb_le.
    destruct (le_lt_dec len n) as [Hle | Hlt].
    + replace (n `min` len)%nat with len by lia.
      replace (len - n)%nat with 0%nat by lia.
      rewrite Nat.Div0.mod_0_l. intuition lia.
    + replace (n `min` len)%nat with n by lia.
      split.
      * intros (Hn0 & Hd & _). split; [| left; exact Hn0].
        apply (mod_sub_multiple k n len); [lia | exact Hn0 | exact Hd].
      * intros (Hl0 & [Hn0 | Hle]); [| lia].
        split; [exact Hn0 |]. split; [| left; exact Hn0].
        apply (mod_sub_multiple k n len); [lia | exact Hn0 | exact Hl0].
Qed.

Lemma mod_step (k n : nat) : ((k + n) mod k = n mod k)%nat.
Proof.
  replace (k + n)%nat with (n + 1 * k)%nat by lia. apply Nat.Div0.mod_add.
Qed.

Lemma frombuffer_f32_whole (bs : list byte) :
  (length bs mod 4 = 0)%nat -> frombuffer_f32 bs = Ok (fromfile_f32 bs).
Proof.
  induction bs as [bs IH] using (induction_ltof1 _ (@length byte)).
  unfold ltof in IH. intros H.
  destruct bs as [|b0 [|b1 [|b2 [|b3 rest]]]]; try (cbn in H; discriminate H).
  - reflexivity.
  - cbn [frombuffer_f32 fromfile_f32]. rewrite (IH rest).
    + reflexivity.
    + cbn. lia.
    + change (length (b0 :: b1 :: b2 :: b3 :: rest)) with (4 + length rest)%nat in H.
      rewrite mod_step in H. exact H.
Qed.

Lemma frombuffer_f32_partial (bs : list byte) :
  (length bs mod 4 <> 0)%nat -> frombuffer_f32 bs = Raise buffer_size_error.
Proof.
  induction bs as [bs IH] using (induction_ltof1 _ (@length byte)).
  unfold ltof in IH. intros H.
  destruct bs as [|b0 [|b1 [|b2 [|b3 rest]]]]; try reflexivity.
  - cbn in H. congruence.
  - cbn [frombuffer_f32]. rewrite (IH rest).
    + reflexivity.
    + cbn. lia.
    + change (length (b0 :: b1 :: b2 :: b3 :: rest)) with (4 + length rest)%nat in H.
      rewrite mod_step in H. exact H.
Qed.

Lemma fromfile_f32_nonempty (bs : list byte) :
  bs <> [] -> (length bs mod 4 = 0)%nat -> fromfile_f32 bs <> [].
Proof.
  intros Hne H.
  destruct bs as [|b0 [|b1 [|b2 [|b3 rest]]]]; try (cbn in H; discriminate H).
  - congruence.
  - discriminate.
Qed.

(** The loop of the scanner ends normally on buffers that each hold a whole,
    positive number of samples, and on the exception of [np.frombuffer] as
    soon as one does not. *)
Lemma scan_chunks_whole (buffers : list (list byte)) :
  Forall (fun c => c <> []) buffers ->
  Forall (fun c => (length c mod 4 = 0)%nat) buffers ->
  forall m M, exists r, scan_chunks buffers m M = Ok r.
Proof.
  induction buffers as [|c rest IH]; intros Hne Hw m M.
  - eexists. reflexivity.
  - inversion Hne as [|? ? Hc Hne']; inversion Hw as [|? ? Hc4 Hw']; subst.
    cbn [scan_chunks]. rewrite (frombuffer_f32_whole c Hc4).
    pose proof (fromfile_f32_nonempty c Hc Hc4) as Hx.
    destruct (fromfile_f32 c) as [|x xs]; [congruence |].
    cbn [np_min np_max]. apply IH; assumption.
Qed.

Lemma scan_chunks_partial (buffers : list (list byte)) :
  Forall (fun c => c <> []) buffers ->
  ~ Forall (fun c => (length c mod 4 = 0)%nat) buffers ->
  forall m M, scan_chunks buffers m M = Raise buffer_size_error.
Proof.
  induction buffers as [|c rest IH]; intros Hne Hw m M.
  - destruct Hw. constructor.
  - inversion Hne as [|? ? Hc Hne']; subst. cbn [scan_chunks].
    destruct (Nat.eq_dec (length c mod 4)%nat 0%nat) as [Hc4 | Hc4].
    + rewrite (frombuffer_f32_whole c Hc4).
      pose proof (fromfile_f32_nonempty c Hc Hc4) as Hx.
      destruct (fromfile_f32 c) as [|x xs]; [congruence |].
      cbn [np_min np_max]. apply IH; [assumption |].
      intros Hrest. apply Hw. constructor; assumption.
    + rewrite (frombuffer_f32_partial c Hc4). reflexivity.
Qed.

(** The outcome of a scan with a positive buffer size. *)
Lemma scanner_outcome (st : state) (fp : string) (bs : list byte) (n : nat) :
  files st !! fp = Some (Raw bs) -> (0 < n)%nat ->
  if whole_buffers 4 n (length bs)
  then exists r, fst (find_float_range fp (Some n) st) = Ok r
  else find_float_range fp (Some n) st = (Raise buffer_size_error, st).
Proof.
  intros Hf Hn. rewrite (find_float_range_run st fp bs n Hf). unfold read_chunks.
  pose proof (read_chunks_aux_nonempty (length bs) n bs) as Hne.
  pose proof (read_chunks_aux_whole 4 n (length bs) bs Hn (le_n _)) as Hw.
  destruct (whole_buffers 4 n (length bs)).
  - destruct (scan_chunks_whole _ Hne (proj2 Hw eq_refl) FLT_MAX FLT_MIN) as [r ->].
    exists r. reflexivity.
  - rewrite scan_chunks_partial; [reflexivity | exact Hne |].
    intros H. apply Hw in H. discriminate H.
Qed.

(** X3: with a positive buffer size n, the scanner returns a pair exactly
    when every buffer it reads holds a whole number of float32 samples, that
    is when the size of the file is a multiple of 4 and n is a multiple of 4
    or at least the size of the file; otherwise it raises the ValueError of
    [np.frombuffer] and leaves the state, the log included, as it was. *)
Theorem find_float_range_partial_buffer (st : state) (fp : string)
    (bs : list byte) (n : nat) :
  files st !! fp = Some (Raw bs) -> (0 < n)%nat ->
  (whole_buffers 4 n (length bs) = true ->
   exists r, fst (find_float_range fp (Some n) st) = Ok r) /\
  (whole_buffers 4 n (length bs) = false ->
   find_float_range fp (Some n) st = (Raise buffer_size_error, st)).
Proof.
  intros Hf Hn. pose proof (scanner_outcome st fp bs n Hf Hn) as H.
  destruct (whole_buffers 4 n (length bs)); split; intros E;
    try discriminate E; exact H.
Qed.

Lemma find_float_range_partial_buffer_witness :
  (exists r, fst (find_float_range "v.raw" (Some 8%nat)
                    (on_disk [("v.raw", Raw three_samples)])) = Ok r) /\
  find_float_range "v.raw" (Some 6%nat) (on_disk [("v.raw", Raw three_samples)])
  = (Raise buffer_size_error, on_disk [("v.raw", Raw three_samples)]).
Proof.
  destruct (find_float_range_partial_buffer
              (on_disk [("v.raw", Raw three_samples)]) "v.raw" three_samples 8)
    as [H8 _]; [reflexivity | lia |].
  destruct (find_float_range_partial_buffer
              (on_disk [("v.raw", Raw three_samples)]) "v.raw" three_samples 6)
    as [_ H6]; [reflexivity | lia |].
  split; [apply H8; reflexivity | apply H6; reflexivity].
Defined.

(** X4: without a buffer size, on a file of at least 100 bytes, the scanner
    raises the ValueError of [np.frombuffer] as soon as the size of the
    file, or its hundredth rounded down (the default buffer size), is not a
    multiple of 4. *)
Theorem find_float_range_default_partial (st : state) (fp : string) (bs : list byte) :
  files st !! fp = Some (Raw bs) ->
  (100 <= length bs)%nat ->
  ((length bs / 100) mod 4 <> 0 \/ length bs mod 4 <> 0)%nat ->
  find_float_range fp None st = (Raise buffer_size_error, st).
Proof.
  intros Hf Hlen Hodd. rewrite (scanner_default_size st fp bs Hf).
  unfold default_buffer_size.
  assert (Hn : (0 < length bs / 100)%nat).
  { apply Nat.div_str_pos. lia. }
  pose proof (scanner_outcome st fp bs _ Hf Hn) as H.
  assert (Hw : whole_buffers 4 (length bs / 100) (length bs) = false).
  { unfold whole_buffers. apply not_true_iff_false.
    rewrite !andb_true_iff, !orb_true_iff, !Nat.eqb_eq, !Nat.leb_le.
    pose proof (Nat.div_mod_eq (length bs) 100).
    pose proof (Nat.mod_upper_bound (length bs) 100).
    intros (H4 & [Hn4 | Hle]); lia. }
  rewrite Hw in H. exact H.
Qed.

(** ** Rescaling unsigned samples *)

Lemma int_fits_64_spec (z : Z) : - 2 ^ 63 <= z < 2 ^ 64 -> int_fits_64 z = true.
Proof.
  intros H. unfold int_fits_64. apply andb_true_iff.
  split; [apply Z.leb_le | apply Z.ltb_lt]; lia.
Qed.

Lemma scale_uint_array (w imax omax : Z) (zs : list Z) :
  0 <= w -> - 2 ^ 63 <= omax < 2 ^ 64 ->
  scale (NdUInt w zs) (PyInt 0) (PyInt imax) (PyInt 0) (PyInt omax)
  = NdFloat64 (map (rescale_uint w imax omax) zs).
Proof.
  intros Hw Homax.
  cbv [scale py_sub py_div py_mul py_add npval_number np_arith np_div
       view_of uint_op float_op float_type is_array broadcast as_floats mk_float
       py_zero_divisor hd].
  assert (H : (0 <=? 0) && (0 <? 2 ^ w) = true).
  { apply andb_true_iff. split; [reflexivity | apply Z.ltb_lt; lia]. }
  rewrite H.
  cbv [view_of float_op float_type is_array broadcast as_floats mk_float
       py_zero_divisor hd].
  rewrite (int_fits_64_spec (omax - 0)) by lia.
  destruct (int_fits_16 (omax - 0));
    (cbv [view_of float_op float_type is_array broadcast as_floats mk_float
          py_zero_divisor hd prec_of emax_of]; small_ints; cbv iota;
     cbn [map]; rewrite !map_map; reflexivity).
Qed.

Lemma scale_uint_float32_array (w imax : Z) (zs : list Z) :
  0 <= w ->
  astype "float32"
    (scale (NdUInt w zs) (PyInt 0) (PyInt imax) (NpFloat32 FLT_MIN) (NpFloat32 FLT_MAX))
  = NdFloat32 (map (rescale_uint_float32 w imax) zs).
Proof.
  intros Hw.
  cbv [astype scale py_sub py_div py_mul py_add npval_number np_arith np_div
       view_of uint_op float_op float_type is_array broadcast as_floats mk_float
       py_zero_divisor hd String.eqb Ascii.eqb Bool.eqb astype_float32].
  assert (H : (0 <=? 0) && (0 <? 2 ^ w) = true).
  { apply andb_true_iff. split; [reflexivity | apply Z.ltb_lt; lia]. }
  rewrite H.
  cbv [view_of float_op float_type is_array broadcast as_floats mk_float
       py_zero_divisor hd prec_of emax_of fmt_eqb fmt_max andb against_array].
  cbn [map]. rewrite !map_map. reflexivity.
Qed.

Lemma Z_upto_spec (n : nat) (z0 z : Z) :
  z0 <= z < z0 + Z.of_nat n -> In z (Z_upto n z0).
Proof.
  revert z0. induction n as [|n IH]; intros z0 H; [lia |].
  cbn [Z_upto]. destruct (Z.eq_dec z0 z) as [-> | Hne]; [left; reflexivity |].
  right. apply IH. lia.
Qed.

Lemma Z_range_spec (n z : Z) : 0 <= z < n -> In z (Z_range n).
Proof. intros H. apply Z_upto_spec. lia. Qed.

(** Every uint16 sample, rescaled from [0, 65535] to [0, 255] in binary64 and
    cast, gives its quotient by 257; rescaled to the range of float32,
    it gives a NaN for the sample 0 and the positive infinity otherwise. *)
Lemma uint16_table :
  (let den := sf_of_Z Double (65535 - 0) in
   let k := sf_of_Z Double (255 - 0) in
   let z0 := sf_of_Z Double 0 in
   let width :=
     sf_cast Double (SFsub 24 128 (sf_cast Single FLT_MAX) (sf_cast Single FLT_MIN)) in
   let lo := sf_cast Double FLT_MIN in
   forallb
     (fun v =>
        let unit :=
          sf_cast Double (SFdiv 53 1024 (sf_of_Z Double ((v - 0) mod 2 ^ 16)) den) in
        (cast_uint 8 (SFadd 53 1024 (sf_cast Double (SFmul 53 1024 unit k)) z0)
           =? v / 257)
        && (let r :=
              sf_cast Single
                (SFadd 53 1024 (sf_cast Double (SFmul 53 1024 unit width)) lo) in
            if v =? 0 then is_nan r else is_pos_inf r))
     (Z_range 65536)) = true.
Proof. vm_cast_no_check (eq_refl true). Qed.

Lemma uint16_sample (v : Z) :
  0 <= v < 65536 ->
  cast_uint 8 (rescale_uint 16 65535 255 v) = v / 257 /\
  rescale_uint_float32 16 65535 v = blown_sample v.
Proof.
  intros Hv. pose proof uint16_table as H. cbv zeta in H.
  rewrite forallb_forall in H. specialize (H v (Z_range_spec _ _ Hv)).
  apply andb_true_iff in H. destruct H as [H1 H2]. split.
  - apply Z.eqb_eq in H1. exact H1.
  - unfold rescale_uint_float32, blown_sample.
    destruct (v =? 0).
    + match type of H2 with is_nan ?r = true =>
        destruct r as [| | |]; try discriminate H2 end.
      reflexivity.
    + match type of H2 with is_pos_inf ?r = true =>
        destruct r as [| [] | |]; try discriminate H2 end.
      reflexivity.
Qed.

Lemma uint8_sample (b : byte) :
  rescale_uint_float32 8 255 (byte_to_Z b) = blown_sample (byte_to_Z b).
Proof. destruct b; vm_compute; reflexivity. Qed.

Lemma byte_to_Z_range (b : byte) : 0 <= byte_to_Z b < 256.
Proof. destruct b; vm_compute; split; congruence. Qed.

Lemma word16_range (b0 b1 : byte) : 0 <= word16 b0 b1 < 65536.
Proof.
  unfold word16. pose proof (byte_to_Z_range b0). pose proof (byte_to_Z_range b1). lia.
Qed.

Lemma flat_map_singleton {A B : Type} (f : A -> B) (l : list A) :
  flat_map (fun x => [f x]) l = map f l.
Proof. induction l as [|x l IH]; [reflexivity | cbn; rewrite IH; reflexivity]. Qed.

(** [scale] and the cast, on whole arrays. *)
Lemma scale_uint16_uint8_array (zs : list Z) :
  (forall z, In z zs -> 0 <= z < 2 ^ 16) ->
  tobytes (astype "uint8"
             (scale (NdUInt 16 zs) (PyInt 0) (PyInt 65535) (PyInt 0) (PyInt 255)))
  = Ok (flat_map (fun z => [byte_of_Z (z / 257)]) zs).
Proof.
  intros Hz. rewrite scale_uint_array by lia.
  change (astype "uint8" (NdFloat64 ?l)) with (astype_uint 8 (NdFloat64 l)).
  cbn [astype_uint tobytes]. rewrite !map_map, flat_map_singleton.
  f_equal. apply map_ext_in. intros z Hin.
  destruct (uint16_sample z (Hz z Hin)) as [-> _]. reflexivity.
Qed.

Lemma scale_uint16_float32_array (zs : list Z) :
  (forall z, In z zs -> 0 <= z < 2 ^ 16) ->
  astype "float32"
    (scale (NdUInt 16 zs) (PyInt 0) (PyInt 65535) (NpFloat32 FLT_MIN) (NpFloat32 FLT_MAX))
  = NdFloat32 (map blown_sample zs).
Proof.
  intros Hz. rewrite scale_uint_float32_array by lia.
  f_equal. apply map_ext_in. intros z Hin. apply uint16_sample, Hz, Hin.
Qed.

Lemma scale_uint8_float32_array (bs : list byte) :
  astype "float32"
    (scale (NdUInt 8 (map byte_to_Z bs)) (PyInt 0) (PyInt 255)
       (NpFloat32 FLT_MIN) (NpFloat32 FLT_MAX))
  = NdFloat32 (map blown_sample (map byte_to_Z bs)).
Proof.
  rewrite scale_uint_float32_array by lia. rewrite !map_map.
  f_equal. apply map_ext. intros b. apply uint8_sample.
Qed.

(** ** Buffers of unsigned samples *)

Lemma frombuffer_u16_whole (bs : list byte) :
  (length bs mod 2 = 0)%nat -> frombuffer_u16 bs = Ok (words_u16 bs).
Proof.
  induction bs as [bs IH] using (induction_ltof1 _ (@length byte)).
  unfold ltof in IH. intros H.
  destruct bs as [|b0 [|b1 rest]]; try (cbn in H; discriminate H).
  - reflexivity.
  - cbn [frombuffer_u16 words_u16]. rewrite (IH rest).
    + reflexivity.
    + cbn. lia.
    + change (length (b0 :: b1 :: rest)) with (2 + length rest)%nat in H.
      rewrite mod_step in H. exact H.
Qed.

Lemma frombuffer_u16_length (bs : list byte) (zs : list Z) :
  frombuffer_u16 bs = Ok zs -> (length bs mod 2 = 0)%nat.
Proof.
  revert zs. induction bs as [bs IH] using (induction_ltof1 _ (@length byte)).
  unfold ltof in IH. intros zs H.
  destruct bs as [|b0 [|b1 rest]]; cbn in H; try discriminate.
  - reflexivity.
  - destruct (frombuffer_u16 rest) as [zs'|] eqn:E; [| discriminate].
    change (length (b0 :: b1 :: rest)) with (2 + length rest)%nat.
    rewrite mod_step. apply (IH rest) with (zs := zs'); [cbn; lia | exact E].
Qed.

Lemma words_u16_app (c1 c2 : list byte) :
  (length c1 mod 2 = 0)%nat -> words_u16 (c1 ++ c2) = words_u16 c1 ++ words_u16 c2.
Proof.
  induction c1 as [c1 IH] using (induction_ltof1 _ (@length byte)).
  unfold ltof in IH. intros H.
  destruct c1 as [|b0 [|b1 rest]]; try (cbn in H; discriminate H).
  - reflexivity.
  - cbn [app words_u16]. rewrite (IH rest).
    + reflexivity.
    + cbn. lia.
    + change (length (b0 :: b1 :: rest)) with (2 + length rest)%nat in H.
      rewrite mod_step in H. exact H.
Qed.

Lemma words_u16_range (bs : list byte) (z : Z) :
  In z (words_u16 bs) -> 0 <= z < 2 ^ 16.
Proof.
  induction bs as [bs IH] using (induction_ltof1 _ (@length byte)).
  unfold ltof in IH.
  destruct bs as [|b0 [|b1 rest]]; cbn [words_u16].
  - intros [].
  - intros [].
  - intros [<- | Hin].
    + apply word16_range.
    + apply (IH rest); [cbn; lia | exact Hin].
Qed.

Lemma bytes_range (bs : list byte) (z : Z) :
  In z (map byte_to_Z bs) -> 0 <= z < 2 ^ 8.
Proof.
  intros H. apply in_map_iff in H. destruct H as (b & <- & _). apply byte_to_Z_range.
Qed.

(** ** The conversion loop *)

(** A round of the loop whose buffer converts to [out] appends [out]. *)
Lemma convert_loop_step (op bd fmt : string) (a b c d : npval)
    (buffer : list byte) (rest : list (list byte)) (out old : list byte)
    (st : state) :
  convert_chunk bd fmt a b c d buffer = Ok out ->
  files st !! op = Some (Raw old) ->
  convert_loop op bd fmt a b c d (buffer :: rest) st
  = convert_loop op bd fmt a b c d rest
      (set_files (fun fs => <[op := Raw (old ++ out)]> fs) st).
Proof.
  intros Hc Hop. cbn [convert_loop]. unfold bind at 1. unfold lift at 1.
  unfold convert_chunk in Hc. destruct (frombuffer bd buffer) as [chunk|e]; [| discriminate].
  unfold bind at 1. unfold lift at 1. rewrite Hc.
  unfold bind at 1. unfold append_bytes. rewrite Hop. reflexivity.
Qed.

Section UIntInput.

(** An unsigned input type: its name, its width in bits, the size of an
    item and the items of a buffer. *)
Variables (bd : string) (w : Z) (isz : nat) (items : list byte -> list Z).
Hypothesis items_decode :
  forall c, (length c mod isz = 0)%nat -> frombuffer bd c = Ok (NdUInt w (items c)).
Hypothesis items_range : forall c z, In z (items c) -> 0 <= z < 2 ^ w.
Hypothesis items_app :
  forall c1 c2, (length c1 mod isz = 0)%nat -> items (c1 ++ c2) = items c1 ++ items c2.
Hypothesis items_nil : items [] = [].

(** An output format and the bytes it gives each sample. *)
Variables (fmt : string) (a b c d : npval) (enc : Z -> list byte).
Hypothesis enc_spec :
  forall zs, (forall z, In z zs -> 0 <= z < 2 ^ w) ->
    tobytes (astype fmt (scale (NdUInt w zs) a b c d)) = Ok (flat_map enc zs).

Lemma convert_chunk_uint (buffer : list byte) :
  (length buffer mod isz = 0)%nat ->
  convert_chunk bd fmt a b c d buffer = Ok (flat_map enc (items buffer)).
Proof.
  intros H. unfold convert_chunk. rewrite (items_decode buffer H).
  apply enc_spec. apply items_range.
Qed.

Lemma convert_loop_uint (op : string) (buffers : list (list byte)) :
  Forall (fun buffer => (length buffer mod isz = 0)%nat) buffers ->
  forall (st : state) (old : list byte),
    files st !! op = Some (Raw old) ->
    fst (convert_loop op bd fmt a b c d buffers st) = Ok tt /\
    files (snd (convert_loop op bd fmt a b c d buffers st))
    = <[op := Raw (old ++ flat_map enc (items (concat buffers)))]> (files st) /\
    log (snd (convert_loop op bd fmt a b c d buffers st)) = log st.
Proof.
  induction 1 as [|buffer rest Hb Hrest IH]; intros st old Hop.
  - cbn. rewrite items_nil. cbn. rewrite app_nil_r.
    split; [reflexivity |]. split; [| reflexivity].
    symmetry. apply insert_id, Hop.
  - rewrite (convert_loop_step op bd fmt a b c d buffer rest _ old st
               (convert_chunk_uint buffer Hb) Hop).
    set (st1 := set_files _ st).
    assert (Hop1 : files st1 !! op = Some (Raw (old ++ flat_map enc (items buffer))))
      by apply lookup_insert_eq.
    destruct (IH st1 _ Hop1) as (R & F & L). split; [exact R |]. split; [| exact L].
    rewrite F. subst st1. cbn [files set_files].
    rewrite insert_insert_eq. cbn [concat].
    rewrite (items_app buffer _ Hb), flat_map_app, <- app_assoc. reflexivity.
Qed.

End UIntInput.

Lemma frombuffer_uint8 (c : list byte) :
  frombuffer "uint8" c = Ok (NdUInt 8 (map byte_to_Z c)).
Proof. reflexivity. Qed.

Lemma frombuffer_uint16 (c : list byte) :
  (length c mod 2 = 0)%nat -> frombuffer "uint16" c = Ok (NdUInt 16 (words_u16 c)).
Proof.
  intros H. change (frombuffer "uint16" c)
    with (match frombuffer_u16 c with Ok zs => Ok (NdUInt 16 zs) | Raise e => Raise e end).
  rewrite (frombuffer_u16_whole c H). reflexivity.
Qed.

(** ** Runs of the converter on unsigned volumes *)

Section ConvertRuns.

Variable determine_bit_depth :
  gmap string fcontent -> string -> nat * nat * nat -> res string.

(** [convert] on a volume of an unsigned type whose output path is free, up
    to the choice of the output scale. *)
Lemma convert_uint_prefix (st : state) (fp dat_fp fmt bd : string)
    (d : dat_record) (isz : nat) :
  files st !! dat_fp = Some (Dat d) ->
  determine_bit_depth (files st) fp (xdim d, ydim d, zdim d) = Ok bd ->
  String.eqb fmt bd = false ->
  files st !! output_path fp fmt = None ->
  is_uint_name bd = true -> np_itemsize bd = Some isz ->
  convert determine_bit_depth fp dat_fp fmt st
  = match output_scale fmt with
    | Some output_range =>
        (let* data := open_rb fp in
         open_wb (output_path fp fmt) >>
         convert_loop (output_path fp fmt) bd fmt
           (fst (np_iinfo bd)) (snd (np_iinfo bd))
           (fst output_range) (snd output_range)
           (read_chunks (xdim d * ydim d * isz) data) >>
         dat_write (output_dat_path dat_fp fmt) (xdim d, ydim d, zdim d)
           (x_thickness d, y_thickness d, z_thickness d) fmt (model d)) st
    | None =>
        (Raise (ValueError ("Output format, '" +:+ fmt +:+ "', is not supported.")), st)
    end.
Proof.
  intros Hdat Hbd Hne Hfree Huint Hisz.
  unfold convert.
  rewrite (bind_ok _ _ st st d) by (unfold dat_read; rewrite Hdat; reflexivity).
  cbn zeta.
  rewrite (bind_ok _ _ st st bd) by (rewrite Hbd; reflexivity).
  rewrite Hne.
  rewrite (bind_ok (path_exists _) _ st st false).
  2:{ unfold path_exists, gets. rewrite bool_decide_false; [reflexivity |].
      rewrite Hfree. intros [? ?]. discriminate. }
  rewrite Hisz, Huint.
  rewrite (bind_ok (ret isz) _ st st isz) by reflexivity.
  rewrite (bind_ok (ret (np_iinfo bd)) _ st st (np_iinfo bd)) by reflexivity.
  unfold output_scale.
  destruct (is_uint_name fmt).
  - rewrite (bind_ok (ret (np_iinfo fmt)) _ st st (np_iinfo fmt)) by reflexivity.
    reflexivity.
  - destruct (String.eqb fmt "float32").
    + rewrite (bind_ok (ret _) _ st st (NpFloat32 FLT_MIN, NpFloat32 FLT_MAX))
        by reflexivity.
      reflexivity.
    + reflexivity.
Qed.

Lemma convert_uint_volume (st : state) (fp dat_fp fmt bd : string)
    (d : dat_record) (bs : list byte) (isz : nat) (w : Z)
    (items : list byte -> list Z) (enc : Z -> list byte) (c' d' : npval) :
  (forall c, (length c mod isz = 0)%nat -> frombuffer bd c = Ok (NdUInt w (items c))) ->
  (forall c z, In z (items c) -> 0 <= z < 2 ^ w) ->
  (forall c1 c2, (length c1 mod isz = 0)%nat ->
                 items (c1 ++ c2) = items c1 ++ items c2) ->
  items [] = [] ->
  (forall zs, (forall z, In z zs -> 0 <= z < 2 ^ w) ->
     tobytes (astype fmt (scale (NdUInt w zs) (fst (np_iinfo bd)) (snd (np_iinfo bd)) c' d'))
     = Ok (flat_map enc zs)) ->
  files st !! fp = Some (Raw bs) ->
  files st !! dat_fp = Some (Dat d) ->
  determine_bit_depth (files st) fp (xdim d, ydim d, zdim d) = Ok bd ->
  String.eqb fmt bd = false ->
  files st !! output_path fp fmt = None ->
  is_uint_name bd = true -> np_itemsize bd = Some isz -> (0 < isz)%nat ->
  output_scale fmt = Some (c', d') ->
  (0 < xdim d * ydim d)%nat -> (length bs mod isz = 0)%nat ->
  fst (convert determine_bit_depth fp dat_fp fmt st) = Ok tt /\
  files (snd (convert determine_bit_depth fp dat_fp fmt st))
  = <[output_dat_path dat_fp fmt :=
        Dat {| xdim := xdim d; ydim := ydim d; zdim := zdim d;
               x_thickness := x_thickness d; y_thickness := y_thickness d;
               z_thickness := z_thickness d;
               dat_format := fmt; model := model d |}]>
      (<[output_path fp fmt := Raw (flat_map enc (items bs))]> (files st)) /\
  log (snd (convert determine_bit_depth fp dat_fp fmt st)) = log st.
Proof.
  intros Hdec Hrange Happ Hnil Henc Hfp Hdat Hbd Hne Hfree Huint Hisz Hpos Hscale Hxy Hlen.
  rewrite (convert_uint_prefix st fp dat_fp fmt bd d isz Hdat Hbd Hne Hfree Huint Hisz).
  rewrite Hscale. cbn [fst snd].
  set (op := output_path fp fmt). set (dat_op := output_dat_path dat_fp fmt).
  rewrite (bind_ok (open_rb fp) _ st st bs) by (unfold open_rb; rewrite Hfp; reflexivity).
  set (n := (xdim d * ydim d * isz)%nat).
  assert (Hn : (0 < n)%nat) by (subst n; nia).
  set (st1 := set_files (fun fs => <[op := Raw []]> fs) st).
  assert (Hop1 : files st1 !! op = Some (Raw [])) by apply lookup_insert_eq.
  assert (Hwhole : Forall (fun c => (length c mod isz = 0)%nat) (read_chunks n bs)).
  { apply (read_chunks_aux_whole isz n (length bs) bs Hn (le_n _)).
    unfold whole_buffers. rewrite Hlen. subst n.
    rewrite Nat.Div0.mod_mul. reflexivity. }
  destruct (convert_loop_uint bd w isz items Hdec Hrange Happ Hnil fmt
              (fst (np_iinfo bd)) (snd (np_iinfo bd)) c' d' enc Henc op
              (read_chunks n bs) Hwhole st1 [] Hop1) as (R & F & L).
  rewrite (read_chunks_concat n bs Hn) in F. cbn [app] in F.
  unfold bind, open_wb, modify. fold st1.
  destruct (convert_loop op bd fmt _ _ _ _ _ st1) as [r2 st2].
  cbn [fst snd] in R, F, L. subst r2.
  unfold dat_write, modify. cbn [fst snd files log set_files].
  split; [reflexivity |]. split.
  - rewrite F. subst st1. cbn [files set_files]. rewrite insert_insert_eq. reflexivity.
  - rewrite L. reflexivity.
Qed.

End ConvertRuns.

(** ** Bytes and words *)

Lemma byte_to_of_Z (z : Z) : byte_to_Z (byte_of_Z z) = z mod 256.
Proof.
  unfold byte_to_Z, byte_of_Z.
  pose proof (Z.mod_pos_bound z 256 ltac:(lia)) as Hb.
  destruct (Byte.of_N (Z.to_N (z mod 256))) as [b|] eqn:E.
  - apply Byte.to_of_N in E. rewrite E. lia.
  - apply Byte.of_N_None_iff in E. lia.
Qed.

Lemma byte_of_to_Z (b : byte) : byte_of_Z (byte_to_Z b) = b.
Proof. destruct b; reflexivity. Qed.

Lemma word16_le16 (z : Z) (rest : list byte) :
  0 <= z < 2 ^ 16 -> words_u16 (le16 z ++ rest) = z :: words_u16 rest.
Proof.
  intros Hz. cbn [le16 app words_u16]. f_equal.
  unfold word16. rewrite !byte_to_of_Z.
  rewrite (Z.mod_small (z / 2 ^ 8) 256).
  - pose proof (Z.div_mod z 256 ltac:(lia)). change (2 ^ 8) with 256. lia.
  - split; [apply Z.div_pos; lia | apply Z.div_lt_upper_bound; lia].
Qed.

Lemma words_u16_encoded {A : Type} (f : A -> Z) (l : list A) :
  (forall x, In x l -> 0 <= f x < 2 ^ 16) ->
  words_u16 (flat_map (fun x => le16 (f x)) l) = map f l.
Proof.
  induction l as [|x l IH]; intros H; [reflexivity |].
  cbn [flat_map map]. rewrite word16_le16 by (apply H; left; reflexivity).
  rewrite IH; [reflexivity |]. intros y Hy. apply H. right. exact Hy.
Qed.

Lemma length_encoded_u16 {A : Type} (f : A -> Z) (l : list A) :
  (length (flat_map (fun x => le16 (f x)) l) mod 2 = 0)%nat.
Proof.
  induction l as [|x l IH]; [reflexivity |].
  cbn [flat_map le16 app length]. change (S (S ?n)) with (2 + n)%nat.
  rewrite mod_step. exact IH.
Qed.

Lemma round_u8_to_u16_eq (b : byte) : round_u8_to_u16 b = 257 * byte_to_Z b.
Proof. destruct b; vm_compute; reflexivity. Qed.

Lemma scale_uint8_uint16_samples (zs : list Z) :
  (forall z, In z zs -> 0 <= z < 2 ^ 8) ->
  tobytes (astype "uint16"
             (scale (NdUInt 8 zs) (PyInt 0) (PyInt 255) (PyInt 0) (PyInt 65535)))
  = Ok (flat_map (fun z => le16 (257 * z)) zs).
Proof.
  intros Hz.
  assert (E : zs = map byte_to_Z (map byte_of_Z zs)).
  { rewrite map_map. rewrite <- (map_id zs) at 1. apply map_ext_in.
    intros z Hin. rewrite byte_to_of_Z. symmetry. apply Z.mod_small.
    apply Hz in Hin. change (2 ^ 8) with 256 in Hin. exact Hin. }
  rewrite E at 1. rewrite scale_uint8_uint16_array. cbn [tobytes].
  rewrite E at 2. rewrite !flat_map_concat_map, !map_map. do 2 f_equal.
  apply map_ext. intros z. rewrite round_u8_to_u16_eq. reflexivity.
Qed.

Lemma frombuffer_f32_blown (zs : list Z) :
  frombuffer_f32 (flat_map (fun z => le32 (encode_f32 (blown_sample z))) zs)
  = Ok (map blown_sample zs).
Proof.
  induction zs as [|z zs IH]; [reflexivity |].
  cbn [flat_map map]. unfold blown_sample at 1 3.
  destruct (z =? 0); cbn [encode_f32 le32 app frombuffer_f32]; rewrite IH;
    reflexivity.
Qed.

(** ** Conversions between the unsigned types, and to float32 *)

Section ConvertUnsigned.

Variable determine_bit_depth :
  gmap string fcontent -> string -> nat * nat * nat -> res string.

(** The disk a conversion from uint8 to uint16 leaves. *)
Lemma uint8_to_uint16_disk (st : state) (fp dat_fp : string)
    (d : dat_record) (bs : list byte) :
  files st !! fp = Some (Raw bs) ->
  files st !! dat_fp = Some (Dat d) ->
  determine_bit_depth (files st) fp (xdim d, ydim d, zdim d) = Ok "uint8" ->
  files st !! output_path fp "uint16" = None ->
  (0 < xdim d * ydim d)%nat ->
  fst (convert determine_bit_depth fp dat_fp "uint16" st) = Ok tt /\
  files (snd (convert determine_bit_depth fp dat_fp "uint16" st))
  = <[output_dat_path dat_fp "uint16" :=
        Dat {| xdim := xdim d; ydim := ydim d; zdim := zdim d;
               x_thickness := x_thickness d; y_thickness := y_thickness d;
               z_thickness := z_thickness d;
               dat_format := "uint16"; model := model d |}]>
      (<[output_path fp "uint16" :=
           Raw (flat_map (fun z => le16 (257 * z)) (map byte_to_Z bs))]> (files st)).
Proof.
  intros Hfp Hdat Hbd Hfree Hxy.
  destruct (convert_uint_volume determine_bit_depth st fp dat_fp "uint16" "uint8" d bs
              1%nat 8 (map byte_to_Z) (fun z => le16 (257 * z))
              (PyInt 0) (PyInt 65535)) as (R & F & _); trivial.
  - intros c z. apply bytes_range.
  - intros c1 c2 _. apply map_app.
  - apply scale_uint8_uint16_samples.
  - lia.
  - split; assumption.
Qed.

(** X5: a volume inferred as uint16 and converted to uint8 (its output path
    being free, a slice holding at least one sample and the file a whole
    number of samples) yields an output volume whose sample at each position
    is floor(v / 257) for the input sample v at that position, and a new DAT
    file with format uint8 and the dimensions, thickness and model of the
    source descriptor. *)
Theorem convert_uint16_to_uint8 (st : state) (fp dat_fp : string)
    (d : dat_record) (bs : list byte) (zs : list Z) :
  files st !! fp = Some (Raw bs) ->
  files st !! dat_fp = Some (Dat d) ->
  determine_bit_depth (files st) fp (xdim d, ydim d, zdim d) = Ok "uint16" ->
  files st !! output_path fp "uint8" = None ->
  (0 < xdim d * ydim d)%nat ->
  frombuffer_u16 bs = Ok zs ->
  fst (convert determine_bit_depth fp dat_fp "uint8" st) = Ok tt /\
  files (snd (convert determine_bit_depth fp dat_fp "uint8" st))
    !! output_path fp "uint8"
    = Some (Raw (map (fun z => byte_of_Z (z / 257)) zs)) /\
  files (snd (convert determine_bit_depth fp dat_fp "uint8" st))
    !! output_dat_path dat_fp "uint8"
    = Some (Dat {| xdim := xdim d; ydim := ydim d; zdim := zdim d;
                   x_thickness := x_thickness d;
                   y_thickness := y_thickness d;
                   z_thickness := z_thickness d;
                   dat_format := "uint8"; model := model d |}).
Proof.
  intros Hfp Hdat Hbd Hfree Hxy Hzs.
  pose proof (frombuffer_u16_length bs zs Hzs) as Hlen.
  rewrite (frombuffer_u16_whole bs Hlen) in Hzs. injection Hzs as <-.
  destruct (convert_uint_volume determine_bit_depth st fp dat_fp "uint8" "uint16" d bs
              2%nat 16 words_u16 (fun z => [byte_of_Z (z / 257)])
              (PyInt 0) (PyInt 255)) as (R & F & _); trivial.
  - apply frombuffer_uint16.
  - apply words_u16_range.
  - apply words_u16_app.
  - apply scale_uint16_uint8_array.
  - lia.
  - split; [exact R |]. rewrite F. split.
    + rewrite lookup_insert_ne by (symmetry; apply output_paths_differ).
      rewrite lookup_insert_eq, flat_map_singleton. reflexivity.
    + apply lookup_insert_eq.
Qed.

(** X6: a uint8 volume converted to uint16, and the output converted back
    to uint8 (the second output path being free and the output of the first
    conversion inferred as uint16): the second output volume has the bytes
    of the first input volume. *)
Theorem convert_uint8_round_trip (st : state) (fp dat_fp : string)
    (d : dat_record) (bs : list byte) :
  files st !! fp = Some (Raw bs) ->
  files st !! dat_fp = Some (Dat d) ->
  determine_bit_depth (files st) fp (xdim d, ydim d, zdim d) = Ok "uint8" ->
  files st !! output_path fp "uint16" = None ->
  (0 < xdim d * ydim d)%nat ->
  determine_bit_depth (files (snd (convert determine_bit_depth fp dat_fp "uint16" st)))
    (output_path fp "uint16") (xdim d, ydim d, zdim d) = Ok "uint16" ->
  files (snd (convert determine_bit_depth fp dat_fp "uint16" st))
    !! output_path (output_path fp "uint16") "uint8" = None ->
  fst (convert determine_bit_depth
         (output_path fp "uint16") (output_dat_path dat_fp "uint16") "uint8"
         (snd (convert determine_bit_depth fp dat_fp "uint16" st))) = Ok tt /\
  files (snd (convert determine_bit_depth
                (output_path fp "uint16") (output_dat_path dat_fp "uint16") "uint8"
                (snd (convert determine_bit_depth fp dat_fp "uint16" st))))
    !! output_path (output_path fp "uint16") "uint8"
    = Some (Raw bs).
Proof.
  intros Hfp Hdat Hbd Hfree Hxy Hbd2 Hfree2.
  destruct (uint8_to_uint16_disk st fp dat_fp d bs Hfp Hdat Hbd Hfree Hxy) as [_ F].
  set (st1 := snd (convert determine_bit_depth fp dat_fp "uint16" st)) in *.
  set (out := flat_map (fun z => le16 (257 * z)) (map byte_to_Z bs)) in *.
  set (d1 := {| xdim := xdim d; ydim := ydim d; zdim := zdim d;
                x_thickness := x_thickness d; y_thickness := y_thickness d;
                z_thickness := z_thickness d;
                dat_format := "uint16"; model := model d |}) in *.
  assert (Hfp1 : files st1 !! output_path fp "uint16" = Some (Raw out)).
  { rewrite F. rewrite lookup_insert_ne by (symmetry; apply output_paths_differ).
    apply lookup_insert_eq. }
  assert (Hdat1 : files st1 !! output_dat_path dat_fp "uint16" = Some (Dat d1)).
  { rewrite F. apply lookup_insert_eq. }
  destruct (convert_uint_volume determine_bit_depth st1
              (output_path fp "uint16") (output_dat_path dat_fp "uint16")
              "uint8" "uint16" d1 out
              2%nat 16 words_u16 (fun z => [byte_of_Z (z / 257)])
              (PyInt 0) (PyInt 255)) as (R & F2 & _); trivial.
  - apply frombuffer_uint16.
  - apply words_u16_range.
  - apply words_u16_app.
  - apply scale_uint16_uint8_array.
  - lia.
  - apply length_encoded_u16.
  - split; [exact R |]. rewrite F2.
    rewrite lookup_insert_ne by (symmetry; apply output_paths_differ).
    rewrite lookup_insert_eq. do 2 f_equal. subst out.
    assert (Hr : forall z, In z (map byte_to_Z bs) -> 0 <= 257 * z < 2 ^ 16).
    { intros z Hz. apply bytes_range in Hz. lia. }
    rewrite (words_u16_encoded (fun z => 257 * z) _ Hr).
    rewrite flat_map_singleton, !map_map. rewrite <- (map_id bs) at 2.
    apply map_ext. intros b.
    replace (257 * byte_to_Z b / 257) with (byte_to_Z b)
      by (symmetry; rewrite Z.mul_comm; apply Z.div_mul; lia).
    apply byte_of_to_Z.
Qed.

(** X7: a volume of an unsigned type converted to float32 (its output path
    being free): the width of the output range, [finfo.max - finfo.min],
    overflows in float32, and the output volume holds, for the input sample
    at each position, a NaN when the sample is 0 and the positive infinity
    otherwise; no sample of the output is finite. *)
Theorem convert_uint_to_float32 (st : state) (fp dat_fp bd : string)
    (d : dat_record) (bs : list byte) (w : Z) (zs : list Z) :
  files st !! fp = Some (Raw bs) ->
  files st !! dat_fp = Some (Dat d) ->
  determine_bit_depth (files st) fp (xdim d, ydim d, zdim d) = Ok bd ->
  is_uint_name bd = true ->
  frombuffer bd bs = Ok (NdUInt w zs) ->
  files st !! output_path fp "float32" = None ->
  (0 < xdim d * ydim d)%nat ->
  fst (convert determine_bit_depth fp dat_fp "float32" st) = Ok tt /\
  exists out,
    files (snd (convert determine_bit_depth fp dat_fp "float32" st))
      !! output_path fp "float32" = Some (Raw out) /\
    frombuffer_f32 out = Ok (map blown_sample zs).
Proof.
  intros Hfp Hdat Hbd Huint Hzs Hfree Hxy.
  unfold is_uint_name in Huint. apply orb_true_iff in Huint.
  destruct Huint as [E | E]; apply String.eqb_eq in E; subst bd.
  - rewrite frombuffer_uint8 in Hzs. injection Hzs as <- <-.
    destruct (convert_uint_volume determine_bit_depth st fp dat_fp "float32" "uint8" d bs
                1%nat 8 (map byte_to_Z)
                (fun z => le32 (encode_f32 (blown_sample z)))
                (NpFloat32 FLT_MIN) (NpFloat32 FLT_MAX)) as (R & F & _); trivial.
    + intros c z. apply bytes_range.
    + intros c1 c2 _. apply map_app.
    + intros zs Hz.
      assert (E : zs = map byte_to_Z (map byte_of_Z zs)).
      { rewrite map_map. rewrite <- (map_id zs) at 1. apply map_ext_in.
        intros z Hin. rewrite byte_to_of_Z. symmetry. apply Z.mod_small.
        apply Hz in Hin. change (2 ^ 8) with 256 in Hin. exact Hin. }
      rewrite E. cbn [np_iinfo fst snd].
      change (np_iinfo "uint8") with (PyInt 0, PyInt 255). cbn [fst snd].
      rewrite scale_uint8_float32_array. cbn [tobytes].
      rewrite !flat_map_concat_map, !map_map. reflexivity.
    + lia.
    + split; [exact R |].
      exists (flat_map (fun z => le32 (encode_f32 (blown_sample z))) (map byte_to_Z bs)).
      split; [| apply frombuffer_f32_blown].
      rewrite F. rewrite lookup_insert_ne by (symmetry; apply output_paths_differ).
      apply lookup_insert_eq.
  - change (frombuffer "uint16" bs)
      with (match frombuffer_u16 bs with
            | Ok zs => Ok (NdUInt 16 zs) | Raise e => Raise e end) in Hzs.
    destruct (frombuffer_u16 bs) as [zs'|] eqn:Hu; [| discriminate].
    injection Hzs as <- <-.
    pose proof (frombuffer_u16_length bs zs' Hu) as Hlen.
    rewrite (frombuffer_u16_whole bs Hlen) in Hu. injection Hu as <-.
    destruct (convert_uint_volume determine_bit_depth st fp dat_fp "float32" "uint16" d bs
                2%nat 16 words_u16
                (fun z => le32 (encode_f32 (blown_sample z)))
                (NpFloat32 FLT_MIN) (NpFloat32 FLT_MAX)) as (R & F & _); trivial.
    + apply frombuffer_uint16.
    + apply words_u16_range.
    + apply words_u16_app.
    + intros zs Hz.
      change (np_iinfo "uint16") with (PyInt 0, PyInt 65535). cbn [fst snd].
      rewrite (scale_uint16_float32_array zs Hz). cbn [tobytes].
      rewrite !flat_map_concat_map, !map_map. reflexivity.
    + lia.
    + split; [exact R |].
      exists (flat_map (fun z => le32 (encode_f32 (blown_sample z))) (words_u16 bs)).
      split; [| apply frombuffer_f32_blown].
      rewrite F. rewrite lookup_insert_ne by (symmetry; apply output_paths_differ).
      apply lookup_insert_eq.
Qed.

End ConvertUnsigned.

(** ** Paths *)

Lemma rsplit_at_spec (c : ascii) (p h t : string) :
  rsplit_at c p = Some (h, t) -> p = h +:+ String c t.
Proof.
  revert h t. induction p as [|a p IH]; intros h t H; [discriminate |].
  cbn [rsplit_at] in H. destruct (rsplit_at c p) as [[h' t']|].
  - injection H as <- <-.
    change (String a p = String a (h' +:+ String c t')). f_equal. apply IH. reflexivity.
  - destruct (Ascii.eqb_spec a c) as [-> |]; [| discriminate].
    injection H as <- <-. reflexivity.
Qed.

Lemma string_app_assoc (a b c : string) : (a +:+ b) +:+ c = a +:+ (b +:+ c).
Proof.
  induction a as [|x a IH]; [reflexivity |].
  change (String x ((a +:+ b) +:+ c) = String x (a +:+ (b +:+ c))). rewrite IH. reflexivity.
Qed.

Lemma string_app_nil_r (a : string) : a +:+ EmptyString = a.
Proof.
  induction a as [|x a IH]; [reflexivity |].
  change (String x (a +:+ EmptyString) = String x a). rewrite IH. reflexivity.
Qed.

(** [os.path.splitext] cuts a path into a stem and an extension that is
    empty or starts with a dot. *)
Lemma splitext_spec (p : string) :
  exists ext, p = fst (splitext p) +:+ ext /\
              (ext = EmptyString \/ exists e, ext = String "." e).
Proof.
  unfold splitext.
  destruct (rsplit_at "/" p) as [[h t]|] eqn:Es.
  - apply rsplit_at_spec in Es.
    destruct (rsplit_at "." t) as [[pre e]|] eqn:Ed.
    + destruct (all_char "." pre).
      * exists EmptyString. cbn [fst]. rewrite string_app_nil_r. auto.
      * exists (String "." e). cbn [fst]. split; [| eauto].
        apply rsplit_at_spec in Ed. rewrite Es, Ed.
        rewrite !string_app_assoc. reflexivity.
    + exists EmptyString. cbn [fst]. rewrite string_app_nil_r. auto.
  - destruct (rsplit_at "." p) as [[pre e]|] eqn:Ed.
    + destruct (all_char "." pre).
      * exists EmptyString. cbn [fst]. rewrite string_app_nil_r. auto.
      * exists (String "." e). cbn [fst]. split; [| eauto].
        apply rsplit_at_spec in Ed. rewrite Ed. reflexivity.
    + exists EmptyString. cbn [fst]. rewrite string_app_nil_r. auto.
Qed.

(** The output volume of [convert] is never its input volume. *)
Lemma output_path_fresh (fp file_format : string) : output_path fp file_format <> fp.
Proof.
  unfold output_path. destruct (splitext_spec fp) as (ext & E & Hext).
  intros H. pose proof (eq_trans H E) as H'.
  apply String.app_inj in H'. clear H. rename H' into H.
  change ("-" +:+ ?x) with (String "-" x) in H.
  destruct Hext as [-> | [e ->]]; discriminate H.
Qed.

(** ** What a computation may touch *)

Lemma bind_touches_only {A B : Type} (ps : list string) (m : M A) (k : A -> M B) :
  touches_only ps m -> (forall a, touches_only ps (k a)) -> touches_only ps (bind m k).
Proof.
  intros Hm Hk st p Hp. unfold bind. specialize (Hm st p Hp).
  destruct (m st) as [[a|e] st1]; cbn in *.
  - rewrite (Hk a st1 p Hp). exact Hm.
  - exact Hm.
Qed.

Lemma read_only_touches {A : Type} (ps : list string) (m : M A) :
  read_only m -> touches_only ps m.
Proof. intros H st p _. rewrite (H st). reflexivity. Qed.

Lemma open_wb_touches (ps : list string) (q : string) :
  In q ps -> touches_only ps (open_wb q).
Proof.
  intros Hq st p Hp. unfold open_wb, modify. cbn.
  apply lookup_insert_ne. intros ->. contradiction.
Qed.

Lemma append_bytes_touches (ps : list string) (q : string) (bs : list byte) :
  In q ps -> touches_only ps (append_bytes q bs).
Proof.
  intros Hq st p Hp. unfold append_bytes.
  destruct (files st !! q) as [[]|]; cbn; trivial;
    apply lookup_insert_ne; intros ->; contradiction.
Qed.

Lemma dat_write_touches (ps : list string) (q : string) (dims : nat * nat * nat)
    (th : spec_float * spec_float * spec_float) (dtype mdl : string) :
  In q ps -> touches_only ps (dat_write q dims th dtype mdl).
Proof.
  intros Hq st p Hp. destruct dims as [[x y] z], th as [[tx ty] tz].
  unfold dat_write, modify. cbn.
  apply lookup_insert_ne. intros ->. contradiction.
Qed.

Lemma convert_loop_touches (ps : list string) (op bd fmt : string) (a b c d : npval)
    (buffers : list (list byte)) :
  In op ps -> touches_only ps (convert_loop op bd fmt a b c d buffers).
Proof.
  intros Hop. induction buffers as [|buffer rest IH]; cbn [convert_loop].
  - apply read_only_touches, ret_read_only.
  - apply bind_touches_only; [apply read_only_touches, lift_read_only |]. intros chunk.
    apply bind_touches_only; [apply read_only_touches, lift_read_only |]. intros bytes.
    apply bind_touches_only; [apply append_bytes_touches, Hop |]. intros _. exact IH.
Qed.

Lemma bind_raise_read_only {A B : Type} (e : exn) (k : A -> M B) :
  read_only (bind (raise e) k).
Proof. intros st. reflexivity. Qed.

Section ConvertFrame.

Variable determine_bit_depth :
  gmap string fcontent -> string -> nat * nat * nat -> res string.

Lemma convert_touches (fp dat_fp fmt : string) :
  touches_only [output_path fp fmt; output_dat_path dat_fp fmt]
    (convert determine_bit_depth fp dat_fp fmt).
Proof.
  unfold convert.
  apply bind_touches_only; [apply read_only_touches, dat_read_read_only |]. intros d.
  apply bind_touches_only; [apply read_only_touches, infer_read_only |]. intros bit_depth.
  destruct (String.eqb fmt bit_depth);
    [apply read_only_touches, logging_read_only |].
  apply bind_touches_only; [apply read_only_touches, path_exists_read_only |].
  intros [|]; [apply read_only_touches, logging_read_only |].
  apply bind_touches_only.
  { apply read_only_touches.
    destruct (np_itemsize bit_depth); [apply ret_read_only | apply raise_read_only]. }
  intros itemsize. apply bind_touches_only.
  { apply read_only_touches.
    destruct (is_uint_name bit_depth); [apply ret_read_only |].
    destruct (String.eqb bit_depth "float32"); [| apply raise_read_only].
    apply bind_read_only; [apply find_float_range_read_only |].
    intros r. apply ret_read_only. }
  intros input_range. apply bind_touches_only.
  { apply read_only_touches.
    destruct (is_uint_name fmt); [apply ret_read_only |].
    destruct (String.eqb fmt "float32");
      [apply ret_read_only | apply raise_read_only]. }
  intros output_range.
  apply bind_touches_only; [apply read_only_touches, open_rb_read_only |]. intros data.
  apply bind_touches_only.
  { apply bind_touches_only; [apply open_wb_touches; left; reflexivity |]. intros _.
    apply convert_loop_touches. left. reflexivity. }
  intros _. apply dat_write_touches. right. left. reflexivity.
Qed.

(** X12: [convert] changes no path other than the path of its output
    volume and the path of its output DAT file, whatever its outcome. *)
Theorem convert_touches_outputs_only (st : state) (fp dat_fp fmt p : string) :
  p <> output_path fp fmt -> p <> output_dat_path dat_fp fmt ->
  files (snd (convert determine_bit_depth fp dat_fp fmt st)) !! p = files st !! p.
Proof.
  intros H1 H2. apply convert_touches. intros [E | [E | []]]; congruence.
Qed.

(** X13: the output volume of [convert] never has the path of its input
    volume, and [convert] leaves its input volume as it is, whatever its
    outcome, as long as the path of its output DAT file is not the path of
    the input volume. *)
Theorem convert_keeps_input (st : state) (fp dat_fp fmt : string) :
  fp <> output_dat_path dat_fp fmt ->
  output_path fp fmt <> fp /\
  files (snd (convert determine_bit_depth fp dat_fp fmt st)) !! fp = files st !! fp.
Proof.
  intros H. split; [apply output_path_fresh |].
  apply convert_touches. intros [E | [E | []]].
  - exact (output_path_fresh fp fmt E).
  - congruence.
Qed.

(** X10: with a requested format that is not uint8, uint16 or float32,
    [convert] writes nothing, whatever the disk holds; and on a volume
    inferred as uint8 or uint16 whose output path is free it raises the
    ValueError that names the output format, leaving the state as it was. *)
Theorem convert_unsupported_output (st : state) (fp dat_fp fmt : string) :
  output_scale fmt = None ->
  files (snd (convert determine_bit_depth fp dat_fp fmt st)) = files st /\
  (forall d bd,
     files st !! dat_fp = Some (Dat d) ->
     determine_bit_depth (files st) fp (xdim d, ydim d, zdim d) = Ok bd ->
     is_uint_name bd = true ->
     files st !! output_path fp fmt = None ->
     convert determine_bit_depth fp dat_fp fmt st
     = (Raise (ValueError ("Output format, '" +:+ fmt +:+ "', is not supported.")), st)).
Proof.
  intros Hscale.
  assert (Hu : is_uint_name fmt = false /\ String.eqb fmt "float32" = false).
  { unfold output_scale in Hscale. destruct (is_uint_name fmt); [discriminate |].
    destruct (String.eqb fmt "float32"); [discriminate |]. split; reflexivity. }
  destruct Hu as [Hu Hf]. split.
  - revert st. change (read_only (convert determine_bit_depth fp dat_fp fmt)).
    unfold convert.
    apply bind_read_only; [apply dat_read_read_only |]. intros d.
    apply bind_read_only; [apply infer_read_only |]. intros bit_depth.
    destruct (String.eqb fmt bit_depth); [apply logging_read_only |].
    apply bind_read_only; [apply path_exists_read_only |].
    intros [|]; [apply logging_read_only |].
    apply bind_read_only.
    { destruct (np_itemsize bit_depth); [apply ret_read_only | apply raise_read_only]. }
    intros itemsize. apply bind_read_only.
    { destruct (is_uint_name bit_depth); [apply ret_read_only |].
      destruct (String.eqb bit_depth "float32"); [| apply raise_read_only].
      apply bind_read_only; [apply find_float_range_read_only |].
      intros r. apply ret_read_only. }
    intros input_range. rewrite Hu, Hf. apply bind_raise_read_only.
  - intros d bd Hdat Hbd Hbu Hfree.
    assert (Hne : String.eqb fmt bd = false).
    { apply String.eqb_neq. intros ->. congruence. }
    assert (Hisz : exists isz, np_itemsize bd = Some isz).
    { unfold is_uint_name in Hbu. apply orb_true_iff in Hbu.
      destruct Hbu as [E | E]; apply String.eqb_eq in E; subst bd; eexists; reflexivity. }
    destruct Hisz as [isz Hisz].
    rewrite (convert_uint_prefix determine_bit_depth st fp dat_fp fmt bd d isz
               Hdat Hbd Hne Hfree Hbu Hisz).
    rewrite Hscale. reflexivity.
Qed.

(** X11: on a volume whose inferred type is a numpy type other than uint8,
    uint16 and float32 (the requested format being another one and the
    output path free), [convert] raises the ValueError that names the input
    format, before it opens any file, and leaves the state as it was. *)
Theorem convert_unsupported_input (st : state) (fp dat_fp fmt bd : string)
    (d : dat_record) (isz : nat) :
  files st !! dat_fp = Some (Dat d) ->
  determine_bit_depth (files st) fp (xdim d, ydim d, zdim d) = Ok bd ->
  np_itemsize bd = Some isz ->
  is_uint_name bd = false -> bd <> "float32" ->
  fmt <> bd ->
  files st !! output_path fp fmt = None ->
  convert determine_bit_depth fp dat_fp fmt st
  = (Raise (ValueError ("Input format, '" +:+ bd +:+ "' , is not supported.")), st).
Proof.
  intros Hdat Hbd Hisz Hu Hf Hne Hfree.
  apply String.eqb_neq in Hne, Hf.
  unfold convert.
  rewrite (bind_ok _ _ st st d) by (unfold dat_read; rewrite Hdat; reflexivity).
  cbn zeta.
  rewrite (bind_ok _ _ st st bd) by (rewrite Hbd; reflexivity).
  rewrite Hne.
  rewrite (bind_ok (path_exists _) _ st st false).
  2:{ unfold path_exists, gets. rewrite bool_decide_false; [reflexivity |].
      rewrite Hfree. intros [? ?]. discriminate. }
  rewrite Hisz, Hu, Hf.
  rewrite (bind_ok (ret isz) _ st st isz) by reflexivity.
  reflexivity.
Qed.

End ConvertFrame.

(** ** The slice assembler: failures *)

(** [process] on a disk without the output is its loop. *)
Lemma process_without_output (args : args_t) (md : metadata) (st : state) :
  files st !! output args = None ->
  process args md st = process_loop args (datafiles md) st.
Proof.
  intros Hout. unfold process, bind, log_and_reraise, path_exists, gets.
  rewrite bool_decide_false; [| rewrite Hout; intros [? ?]; discriminate].
  cbn. destruct (process_loop args (datafiles md) st) as [[]]; reflexivity.
Qed.

(** [scale] on a float32 array with the output range at [None]: the
    TypeError of [d - c], whatever type the array has by then. *)
Lemma scale_none_target (xs : list spec_float) (lower upper : npval) :
  ((lower = PyNone /\ upper = PyNone) \/
   (exists a b, lower = PyFloat a /\ upper = PyFloat b) \/
   (exists a b, lower = NpFloat32 a /\ upper = NpFloat32 b)) ->
  astype "uint16" (scale (NdFloat32 xs) lower upper PyNone PyNone)
  = PyRaise (TypeError "unsupported operand type(s)").
Proof.
  intros [[-> ->] | [(a & b & -> & ->) | (a & b & -> & ->)]]; try reflexivity.
  unfold scale, py_sub, py_div, py_mul, py_add, npval_number.
  change (np_arith Z.sub SFsub PyNone PyNone)
    with (PyRaise (TypeError "unsupported operand type(s)")).
  change (np_arith Z.sub SFsub (PyFloat b) (PyFloat a))
    with (PyFloat (SFsub 53 1024 (sf_cast Double b) (sf_cast Double a))).
  set (w := SFsub 53 1024 _ _).
  cbv [np_arith view_of float_op float_type is_array andb against_array hd].
  destruct (needs_float64 a);
    cbv [mk_float np_div view_of py_zero_divisor float_op float_type is_array
         andb against_array hd];
    try destruct (needs_float64 w); reflexivity.
Qed.

(** X16: with the target bounds of the module at [None], the value the
    module gives them and that none of its functions changes, [process]
    raises a TypeError on the first slice file it reads and writes nothing
    (the output being absent), whether the initial bounds are [None], two
    Python floats or two float32 scalars. *)
Theorem process_unset_target_bounds (args : args_t) (md : metadata) (st : state)
    (f : string) (rest : list string) (bs : list byte) :
  TARGET_LOWER_BOUND st = PyNone -> TARGET_UPPER_BOUND st = PyNone ->
  ((INITIAL_LOWER_BOUND st = PyNone /\ INITIAL_UPPER_BOUND st = PyNone) \/
   (exists a b, INITIAL_LOWER_BOUND st = PyFloat a /\ INITIAL_UPPER_BOUND st = PyFloat b) \/
   (exists a b, INITIAL_LOWER_BOUND st = NpFloat32 a /\
                INITIAL_UPPER_BOUND st = NpFloat32 b)) ->
  files st !! output args = None ->
  datafiles md = f :: rest ->
  files st !! path_join (cwd args) f = Some (Raw bs) ->
  process args md st = (Raise (TypeError "unsupported operand type(s)"), st).
Proof.
  intros Hc Hd Hab Hout Hfiles Hf.
  rewrite (process_without_output args md st Hout), Hfiles.
  cbn [process_loop]. unfold bind, open_rb, gets, lift. rewrite Hf, Hc, Hd.
  rewrite (scale_none_target _ _ _ Hab). reflexivity.
Qed.

Section MainOutcome.

Variable dat_bitdepth : npval -> res string.
Variable dat_write_dtype : string.
Variable dat_write_model : string.

(** X21: on a first header that [read_nsihdr] reads and that declares a bit
    depth, [main] ends on an exception before [process]: when the output
    volume exists and the force flag is not set, [SystemExit(0)] after an
    INFO record; otherwise the UnboundLocalError of the read of its local
    INITIAL_LOWER_BOUND, logged as an error (after a WARNING record when the
    output volume exists). *)
Theorem main_first_header_outcome (args : args_t) (st st1 : state) (f : string)
    (rest : list string) (md : metadata) (n : Z) :
  a_files args = f :: rest ->
  read_nsihdr dat_bitdepth f st = (Ok md, st1) ->
  bit_depth md = PyInt n -> 0 <= n ->
  let out := path_join (dirname f) (basename (fst (splitext f)) +:+ ".raw") in
  main dat_bitdepth dat_write_dtype dat_write_model args st
  = if bool_decide (is_Some (files st !! out)) then
      if force args then
        (Raise (UnboundLocalError "INITIAL_LOWER_BOUND"),
         add_log (LogExn (UnboundLocalError "INITIAL_LOWER_BOUND"))
           (add_log (Log WARNING ("FileExistsWarning - " +:+ out +:+
                                  ". File will be overwritten.") []) st1))
      else
        (Raise (SystemExit 0),
         add_log (Log INFO ("File already exists. Skipping " +:+ out +:+ ".") []) st1)
    else
      (Raise (UnboundLocalError "INITIAL_LOWER_BOUND"),
       add_log (LogExn (UnboundLocalError "INITIAL_LOWER_BOUND")) st1).
Proof.
  intros Hfiles Hread Hbd Hn out.
  pose proof (read_nsihdr_read_only dat_bitdepth f st) as Hdisk.
  rewrite Hread in Hdisk. cbn [snd] in Hdisk.
  unfold main. rewrite Hfiles. cbn [main_loop]. unfold bind at 1.
  unfold main_round. unfold bind at 1. rewrite Hread.
  cbn [bit_depth]. rewrite Hbd. unfold pow2_minus_1.
  destruct (Z.leb_spec 0 n) as [_ | Hneg]; [| lia].
  unfold eval. unfold bind at 1. unfold ret at 1.
  unfold bind at 1. unfold log_and_reraise.
  cbn [m_INITIAL_LOWER_BOUND force cwd filename output].
  fold out. unfold bind at 1. unfold bind at 1. unfold path_exists, gets.
  rewrite <- Hdisk.
  destruct (bool_decide (is_Some (files st1 !! out))).
  - destruct (force args); reflexivity.
  - reflexivity.
Qed.

End MainOutcome.

(** ** The header reader *)

Lemma set_initial_twice (lo hi lo' hi' : npval) (st : state) :
  set_initial lo hi (set_initial lo' hi' st) = set_initial lo hi st.
Proof. reflexivity. Qed.

Lemma float_group_converts (capture : option string) (old : npval) :
  group_converts capture = true ->
  float_group capture old
  = Ok match float_of_group capture with
       | Some v => PyFloat v
       | None => old
       end.
Proof.
  unfold group_converts, float_group, float_of_group.
  destruct capture as [s|]; [| reflexivity].
  destruct (py_float s); [reflexivity | discriminate].
Qed.

Lemma float_group_refuses (capture : option string) (old : npval) :
  group_converts capture = false -> exists e, float_group capture old = Raise e.
Proof.
  unfold group_converts, float_group.
  destruct capture as [s|]; [| discriminate].
  destruct (py_float s) as [v|e]; [discriminate | exists e; reflexivity].
Qed.

(** A round of the loop on a line whose distances convert, and on one with
    a distance that [float] refuses. *)
Lemma read_line_converts (l : hdr_locals) (line : hdr_line) :
  line_converts line = true ->
  read_line l line = Ok (line_locals l line, ln_data_range line).
Proof.
  unfold line_converts. intros H. apply andb_true_iff in H. destruct H as [H1 H2].
  unfold read_line. rewrite (float_group_converts _ _ H1), (float_group_converts _ _ H2).
  reflexivity.
Qed.

Lemma read_line_refuses (l : hdr_locals) (line : hdr_line) :
  line_converts line = false -> exists e, read_line l line = Raise e.
Proof.
  unfold line_converts, read_line. intros H.
  destruct (group_converts (ln_detector_text line)) eqn:H1.
  - rewrite (float_group_converts _ _ H1).
    destruct (float_group_refuses (ln_table_text line)
                (l_source_to_table_distance l) H) as [e ->].
    exists e. reflexivity.
  - destruct (float_group_refuses (ln_detector_text line)
                (l_source_to_detector_distance l) H1) as [e ->].
    exists e. reflexivity.
Qed.


(** The loop ends well only when it got through every line, and then with
    the locals the lines give. *)
Lemma read_lines_ok (document : list hdr_line) :
  forall (l l' : hdr_locals) (st : state),
    fst (read_lines l document st) = Ok l' ->
    lines_read document = document /\ l' = locals_after l document.
Proof.
  induction document as [|line rest IH]; intros l l' st.
  - cbn. intros H. injection H as <-. split; reflexivity.
  - cbn [read_lines lines_read]. destruct (line_converts line) eqn:E.
    + rewrite (read_line_converts l line E). unfold bind at 1. unfold lift. cbn [fst snd].
      unfold bind at 1.
      destruct (ln_data_range line) as [[lower upper]|]; cbn [modify ret];
        intros H; apply IH in H; destruct H as [-> ->]; split; reflexivity.
    + destruct (read_line_refuses l line E) as [e ->]. discriminate.
Qed.

Lemma last_some_In {A B : Type} (f : A -> option B) (l : list A) (b : B) :
  last_some f l = Some b -> exists x, In x l /\ f x = Some b.
Proof.
  induction l as [|x rest IH]; [discriminate |]. cbn [last_some].
  destruct (last_some f rest) as [b'|].
  - intros H. destruct (IH H) as (y & Hy & E). exists y. split; [right; exact Hy | exact E].
  - intros H. exists x. split; [left; reflexivity | exact H].
Qed.

Lemma last_some_app {A B : Type} (f : A -> option B) (l : list A) (x : A) :
  last_some f (l ++ [x])
  = match f x with Some b => Some b | None => last_some f l end.
Proof.
  induction l as [|y rest IH]; cbn [app last_some].
  - destruct (f x); reflexivity.
  - rewrite IH. destruct (f x); [reflexivity |].
    destruct (last_some f rest); reflexivity.
Qed.

Lemma locals_after_snoc (l : hdr_locals) (document : list hdr_line) (line : hdr_line) :
  locals_after l (document ++ [line]) = line_locals (locals_after l document) line.
Proof. unfold locals_after. rewrite fold_left_app. reflexivity. Qed.

(** The locals after the loop, field by field: the last line that matches
    wins, and the names of the data files add up in the order of the lines. *)
Lemma locals_after_fields (l : hdr_locals) (document : list hdr_line) :
  l_source_to_detector_distance (locals_after l document)
  = match last_some ln_detector_distance document with
    | Some v => PyFloat v
    | None => l_source_to_detector_distance l
    end /\
  l_source_to_table_distance (locals_after l document)
  = match last_some ln_table_distance document with
    | Some v => PyFloat v
    | None => l_source_to_table_distance l
    end /\
  l_bit_depth (locals_after l document)
  = match last_some ln_bit_depth document with
    | Some b => PyInt b
    | None => l_bit_depth l
    end /\
  l_dimensions (locals_after l document)
  = match last_some ln_resolution document with
    | Some (x, num_slices, z) => Some (x, z, num_slices)
    | None => l_dimensions l
    end /\
  l_nsidats (locals_after l document) = l_nsidats l ++ omap ln_nsidat document /\
  l_pitch (locals_after l document)
  = match document with [] => l_pitch l | _ => Some (PyFloat pitch_value) end.
Proof.
  induction document as [|line rest IH] using rev_ind.
  - cbn. rewrite app_nil_r. repeat split.
  - rewrite locals_after_snoc, !last_some_app, omap_app.
    destruct IH as (H1 & H2 & H3 & H4 & H5 & H6).
    unfold line_locals. cbn [l_source_to_detector_distance l_source_to_table_distance
                             l_bit_depth l_dimensions l_nsidats l_pitch].
    rewrite H1, H2, H3, H4, H5.
    repeat split.
    + destruct (ln_detector_distance line); reflexivity.
    + destruct (ln_table_distance line); reflexivity.
    + destruct (ln_bit_depth line); reflexivity.
    + destruct (ln_resolution line) as [[[x n] z]|]; reflexivity.
    + destruct (ln_nsidat line) eqn:E; cbn; rewrite E.
      * rewrite <- app_assoc. reflexivity.
      * rewrite app_nil_r. reflexivity.
    + destruct rest; reflexivity.
Qed.

(** [nsidats.sort()] permutes the names and puts them in order. *)
Lemma insert_sorted_perm (x : string) (l : list string) :
  Permutation (insert_sorted x l) (x :: l).
Proof.
  induction l as [|y rest IH]; cbn [insert_sorted]; [reflexivity |].
  destruct (String.leb x y); [reflexivity |].
  rewrite IH. apply perm_swap.
Qed.

Lemma sort_strings_perm (l : list string) : Permutation (sort_strings l) l.
Proof.
  induction l as [|x rest IH]; [reflexivity |].
  cbn [sort_strings fold_right]. fold (sort_strings rest).
  rewrite insert_sorted_perm, IH. reflexivity.
Qed.

Lemma insert_sorted_HdRel (a x : string) (l : list string) :
  string_le a x -> HdRel string_le a l -> HdRel string_le a (insert_sorted x l).
Proof.
  intros Hax Hl. destruct l as [|y rest]; cbn [insert_sorted].
  - constructor. exact Hax.
  - destruct (String.leb x y); constructor; [exact Hax |].
    inversion Hl; assumption.
Qed.

Lemma insert_sorted_sorted (x : string) (l : list string) :
  Sorted string_le l -> Sorted string_le (insert_sorted x l).
Proof.
  induction 1 as [|y rest Hs IH Hd]; cbn [insert_sorted].
  - repeat constructor.
  - destruct (String.leb x y) eqn:E.
    + constructor; [constructor; assumption | constructor; exact E].
    + constructor; [exact IH |].
      apply insert_sorted_HdRel; [| exact Hd].
      destruct (String.leb_total x y) as [H | H]; [congruence | exact H].
Qed.

Lemma sort_strings_sorted (l : list string) : Sorted string_le (sort_strings l).
Proof.
  induction l as [|x rest IH]; [constructor |].
  cbn [sort_strings fold_right]. fold (sort_strings rest).
  apply insert_sorted_sorted, IH.
Qed.

(** Computations that leave the state as it is. *)
Lemma bind_inv {A B : Type} (m : M A) (k : A -> M B) (st : state) (b : B) :
  fst (bind m k st) = Ok b ->
  exists a st', m st = (Ok a, st') /\ fst (k a st') = Ok b.
Proof.
  unfold bind. destruct (m st) as [[a|e] st']; [| discriminate].
  intros H. exists a, st'. split; [reflexivity | exact H].
Qed.


Lemma eval_inv (v a : npval) (st st' : state) :
  eval v st = (Ok a, st') -> a = v /\ st' = st /\ is_raise v = false.
Proof. destruct v; cbn; intros H; inversion H; auto. Qed.


Lemma local_inv {A : Type} (name : string) (v : option A) (a : A) (st st' : state) :
  local name v st = (Ok a, st') -> v = Some a /\ st' = st.
Proof. destruct v; cbn; intros H; inversion H; auto. Qed.


Section HeaderReader.

Variable dat_bitdepth : npval -> res string.


(** What [read_nsihdr] returns, in terms of the locals after its loop. *)
Lemma read_nsihdr_result (st : state) (fp : string) (document : list hdr_line)
    (md : metadata) :
  files st !! fp = Some (Hdr document) ->
  fst (read_nsihdr dat_bitdepth fp st) = Ok md ->
  datafiles md = sort_strings (l_nsidats (locals_after no_locals document)) /\
  source_to_detector_distance md
  = l_source_to_detector_distance (locals_after no_locals document) /\
  source_to_table_distance md
  = l_source_to_table_distance (locals_after no_locals document) /\
  bit_depth md = l_bit_depth (locals_after no_locals document) /\
  l_dimensions (locals_after no_locals document) = Some (dimensions md) /\
  l_pitch (locals_after no_locals document) = Some (pitch md) /\
  resolution md
  = py_mul (py_div (pitch md) (source_to_detector_distance md))
      (source_to_table_distance md) /\
  is_raise (resolution md) = false /\
  is_raise (np_round 2 (py_div (source_to_detector_distance md)
                          (source_to_table_distance md))) = false.
Proof.
  intros Hf. unfold read_nsihdr.
  unfold bind at 1. unfold open_hdr. rewrite Hf. fold no_locals.
  intros H.
  apply bind_inv in H. destruct H as (l & st0 & Hl & H).
  apply (f_equal fst) in Hl. cbn [fst] in Hl.
  apply read_lines_ok in Hl. destruct Hl as [_ ->].
  set (l := locals_after no_locals document) in *.
  apply bind_inv in H. destruct H as (p & st1 & Hp & H). apply local_inv in Hp.
  apply bind_inv in H. destruct H as (r & st2 & Hr & H). apply eval_inv in Hr.
  apply bind_inv in H. destruct H as (rr & st3 & Hrr & H).
  apply bind_inv in H. destruct H as (z & st4 & Hz & H). apply eval_inv in Hz.
  apply bind_inv in H. destruct H as (t & st5 & Ht & H).
  apply bind_inv in H. destruct H as (o & st6 & Ho & H).
  apply bind_inv in H. destruct H as (dims & st7 & Hd & H). apply local_inv in Hd.
  cbn in H. injection H as <-. cbn.
  destruct Hp as [Hp _], Hr as (-> & _ & Hr), Hz as (_ & _ & Hz), Hd as [Hd _].
  repeat split; trivial.
Qed.

(** X17: [read_nsihdr] returns metadata only for a header that declares a
    source to detector distance, a source to table distance and a
    resolution; the metadata hold the values of the last line that declares
    each, both distances are not zero, and the resolution x, num_slices, z
    of the header is returned as the dimensions x, z, num_slices. *)
Theorem read_nsihdr_required_fields (st : state) (fp : string)
    (document : list hdr_line) (md : metadata) :
  files st !! fp = Some (Hdr document) ->
  fst (read_nsihdr dat_bitdepth fp st) = Ok md ->
  exists (sdd std : spec_float) (x num_slices z : nat),
    last_some ln_detector_distance document = Some sdd /\
    source_to_detector_distance md = PyFloat sdd /\ is_zero sdd = false /\
    last_some ln_table_distance document = Some std /\
    source_to_table_distance md = PyFloat std /\ is_zero std = false /\
    last_some ln_resolution document = Some (x, num_slices, z) /\
    dimensions md = (x, z, num_slices).
Proof.
  intros Hf Hok.
  destruct (read_nsihdr_result st fp document md Hf Hok)
    as (_ & Hsdd & Hstd & _ & Hdims & Hp & Hres & Hr & Hz).
  destruct (locals_after_fields no_locals document)
    as (F1 & F2 & _ & F4 & _ & F6).
  rewrite F1 in Hsdd. rewrite F2 in Hstd. rewrite F4 in Hdims. rewrite F6 in Hp.
  cbn [no_locals l_source_to_detector_distance l_source_to_table_distance
       l_dimensions l_pitch] in *.
  assert (Hpitch : pitch md = PyFloat pitch_value).
  { destruct document; [discriminate Hp | congruence]. }
  rewrite Hres, Hpitch in Hr. clear Hres Hp.
  destruct (last_some ln_detector_distance document) as [sdd|];
    [| rewrite Hsdd in Hr; discriminate Hr].
  destruct (last_some ln_table_distance document) as [std|].
  2:{ rewrite Hsdd, Hstd in Hr. cbn in Hr. destruct (is_zero sdd); discriminate Hr. }
  destruct (last_some ln_resolution document) as [[[x n] z]|]; [| discriminate Hdims].
  exists sdd, std, x, n, z. rewrite Hsdd, Hstd in *.
  injection Hdims as <-.
  assert (Zsdd : is_zero sdd = false).
  { cbn in Hr. destruct (is_zero sdd); [discriminate Hr | reflexivity]. }
  assert (Zstd : is_zero std = false).
  { cbn in Hz. destruct (is_zero std); [discriminate Hz | reflexivity]. }
  repeat split; trivial.
Qed.

(** X18: the data files [read_nsihdr] returns are the names the lines of
    the header declare, each as often as it is declared, in ascending order
    of code points. *)
Theorem read_nsihdr_datafiles_sorted (st : state) (fp : string)
    (document : list hdr_line) (md : metadata) :
  files st !! fp = Some (Hdr document) ->
  fst (read_nsihdr dat_bitdepth fp st) = Ok md ->
  Sorted string_le (datafiles md) /\
  Permutation (datafiles md) (omap ln_nsidat document).
Proof.
  intros Hf Hok.
  destruct (read_nsihdr_result st fp document md Hf Hok) as (-> & _).
  destruct (locals_after_fields no_locals document) as (_ & _ & _ & _ & -> & _).
  cbn [no_locals l_nsidats app].
  split; [apply sort_strings_sorted | apply sort_strings_perm].
Qed.

End HeaderReader.

(** ** The command of the converter *)

Lemma endswith_refl (s : string) : endswith s s = true.
Proof. destruct s; cbn [endswith]; rewrite String.eqb_refl; reflexivity. Qed.

Lemma endswith_app (a s : string) : endswith (a +:+ s) s = true.
Proof.
  induction a as [|x a IH]; [apply endswith_refl |].
  change (String x a +:+ s) with (String x (a +:+ s)). cbn [endswith].
  rewrite IH. apply orb_true_r.
Qed.

Lemma output_dat_path_suffix (dat_fp file_format : string) :
  endswith (output_dat_path dat_fp file_format) ".dat" = true.
Proof.
  unfold output_dat_path. rewrite <- !string_app_assoc. apply endswith_app.
Qed.

Section ConvertMainProofs.

Variable determine_bit_depth :
  gmap string fcontent -> string -> nat * nat * nat -> res string.
Variable os_walk : gmap string fcontent -> string -> list string.
Variable set_order : list string -> list string.

(** [convert] leaves every file that exists as it is, a DAT file apart. *)
Lemma convert_keeps_existing (fp dat_fp fmt : string) (st : state)
    (p : string) (c : fcontent) :
  endswith p ".dat" = false -> files st !! p = Some c ->
  files (snd (convert determine_bit_depth fp dat_fp fmt st)) !! p = Some c.
Proof.
  intros Hp Hc.
  destruct (decide (p = output_path fp fmt)) as [-> | Hop].
  - rewrite convert_exists_read_only; [exact Hc | rewrite Hc; eauto].
  - rewrite (convert_touches determine_bit_depth fp dat_fp fmt st p); [exact Hc |].
    intros [E | [E | []]]; [congruence |].
    subst p. rewrite output_dat_path_suffix in Hp. discriminate Hp.
Qed.

Lemma convert_volumes_keep_existing (fmt : string) (volumes : list (string * string))
    (p : string) (c : fcontent) :
  endswith p ".dat" = false ->
  forall st, files st !! p = Some c ->
    files (snd (convert_volumes determine_bit_depth fmt volumes st)) !! p = Some c.
Proof.
  intros Hp. induction volumes as [|[v d] rest IH]; intros st Hc; [exact Hc |].
  cbn [convert_volumes]. unfold bind.
  pose proof (convert_keeps_existing v d fmt st p c Hp Hc) as H1.
  destruct (convert determine_bit_depth v d fmt st) as [[[]|e] st1]; cbn [snd] in *.
  - apply IH, H1.
  - exact H1.
Qed.

(** X14: the command of the converter never alters a file that exists,
    the DAT files apart: whatever the paths and the format requested, and
    whatever [os.walk] yields, a path that held a file before [main] and
    does not end in ".dat" holds the same content after it. *)
Theorem convert_main_keeps_existing (path : list string) (format : string)
    (st : state) (p : string) (c : fcontent) :
  endswith p ".dat" = false -> files st !! p = Some c ->
  files (snd (convert_main determine_bit_depth os_walk set_order path format st)) !! p
  = Some c.
Proof.
  intros Hp Hc. unfold convert_main, bind, gets, logging, modify. cbn [fst snd].
  apply convert_volumes_keep_existing; [exact Hp | exact Hc].
Qed.

End ConvertMainProofs.

(** ** Rescaling float32 samples *)

Lemma int_fits_16_64 (z : Z) : int_fits_16 z = true -> int_fits_64 z = true.
Proof.
  unfold int_fits_16. intros H. apply andb_true_iff in H. destruct H as [H1 H2].
  apply Z.leb_le in H1. apply Z.leb_le in H2. apply int_fits_64_spec. lia.
Qed.

(** The two Python integers are small ones, so that the array stays in
    float32. *)
Lemma scale_float32_np_array (xs : list spec_float) (a b : spec_float) (c d : Z) :
  int_fits_16 (d - c) = true -> int_fits_16 c = true ->
  scale (NdFloat32 xs) (NpFloat32 a) (NpFloat32 b) (PyInt c) (PyInt d)
  = NdFloat32 (map (rescale_float32 a b c d) xs).
Proof.
  intros Hdc Hc.
  cbv [scale py_sub py_div py_mul py_add npval_number np_arith np_div
       view_of uint_op float_op float_type is_array broadcast as_floats mk_float
       py_zero_divisor hd andb orb prec_of emax_of fmt_eqb fmt_max against_array].
  rewrite (int_fits_16_64 _ Hdc), Hdc.
  cbv [view_of float_op float_type is_array broadcast as_floats mk_float hd
       prec_of emax_of].
  rewrite (int_fits_16_64 _ Hc), Hc.
  cbn [map]. rewrite !map_map. reflexivity.
Qed.

(** A finite number minus itself is [+0.0]; divided by itself, it is 1.0. *)
Lemma SFsub_diag (x : spec_float) :
  match x with S754_zero _ | S754_finite _ _ _ => True | _ => False end ->
  SFsub 24 128 x x = S754_zero false.
Proof.
  destruct x as [[]| | |s m e]; intros H; try contradiction; try reflexivity.
  unfold SFsub. cbv zeta. rewrite Z.sub_diag. reflexivity.
Qed.

Lemma div_eucl_shift (m : positive) :
  Z.div_eucl (Z.shiftl (Z.pos m) 24) (Z.pos m) = (2 ^ 24, 0).
Proof.
  rewrite Z.shiftl_mul_pow2 by lia.
  pose proof (Z.div_eucl_eq (Z.pos m * 2 ^ 24) (Z.pos m) ltac:(lia)) as E.
  pose proof (Z.mod_pos_bound (Z.pos m * 2 ^ 24) (Z.pos m) ltac:(lia)) as B.
  unfold Z.modulo in B.
  destruct (Z.div_eucl (Z.pos m * 2 ^ 24) (Z.pos m)) as [q r].
  assert (r = 0 /\ q = 2 ^ 24) as [-> ->]; [| reflexivity].
  assert (Hr : Z.pos m * (2 ^ 24 - q) = r) by lia.
  assert (2 ^ 24 - q = 0) by nia. split; nia.
Qed.

Lemma SFdiv_diag (s : bool) (m : positive) (e : Z) :
  SFdiv 24 128 (S754_finite s m e) (S754_finite s m e) = sf_of_Z Single 1.
Proof.
  unfold SFdiv, SFdiv_core_binary. cbv zeta.
  replace (Zdigits2 (Z.pos m) + e - (Zdigits2 (Z.pos m) + e)) with 0 by lia.
  replace (e - e) with 0 by lia.
  change (fexp 24 128 0 `min` 0) with (-24).
  change (0 - -24) with 24.
  change IntDef.Z.div_eucl with Z.div_eucl.
  cbv iota. rewrite div_eucl_shift.
  assert (Hl : new_location (Z.pos m) 0 = loc_Exact).
  { unfold new_location. destruct (IntDef.Z.even (Z.pos m)); reflexivity. }
  rewrite Hl. destruct s; reflexivity.
Qed.

Lemma rescale_float32_lower (a b : spec_float) (s : bool) (m : positive) (e : Z)
    (w : Z) :
  w = 8 \/ w = 16 ->
  float32_width a b = S754_finite s m e ->
  cast_uint w (rescale_float32 a b 0 (2 ^ w - 1) a) = 0.
Proof.
  intros Hw Hwidth. unfold rescale_float32. rewrite Hwidth.
  assert (Ha : match sf_cast Single a with
               | S754_zero _ | S754_finite _ _ _ => True
               | _ => False
               end).
  { unfold float32_width in Hwidth.
    destruct (sf_cast Single a) as [| [] | |]; try exact I;
      destruct (sf_cast Single b) as [| [] | |]; discriminate Hwidth. }
  rewrite (SFsub_diag _ Ha).
  destruct Hw as [-> | ->]; destruct s; reflexivity.
Qed.

Lemma rescale_float32_upper (a b : spec_float) (s : bool) (m : positive) (e : Z)
    (w : Z) :
  w = 8 \/ w = 16 ->
  float32_width a b = S754_finite s m e ->
  cast_uint w (rescale_float32 a b 0 (2 ^ w - 1) b) = 2 ^ w - 1.
Proof.
  intros Hw Hwidth. unfold rescale_float32. fold (float32_width a b).
  rewrite Hwidth, SFdiv_diag.
  destruct Hw as [-> | ->]; reflexivity.
Qed.

Lemma astype_uint_name (fmt : string) (v : npval) :
  is_uint_name fmt = true -> astype fmt v = astype_uint (uint_bits fmt) v.
Proof.
  intros H. unfold is_uint_name in H. apply orb_true_iff in H.
  destruct H as [E | E]; apply String.eqb_eq in E; subst fmt; reflexivity.
Qed.

Lemma np_iinfo_uint (fmt : string) :
  is_uint_name fmt = true ->
  np_iinfo fmt = (PyInt 0, PyInt (2 ^ uint_bits fmt - 1)) /\
  (uint_bits fmt = 8 \/ uint_bits fmt = 16).
Proof.
  intros H. unfold is_uint_name in H. apply orb_true_iff in H.
  destruct H as [E | E]; apply String.eqb_eq in E; subst fmt; split; auto.
Qed.

(** X8: in the conversion of a float32 volume to uint8 or uint16, where
    the input range is the pair [a], [b] of float32 scalars and the output
    range the range of the integer type, [scale] followed by the cast sends
    the sample [a] to 0 and the sample [b] to the maximum of the type, as
    soon as [b - a], computed in float32, is finite and not zero. *)
Theorem scale_float32_endpoints (a b : spec_float) (s : bool) (m : positive) (e : Z)
    (fmt : string) :
  is_uint_name fmt = true ->
  float32_width a b = S754_finite s m e ->
  astype fmt
    (scale (NdFloat32 [a; b]) (NpFloat32 a) (NpFloat32 b)
       (fst (np_iinfo fmt)) (snd (np_iinfo fmt)))
  = NdUInt (uint_bits fmt) [0; 2 ^ uint_bits fmt - 1].
Proof.
  intros Hfmt Hwidth. destruct (np_iinfo_uint fmt Hfmt) as [-> Hw]. cbn [fst snd].
  rewrite scale_float32_np_array
    by (destruct Hw as [E | E]; rewrite ?E; reflexivity).
  rewrite (astype_uint_name fmt _ Hfmt).
  cbn [astype_uint map].
  rewrite (rescale_float32_lower a b s m e _ Hw Hwidth).
  rewrite (rescale_float32_upper a b s m e _ Hw Hwidth). reflexivity.
Qed.

(** ** Runs of the converter on float32 volumes *)

Section ChunkedLoop.

(** A conversion that gives the bytes [out buffer] for a buffer of whole
    items of [isz] bytes. *)
Variables (bd fmt : string) (a b c d : npval) (isz : nat)
          (out : list byte -> list byte).
Hypothesis out_chunk :
  forall buffer, (length buffer mod isz = 0)%nat ->
    convert_chunk bd fmt a b c d buffer = Ok (out buffer).
Hypothesis out_app :
  forall c1 c2, (length c1 mod isz = 0)%nat -> out (c1 ++ c2) = out c1 ++ out c2.
Hypothesis out_nil : out [] = [].

Lemma convert_loop_whole (op : string) (buffers : list (list byte)) :
  Forall (fun buffer => (length buffer mod isz = 0)%nat) buffers ->
  forall (st : state) (old : list byte),
    files st !! op = Some (Raw old) ->
    fst (convert_loop op bd fmt a b c d buffers st) = Ok tt /\
    files (snd (convert_loop op bd fmt a b c d buffers st))
    = <[op := Raw (old ++ out (concat buffers))]> (files st).
Proof.
  induction 1 as [|buffer rest Hb Hrest IH]; intros st old Hop.
  - cbn. rewrite out_nil, app_nil_r. split; [reflexivity |].
    symmetry. apply insert_id, Hop.
  - rewrite (convert_loop_step op bd fmt a b c d buffer rest _ old st
               (out_chunk buffer Hb) Hop).
    set (st1 := set_files _ st).
    assert (Hop1 : files st1 !! op = Some (Raw (old ++ out buffer)))
      by apply lookup_insert_eq.
    destruct (IH st1 _ Hop1) as (R & F). split; [exact R |].
    rewrite F. subst st1. cbn [files set_files].
    rewrite insert_insert_eq. cbn [concat].
    rewrite (out_app buffer _ Hb), <- app_assoc. reflexivity.
Qed.

End ChunkedLoop.

Lemma fromfile_f32_app (c1 c2 : list byte) :
  (length c1 mod 4 = 0)%nat ->
  fromfile_f32 (c1 ++ c2) = fromfile_f32 c1 ++ fromfile_f32 c2.
Proof.
  induction c1 as [c1 IH] using (induction_ltof1 _ (@length byte)).
  unfold ltof in IH. intros H.
  destruct c1 as [|b0 [|b1 [|b2 [|b3 rest]]]]; try (cbn in H; discriminate H).
  - reflexivity.
  - cbn [app fromfile_f32]. rewrite (IH rest).
    + reflexivity.
    + cbn. lia.
    + change (length (b0 :: b1 :: b2 :: b3 :: rest)) with (4 + length rest)%nat in H.
      rewrite mod_step in H. exact H.
Qed.

Lemma frombuffer_float32 (c : list byte) :
  (length c mod 4 = 0)%nat -> frombuffer "float32" c = Ok (NdFloat32 (fromfile_f32 c)).
Proof.
  intros H. change (frombuffer "float32" c)
    with (match frombuffer_f32 c with Ok xs => Ok (NdFloat32 xs) | Raise e => Raise e end).
  rewrite (frombuffer_f32_whole c H). reflexivity.
Qed.

(** The bytes of an array of unsigned samples, and the array read back. *)
Lemma tobytes_uint (fmt : string) (zs : list Z) :
  is_uint_name fmt = true ->
  tobytes (NdUInt (uint_bits fmt) zs) = Ok (flat_map (encode_uint (uint_bits fmt)) zs).
Proof.
  intros H. unfold is_uint_name in H. apply orb_true_iff in H.
  destruct H as [E | E]; apply String.eqb_eq in E; subst fmt.
  - change (uint_bits "uint8") with 8. cbn [tobytes].
    change (encode_uint 8) with (fun z => [byte_of_Z z]).
    rewrite flat_map_singleton. reflexivity.
  - reflexivity.
Qed.

Lemma frombuffer_encoded_uint (fmt : string) (zs : list Z) :
  is_uint_name fmt = true ->
  (forall z, In z zs -> 0 <= z < 2 ^ uint_bits fmt) ->
  frombuffer fmt (flat_map (encode_uint (uint_bits fmt)) zs)
  = Ok (NdUInt (uint_bits fmt) zs).
Proof.
  intros H Hz. unfold is_uint_name in H. apply orb_true_iff in H.
  destruct H as [E | E]; apply String.eqb_eq in E; subst fmt.
  - change (uint_bits "uint8") with 8 in *.
    rewrite frombuffer_uint8. do 2 f_equal.
    change (encode_uint 8) with (fun z => [byte_of_Z z]).
    rewrite flat_map_singleton, map_map. rewrite <- (map_id zs) at 2.
    apply map_ext_in. intros z Hin. rewrite byte_to_of_Z.
    apply Z.mod_small. apply Hz in Hin. change (2 ^ 8) with 256 in Hin. exact Hin.
  - change (uint_bits "uint16") with 16 in *.
    change (encode_uint 16) with le16.
    rewrite frombuffer_uint16 by apply length_encoded_u16.
    do 2 f_equal. rewrite <- (map_id zs) at 2.
    apply (words_u16_encoded (fun z => z)). exact Hz.
Qed.

(** Where C defines the cast, it gives the integral part. *)
Lemma cast_uint_castable (w : Z) (x : spec_float) :
  w = 8 \/ w = 16 -> castable w x = true ->
  cast_uint w x = sf_trunc x /\ 0 <= sf_trunc x < 2 ^ w.
Proof.
  intros Hw H.
  assert (Hz : 0 <= sf_trunc x < 2 ^ w).
  { destruct x; try discriminate H; cbn [castable] in H;
      apply andb_true_iff in H; destruct H as [H1 H2];
      apply Z.leb_le in H1; apply Z.ltb_lt in H2; split; assumption. }
  split; [| exact Hz].
  assert (H31 : 2 ^ w <= 2 ^ 31) by (destruct Hw as [-> | ->]; lia).
  assert (Hfits : (- 2 ^ 31 <=? sf_trunc x) && (sf_trunc x <? 2 ^ 31) = true).
  { apply andb_true_iff. split; [apply Z.leb_le | apply Z.ltb_lt]; lia. }
  unfold cast_uint. cbv zeta.
  destruct x; try discriminate H; rewrite Hfits; apply Z.mod_small; exact Hz.
Qed.

Section ConvertFloat32.

Variable determine_bit_depth :
  gmap string fcontent -> string -> nat * nat * nat -> res string.

(** X9: a volume inferred as float32 and converted to uint8 or uint16 (its
    output path being free, a slice holding at least one sample and the file
    a whole number of samples): the scan of the range succeeds and the
    conversion writes an output volume. When every sample, rescaled in
    float32 from the range scanned to the range of the integer type, has its
    integral part in the integer type, so that the cast is defined, the
    output volume holds at each position the integral part of the rescaled
    input sample. *)
Theorem convert_float32_to_uint (st : state) (fp dat_fp fmt : string)
    (d : dat_record) (bs : list byte) (xs : list spec_float) :
  files st !! fp = Some (Raw bs) ->
  files st !! dat_fp = Some (Dat d) ->
  determine_bit_depth (files st) fp (xdim d, ydim d, zdim d) = Ok "float32" ->
  is_uint_name fmt = true ->
  files st !! output_path fp fmt = None ->
  (0 < xdim d * ydim d)%nat ->
  frombuffer_f32 bs = Ok xs ->
  exists (minimum maximum : spec_float) (out : list byte),
    fst (find_float_range fp (Some (xdim d * ydim d * 4)%nat) st)
    = Ok (minimum, maximum) /\
    fst (convert determine_bit_depth fp dat_fp fmt st) = Ok tt /\
    files (snd (convert determine_bit_depth fp dat_fp fmt st)) !! output_path fp fmt
    = Some (Raw out) /\
    (Forall (fun x =>
               castable (uint_bits fmt)
                 (rescale_float32 minimum maximum 0 (2 ^ uint_bits fmt - 1) x)
               = true) xs ->
     frombuffer fmt out
     = Ok (NdUInt (uint_bits fmt)
             (map (fun x =>
                     sf_trunc (rescale_float32 minimum maximum
                                 0 (2 ^ uint_bits fmt - 1) x)) xs))).
Proof.
  intros Hfp Hdat Hbd Hfmt Hfree Hxy Hxs.
  pose proof (frombuffer_f32_length bs xs Hxs) as Hlen.
  assert (Hlen4 : (length bs mod 4 = 0)%nat).
  { rewrite Hlen, Nat.mul_comm. apply Nat.Div0.mod_mul. }
  rewrite (frombuffer_f32_whole bs Hlen4) in Hxs. injection Hxs as <-.
  set (n := (xdim d * ydim d * 4)%nat).
  assert (Hn : (0 < n)%nat) by (subst n; lia).
  assert (Hwb : whole_buffers 4 n (length bs) = true).
  { unfold whole_buffers. rewrite Hlen4. subst n. rewrite Nat.Div0.mod_mul. reflexivity. }
  pose proof (scanner_outcome st fp bs n Hfp Hn) as Hscan. rewrite Hwb in Hscan.
  destruct Hscan as [[minimum maximum] Hscan].
  assert (Hrun : find_float_range fp (Some n) st
                 = (Ok (minimum, maximum),
                    add_log (Log INFO "Range: [{}, {}]"
                               [NpFloat32 minimum; NpFloat32 maximum]) st)).
  { rewrite (find_float_range_run st fp bs n Hfp) in Hscan |- *.
    destruct (scan_chunks _ _ _) as [r|]; [| discriminate Hscan].
    cbn in Hscan. injection Hscan as ->. reflexivity. }
  set (st0 := add_log _ st) in Hrun.
  set (w := uint_bits fmt).
  set (g := fun x => cast_uint w (rescale_float32 minimum maximum 0 (2 ^ w - 1) x)).
  set (out := fun buffer : list byte => flat_map (encode_uint w) (map g (fromfile_f32 buffer))).
  exists minimum, maximum, (out bs).
  split; [rewrite Hrun; reflexivity |].
  destruct (np_iinfo_uint fmt Hfmt) as [Hinfo Hw].
  assert (Hne : String.eqb fmt "float32" = false).
  { apply String.eqb_neq. intros ->. discriminate Hfmt. }
  set (op := output_path fp fmt).
  set (st1 := set_files (fun fs => <[op := Raw []]> fs) st0).
  assert (Hop1 : files st1 !! op = Some (Raw [])) by apply lookup_insert_eq.
  assert (Hwhole : Forall (fun c => (length c mod 4 = 0)%nat) (read_chunks n bs)).
  { apply (read_chunks_aux_whole 4 n (length bs) bs Hn (le_n _)). exact Hwb. }
  destruct (convert_loop_whole "float32" fmt (NpFloat32 minimum) (NpFloat32 maximum)
              (PyInt 0) (PyInt (2 ^ w - 1)) 4 out) with (op := op)
              (buffers := read_chunks n bs) (st := st1) (old := @nil byte)
    as (R & F); trivial.
  { intros buffer Hb. unfold convert_chunk. rewrite (frombuffer_float32 buffer Hb).
    rewrite scale_float32_np_array
      by (unfold w; destruct Hw as [E | E]; rewrite ?E; reflexivity).
    rewrite (astype_uint_name fmt _ Hfmt).
    cbn [astype_uint]. fold w. rewrite map_map. apply (tobytes_uint fmt _ Hfmt). }
  { intros c1 c2 Hc. unfold out. rewrite (fromfile_f32_app c1 c2 Hc), map_app.
    apply flat_map_app. }
  rewrite (read_chunks_concat n bs Hn) in F. cbn [app] in F.
  destruct (convert determine_bit_depth fp dat_fp fmt st) as [r st'] eqn:Hconv.
  unfold convert in Hconv.
  rewrite (bind_ok _ _ st st d) in Hconv
    by (unfold dat_read; rewrite Hdat; reflexivity).
  cbn zeta in Hconv.
  rewrite (bind_ok _ _ st st "float32") in Hconv by (rewrite Hbd; reflexivity).
  rewrite Hne in Hconv.
  rewrite (bind_ok (path_exists _) _ st st false) in Hconv.
  2:{ unfold path_exists, gets. rewrite bool_decide_false; [reflexivity |].
      rewrite Hfree. intros [? ?]. discriminate. }
  change (np_itemsize "float32") with (Some 4%nat) in Hconv.
  change (is_uint_name "float32") with false in Hconv.
  change (String.eqb "float32" "float32") with true in Hconv.
  cbn match in Hconv.
  rewrite (bind_ok (ret 4%nat) _ st st 4%nat) in Hconv by reflexivity.
  fold n in Hconv.
  rewrite (bind_ok _ _ st st0 (NpFloat32 minimum, NpFloat32 maximum)) in Hconv
    by (unfold bind; rewrite Hrun; reflexivity).
  rewrite Hfmt, Hinfo in Hconv.
  rewrite (bind_ok (ret _) _ st0 st0 (PyInt 0, PyInt (2 ^ uint_bits fmt - 1))) in Hconv
    by reflexivity.
  rewrite (bind_ok (open_rb fp) _ st0 st0 bs) in Hconv
    by (unfold open_rb; subst st0; cbn [files add_log]; rewrite Hfp; reflexivity).
  cbn [fst snd] in Hconv. fold op w in Hconv.
  unfold bind, open_wb, modify in Hconv. fold st1 in Hconv.
  destruct (convert_loop op "float32" fmt _ _ _ _ _ st1) as [r2 st2].
  cbn [fst snd] in R, F. subst r2.
  unfold dat_write, modify in Hconv. injection Hconv as <- <-.
  cbn [fst snd files set_files].
  split; [reflexivity |]. split.
  - rewrite lookup_insert_ne by (symmetry; apply output_paths_differ).
    rewrite F. apply lookup_insert_eq.
  - intros Hcast. unfold out.
    assert (Hg : map g (fromfile_f32 bs)
                 = map (fun x => sf_trunc (rescale_float32 minimum maximum
                                             0 (2 ^ w - 1) x)) (fromfile_f32 bs)).
    { apply map_ext_in. intros x Hx. rewrite List.Forall_forall in Hcast.
      apply (cast_uint_castable w _ Hw), Hcast, Hx. }
    rewrite Hg. apply (frombuffer_encoded_uint fmt _ Hfmt).
    intros z Hz. apply in_map_iff in Hz. destruct Hz as (x & <- & Hx).
    rewrite List.Forall_forall in Hcast.
    apply (cast_uint_castable w _ Hw), Hcast, Hx.
Qed.

End ConvertFloat32.

(** ** The paths of the metadata writer *)

Lemma rsplit_at_absent (c : ascii) (s : string) :
  has_char c s = false -> rsplit_at c s = None.
Proof.
  induction s as [|a s IH]; [reflexivity |]. cbn [has_char rsplit_at].
  intros H. apply orb_false_iff in H. destruct H as [Ha Hs].
  rewrite (IH Hs), Ha. reflexivity.
Qed.

Lemma rsplit_at_last (c : ascii) (h t : string) :
  has_char c t = false -> rsplit_at c (h +:+ String c t) = Some (h, t).
Proof.
  intros Ht. induction h as [|a h IH].
  - change (EmptyString +:+ String c t) with (String c t). cbn [rsplit_at].
    rewrite (rsplit_at_absent c t Ht), Ascii.eqb_refl. reflexivity.
  - change (String a h +:+ String c t) with (String a (h +:+ String c t)).
    cbn [rsplit_at]. rewrite IH. reflexivity.
Qed.

Lemma has_char_app (c : ascii) (a b : string) :
  has_char c (a +:+ b) = has_char c a || has_char c b.
Proof.
  induction a as [|x a IH]; [reflexivity |].
  change (String x a +:+ b) with (String x (a +:+ b)). cbn [has_char].
  rewrite IH. apply orb_assoc.
Qed.

Lemma all_char_absent (c : ascii) (s : string) :
  s <> EmptyString -> has_char c s = false -> all_char c s = false.
Proof.
  destruct s as [|a s]; [congruence |]. cbn [has_char all_char].
  intros _ H. apply orb_false_iff in H. destruct H as [-> _]. reflexivity.
Qed.

(** [os.path.splitext] on [dir/name.ext], for a plain name. *)
Lemma splitext_plain (dir name ext : string) :
  name <> EmptyString ->
  has_char "/" name = false -> has_char "." name = false ->
  has_char "/" ext = false -> has_char "." ext = false ->
  splitext (dir +:+ "/" +:+ name +:+ "." +:+ ext)
  = (dir +:+ "/" +:+ name, String "." ext).
Proof.
  intros Hne Hs Hd Hes Hed. unfold splitext.
  change (dir +:+ "/" +:+ name +:+ "." +:+ ext)
    with (dir +:+ String "/" (name +:+ String "." ext)).
  rewrite rsplit_at_last.
  2:{ rewrite has_char_app. cbn [has_char]. rewrite Hs, Hes. reflexivity. }
  rewrite (rsplit_at_last "." name ext Hed).
  rewrite (all_char_absent "." name Hne Hd).
  rewrite !string_app_assoc. reflexivity.
Qed.

Lemma path_join_plain (dir b : string) :
  dir <> EmptyString -> has_char "/" dir = false ->
  path_join dir (dir +:+ b) = dir +:+ "/" +:+ dir +:+ b.
Proof.
  intros Hne Hs. unfold path_join.
  rewrite (rsplit_at_absent "/" dir Hs).
  destruct dir as [|a dir']; [congruence |].
  change (String a dir' +:+ b) with (String a (dir' +:+ b)).
  cbn [has_char] in Hs. apply orb_false_iff in Hs. destruct Hs as [Ha _].
  assert (Hform : forall (T : Type) (x y : T),
            match String a (dir' +:+ b) with String "/" _ => x | _ => y end = y).
  { intros T x y. destruct a as [[] [] [] [] [] [] [] []]; try reflexivity.
    discriminate Ha. }
  rewrite Hform. reflexivity.
Qed.

(** X20: for a working directory that is a plain relative name [dir] and
    an output volume [dir/name.raw], as [main] sets them for the header
    [dir/name.nsihdr], [write_metadata] names its DAT file [dir/name.dat]
    but its range file [dir/dir/name.float32.range]: the working directory
    is applied a second time. *)
Theorem write_metadata_paths (args : args_t) (dir name : string) :
  cwd args = dir ->
  output args = dir +:+ "/" +:+ name +:+ ".raw" ->
  dir <> EmptyString -> has_char "/" dir = false ->
  name <> EmptyString -> has_char "/" name = false -> has_char "." name = false ->
  dat_filepath args = dir +:+ "/" +:+ name +:+ ".dat" /\
  bounds_filepath args = dir +:+ "/" +:+ dir +:+ "/" +:+ name +:+ ".float32.range".
Proof.
  intros Hcwd Hout Hd Hds Hn Hns Hnd.
  unfold dat_filepath, bounds_filepath. rewrite Hcwd, Hout.
  change (dir +:+ "/" +:+ name +:+ ".raw") with (dir +:+ "/" +:+ name +:+ "." +:+ "raw").
  rewrite (splitext_plain dir name "raw" Hn Hns Hnd eq_refl eq_refl). cbn [fst].
  split.
  - rewrite !string_app_assoc. reflexivity.
  - rewrite !string_app_assoc. apply (path_join_plain dir _ Hd Hds).
Qed.

Section MetadataWriter.

Variable dat_bitdepth : npval -> res string.
Variable dat_write_dtype : string.
Variable dat_write_model : string.

(** [write_metadata] writes at its two paths. *)
Lemma write_metadata_run (args : args_t) (md : metadata) (st : state) :
  files (snd (write_metadata dat_write_dtype dat_write_model args md st))
  = <[bounds_filepath args :=
        RangeRecord (INITIAL_LOWER_BOUND st) (INITIAL_UPPER_BOUND st)]>
      (<[dat_filepath args :=
           Dat {| xdim := fst (fst (dimensions md));
                  ydim := snd (fst (dimensions md));
                  zdim := snd (dimensions md);
                  x_thickness := fst (fst (as_thickness (resolution_rounded md)));
                  y_thickness := snd (fst (as_thickness (resolution_rounded md)));
                  z_thickness := snd (as_thickness (resolution_rounded md));
                  dat_format := dat_write_dtype; model := dat_write_model |}]>
         (files st)).
Proof.
  unfold write_metadata, bind, dat_write, gets, modify.
  destruct (dimensions md) as [[x y] z], (as_thickness (resolution_rounded md)) as [[tx ty] tz].
  reflexivity.
Qed.

End MetadataWriter.

(** ** Runs on the sample disks *)

Lemma find_float_range_default_partial_witness :
  find_float_range "v.raw" None (on_disk [("v.raw", Raw thousand_bytes)])
  = (Raise buffer_size_error, on_disk [("v.raw", Raw thousand_bytes)]).
Proof.
  apply (find_float_range_default_partial
           (on_disk [("v.raw", Raw thousand_bytes)]) "v.raw" thousand_bytes).
  - reflexivity.
  - vm_compute. lia.
  - left. vm_compute. lia.
Defined.

Lemma convert_uint16_to_uint8_witness :
  fst (convert determine_bit_depth_by_size "/data/w.raw" "/data/w.dat" "uint8"
         sample_disk_uint16) = Ok tt /\
  files (snd (convert determine_bit_depth_by_size "/data/w.raw" "/data/w.dat" "uint8"
                sample_disk_uint16))
    !! output_path "/data/w.raw" "uint8"
    = Some (Raw (map (fun z => byte_of_Z (z / 257)) [256; 770; 65279; 32640])) /\
  files (snd (convert determine_bit_depth_by_size "/data/w.raw" "/data/w.dat" "uint8"
                sample_disk_uint16))
    !! output_dat_path "/data/w.dat" "uint8"
    = Some (Dat {| xdim := xdim sample_dat_uint16; ydim := ydim sample_dat_uint16;
                   zdim := zdim sample_dat_uint16;
                   x_thickness := x_thickness sample_dat_uint16;
                   y_thickness := y_thickness sample_dat_uint16;
                   z_thickness := z_thickness sample_dat_uint16;
                   dat_format := "uint8"; model := model sample_dat_uint16 |}).
Proof.
  apply (convert_uint16_to_uint8 determine_bit_depth_by_size sample_disk_uint16
           "/data/w.raw" "/data/w.dat" sample_dat_uint16 sample_volume
           [256; 770; 65279; 32640]).
  - reflexivity.
  - reflexivity.
  - reflexivity.
  - reflexivity.
  - cbn. lia.
  - reflexivity.
Defined.

Lemma convert_uint8_round_trip_witness :
  fst (convert determine_bit_depth_by_size
         (output_path "/data/v.raw" "uint16") (output_dat_path "/data/v.dat" "uint16")
         "uint8"
         (snd (convert determine_bit_depth_by_size "/data/v.raw" "/data/v.dat" "uint16"
                 sample_disk))) = Ok tt /\
  files (snd (convert determine_bit_depth_by_size
                (output_path "/data/v.raw" "uint16")
                (output_dat_path "/data/v.dat" "uint16") "uint8"
                (snd (convert determine_bit_depth_by_size "/data/v.raw" "/data/v.dat"
                        "uint16" sample_disk))))
    !! output_path (output_path "/data/v.raw" "uint16") "uint8"
    = Some (Raw sample_volume).
Proof.
  apply (convert_uint8_round_trip determine_bit_depth_by_size sample_disk
           "/data/v.raw" "/data/v.dat" sample_dat sample_volume).
  - reflexivity.
  - reflexivity.
  - reflexivity.
  - reflexivity.
  - cbn. lia.
  - vm_compute. reflexivity.
  - vm_compute. reflexivity.
Defined.

Lemma convert_uint_to_float32_witness :
  fst (convert determine_bit_depth_by_size "/data/v.raw" "/data/v.dat" "float32"
         sample_disk) = Ok tt /\
  exists out,
    files (snd (convert determine_bit_depth_by_size "/data/v.raw" "/data/v.dat"
                  "float32" sample_disk))
      !! output_path "/data/v.raw" "float32" = Some (Raw out) /\
    frombuffer_f32 out = Ok (map blown_sample (map byte_to_Z sample_volume)).
Proof.
  apply (convert_uint_to_float32 determine_bit_depth_by_size sample_disk
           "/data/v.raw" "/data/v.dat" "uint8" sample_dat sample_volume 8
           (map byte_to_Z sample_volume)).
  - reflexivity.
  - reflexivity.
  - reflexivity.
  - reflexivity.
  - reflexivity.
  - reflexivity.
  - cbn. lia.
Defined.

Lemma convert_touches_outputs_only_witness :
  files (snd (convert determine_bit_depth_by_size "/data/v.raw" "/data/v.dat" "uint16"
                sample_disk)) !! "/data/v.dat"
  = files sample_disk !! "/data/v.dat".
Proof.
  apply (convert_touches_outputs_only determine_bit_depth_by_size sample_disk
           "/data/v.raw" "/data/v.dat" "uint16" "/data/v.dat").
  - vm_compute. discriminate.
  - vm_compute. discriminate.
Defined.

Lemma convert_keeps_input_witness :
  output_path "/data/v.raw" "uint16" <> "/data/v.raw" /\
  files (snd (convert determine_bit_depth_by_size "/data/v.raw" "/data/v.dat" "uint16"
                sample_disk)) !! "/data/v.raw"
  = files sample_disk !! "/data/v.raw".
Proof.
  apply (convert_keeps_input determine_bit_depth_by_size sample_disk
           "/data/v.raw" "/data/v.dat" "uint16").
  vm_compute. discriminate.
Defined.

Lemma convert_unsupported_output_witness :
  files (snd (convert determine_bit_depth_by_size "/data/v.raw" "/data/v.dat" "int16"
                sample_disk)) = files sample_disk /\
  convert determine_bit_depth_by_size "/data/v.raw" "/data/v.dat" "int16" sample_disk
  = (Raise (ValueError ("Output format, '" +:+ "int16" +:+ "', is not supported.")),
     sample_disk).
Proof.
  destruct (convert_unsupported_output determine_bit_depth_by_size sample_disk
              "/data/v.raw" "/data/v.dat" "int16") as [Hdisk Hraise].
  - reflexivity.
  - split; [exact Hdisk |].
    apply (Hraise sample_dat "uint8"); reflexivity.
Defined.

Lemma convert_unsupported_input_witness :
  convert (fun _ _ _ => Ok "float64") "/data/v.raw" "/data/v.dat" "uint16" sample_disk
  = (Raise (ValueError ("Input format, '" +:+ "float64" +:+ "' , is not supported.")),
     sample_disk).
Proof.
  apply (convert_unsupported_input (fun _ _ _ => Ok "float64") sample_disk
           "/data/v.raw" "/data/v.dat" "uint16" "float64" sample_dat 8%nat).
  - reflexivity.
  - reflexivity.
  - reflexivity.
  - reflexivity.
  - discriminate.
  - discriminate.
  - reflexivity.
Defined.

Lemma process_unset_target_bounds_witness :
  process (process_args false) sample_metadata (on_disk sample_project)
  = (Raise (TypeError "unsupported operand type(s)"), on_disk sample_project).
Proof.
  apply (process_unset_target_bounds (process_args false) sample_metadata
           (on_disk sample_project) "s0.nsidat" ["s1.nsidat"] slice0).
  - reflexivity.
  - reflexivity.
  - left. split; reflexivity.
  - reflexivity.
  - reflexivity.
  - reflexivity.
Defined.

Lemma main_first_header_outcome_witness :
  main sample_bitdepth "uint16" "DENSITY" (sample_args true)
    (on_disk (("/scan/p.raw", Raw [x01]) :: sample_project))
  = (Raise (UnboundLocalError "INITIAL_LOWER_BOUND"),
     add_log (LogExn (UnboundLocalError "INITIAL_LOWER_BOUND"))
       (add_log (Log WARNING ("FileExistsWarning - " +:+ "/scan/p.raw" +:+
                              ". File will be overwritten.") [])
          (snd (read_nsihdr sample_bitdepth "/scan/p.nsihdr"
                  (on_disk (("/scan/p.raw", Raw [x01]) :: sample_project)))))).
Proof.
  exact (main_first_header_outcome sample_bitdepth "uint16" "DENSITY"
           (sample_args true)
           (on_disk (("/scan/p.raw", Raw [x01]) :: sample_project))
           (snd (read_nsihdr sample_bitdepth "/scan/p.nsihdr"
                   (on_disk (("/scan/p.raw", Raw [x01]) :: sample_project))))
           "/scan/p.nsihdr" [] sample_metadata 16
           eq_refl eq_refl eq_refl ltac:(lia)).
Defined.

Lemma main_never_assembles_witness :
  (exists e, fst (main sample_bitdepth "uint16" "DENSITY" (sample_args false)
                    (on_disk sample_project)) = Raise e) /\
  files (snd (main sample_bitdepth "uint16" "DENSITY" (sample_args false)
                (on_disk sample_project)))
  = files (on_disk sample_project).
Proof.
  apply (main_never_assembles sample_bitdepth "uint16" "DENSITY" (sample_args false)
           "/scan/p.nsihdr" [] (on_disk sample_project)).
  reflexivity.
Defined.

Lemma read_nsihdr_required_fields_witness :
  exists (sdd std : spec_float) (x num_slices z : nat),
    last_some ln_detector_distance sample_header = Some sdd /\
    source_to_detector_distance sample_metadata = PyFloat sdd /\
    is_zero sdd = false /\
    last_some ln_table_distance sample_header = Some std /\
    source_to_table_distance sample_metadata = PyFloat std /\
    is_zero std = false /\
    last_some ln_resolution sample_header = Some (x, num_slices, z) /\
    dimensions sample_metadata = (x, z, num_slices).
Proof.
  apply (read_nsihdr_required_fields sample_bitdepth (on_disk sample_project)
           "/scan/p.nsihdr" sample_header sample_metadata).
  - reflexivity.
  - vm_compute. reflexivity.
Defined.

Lemma read_nsihdr_datafiles_sorted_witness :
  Sorted string_le (datafiles sample_metadata) /\
  Permutation (datafiles sample_metadata) (omap ln_nsidat sample_header).
Proof.
  apply (read_nsihdr_datafiles_sorted sample_bitdepth (on_disk sample_project)
           "/scan/p.nsihdr" sample_header sample_metadata).
  - reflexivity.
  - vm_compute. reflexivity.
Defined.


Lemma convert_main_keeps_existing_witness :
  files (snd (convert_main determine_bit_depth_by_size (fun _ _ => []) remove_dups
                ["/data/v.raw"] "uint16" sample_disk)) !! "/data/v.raw"
  = Some (Raw sample_volume).
Proof.
  apply (convert_main_keeps_existing determine_bit_depth_by_size (fun _ _ => [])
           remove_dups ["/data/v.raw"] "uint16" sample_disk "/data/v.raw"
           (Raw sample_volume)).
  - reflexivity.
  - reflexivity.
Defined.

Lemma scale_float32_endpoints_witness :
  astype "uint16"
    (scale (NdFloat32 [S754_zero false; sf_of_Z Single 9])
       (NpFloat32 (S754_zero false)) (NpFloat32 (sf_of_Z Single 9))
       (fst (np_iinfo "uint16")) (snd (np_iinfo "uint16")))
  = NdUInt (uint_bits "uint16") [0; 2 ^ uint_bits "uint16" - 1].
Proof.
  apply (scale_float32_endpoints (S754_zero false) (sf_of_Z Single 9)
           false 9437184 (-20) "uint16").
  - reflexivity.
  - reflexivity.
Defined.

Lemma convert_float32_to_uint_witness :
  exists (minimum maximum : spec_float) (out : list byte),
    fst (find_float_range "/data/f.raw"
           (Some (xdim sample_dat_float32 * ydim sample_dat_float32 * 4)%nat)
           sample_disk_float32)
    = Ok (minimum, maximum) /\
    fst (convert determine_bit_depth_by_size "/data/f.raw" "/data/f.dat" "uint16"
           sample_disk_float32) = Ok tt /\
    files (snd (convert determine_bit_depth_by_size "/data/f.raw" "/data/f.dat"
                  "uint16" sample_disk_float32))
      !! output_path "/data/f.raw" "uint16" = Some (Raw out) /\
    Forall (fun x =>
              castable (uint_bits "uint16")
                (rescale_float32 minimum maximum 0 (2 ^ uint_bits "uint16" - 1) x)
              = true)
      [sf_of_Z Single 9; sf_of_Z Single 5; S754_zero false] /\
    frombuffer "uint16" out
    = Ok (NdUInt (uint_bits "uint16")
            (map (fun x =>
                    sf_trunc (rescale_float32 minimum maximum
                                0 (2 ^ uint_bits "uint16" - 1) x))
               [sf_of_Z Single 9; sf_of_Z Single 5; S754_zero false])).
Proof.
  destruct (convert_float32_to_uint determine_bit_depth_by_size sample_disk_float32
              "/data/f.raw" "/data/f.dat" "uint16" sample_dat_float32 three_samples
              [sf_of_Z Single 9; sf_of_Z Single 5; S754_zero false])
    as (minimum & maximum & out & Hscan & Hrun & Hout & Hvalues).
  - reflexivity.
  - reflexivity.
  - reflexivity.
  - reflexivity.
  - reflexivity.
  - cbn. lia.
  - reflexivity.
  - exists minimum, maximum, out.
    assert (Hrange : (minimum, maximum) = (S754_zero false, sf_of_Z Single 9)).
    { vm_compute in Hscan. vm_compute. congruence. }
    injection Hrange as -> ->.
    assert (Hcast : Forall (fun x =>
                      castable (uint_bits "uint16")
                        (rescale_float32 (S754_zero false) (sf_of_Z Single 9)
                           0 (2 ^ uint_bits "uint16" - 1) x) = true)
                      [sf_of_Z Single 9; sf_of_Z Single 5; S754_zero false]).
    { repeat constructor. }
    repeat (split; [assumption |]). apply Hvalues, Hcast.
Defined.

Lemma write_metadata_paths_witness :
  dat_filepath relative_args = "scan" +:+ "/" +:+ "p" +:+ ".dat" /\
  bounds_filepath relative_args
  = "scan" +:+ "/" +:+ "scan" +:+ "/" +:+ "p" +:+ ".float32.range".
Proof.
  apply (write_metadata_paths relative_args "scan" "p");
    try reflexivity; discriminate.
Defined.
